(** * HealthPrevent backend: goal progress, streaks and health-signal scoring

    A shallow embedding of
      - [backend/models/HealthGoal.js]      ([calculateProgress], [updateStreak],
        the schema's range validators),
      - [backend/controllers/goalController.js] ([addCheckIn], [updateGoal]),
      - [backend/services/aiService.js]     ([calculateHealthScore],
        [identifyConcerns]),
    together with the slice of the JavaScript runtime these functions rely on,
    and, further down, of the goal's date virtuals, of [getGoalStats] and of
    the observation, recommendation and correlation helpers of the service.

    Modelling conventions.
      - A JavaScript number is a rational extended with [NaN] and the two
        infinities.  The arithmetic on readings (what [parseFloat] and
        [ToNumber] give, the sums, differences, quotients and products of
        [calculateProgress], of the averages, fractions and concern tests
        and of [getGoalStats]) is binary64: [Binary64.round] is IEEE 754
        rounding to nearest, ties to even, with its overflow to an infinity.
        The sign of zero is not represented: 0 stands for both zeros, which
        differ only in what dividing by them gives.
      - Counters, array lengths and streaks are integers.  A [Date] is its
        time value, an integer number of milliseconds; the day counts of
        [updateStreak] and of the virtuals, the severity band and the
        confidence of a correlation are computed from the exact quotient or
        product.
      - A method that sorts [this.checkIns] in place returns the goal it leaves
        behind next to its completion (a returned value or a thrown TypeError).
*)

From Stdlib Require Import ZArith QArith Qround Qreduction Qabs Qpower Lqa.
From Stdlib Require Import List Bool Ascii String Lia Permutation Sorted.
From Stdlib Require Import SpecFloat.
Import ListNotations.

(** ** The JavaScript runtime slice *)

Module JS.

Local Open Scope Q_scope.

(** *** Numbers *)

Inductive number : Type :=
| NaN
| PosInf
| NegInf
| Fin (q : Q).

Definition num_of_Z (z : Z) : number := Fin (inject_Z z).
Definition num_of_nat (n : nat) : number := num_of_Z (Z.of_nat n).

Definition Qltb (a b : Q) : bool :=
  match a ?= b with Lt => true | _ => false end.
Definition Qeqb (a b : Q) : bool :=
  match a ?= b with Eq => true | _ => false end.

Definition isNaN (x : number) : bool :=
  match x with NaN => true | _ => false end.

Definition neg (x : number) : number :=
  match x with
  | NaN => NaN
  | PosInf => NegInf
  | NegInf => PosInf
  | Fin q => Fin (Qred (- q))
  end.

(** The exact sum, difference, product and quotient, with the language's
    rules for [NaN], the infinities and a division by zero; [Binary64]
    below rounds them. *)
Definition add (x y : number) : number :=
  match x, y with
  | NaN, _ | _, NaN => NaN
  | PosInf, NegInf | NegInf, PosInf => NaN
  | PosInf, _ | _, PosInf => PosInf
  | NegInf, _ | _, NegInf => NegInf
  | Fin a, Fin b => Fin (Qred (a + b))
  end.

Definition sub (x y : number) : number := add x (neg y).

Definition inf_of_sign (negative : bool) : number :=
  if negative then NegInf else PosInf.

Definition is_negative (x : number) : bool :=
  match x with
  | NegInf => true
  | Fin q => Qltb q 0
  | _ => false
  end.

Definition is_zero (x : number) : bool :=
  match x with Fin q => Qeqb q 0 | _ => false end.

Definition is_infinite (x : number) : bool :=
  match x with PosInf | NegInf => true | _ => false end.

Definition mul (x y : number) : number :=
  match x, y with
  | NaN, _ | _, NaN => NaN
  | Fin a, Fin b => Fin (Qred (a * b))
  | _, _ =>
      if is_zero x || is_zero y then NaN
      else inf_of_sign (xorb (is_negative x) (is_negative y))
  end.

Definition div (x y : number) : number :=
  match x, y with
  | NaN, _ | _, NaN => NaN
  | Fin a, Fin b =>
      if Qeqb b 0 then
        (if Qeqb a 0 then NaN else inf_of_sign (Qltb a 0))
      else Fin (Qred (a / b))
  | Fin _, _ => Fin 0
  | _, Fin _ => inf_of_sign (xorb (is_negative x) (is_negative y))
  | _, _ => NaN
  end.

(** [x < y]; every comparison with [NaN] is false. *)
Definition lt (x y : number) : bool :=
  match x, y with
  | NaN, _ | _, NaN => false
  | _, NegInf => false
  | NegInf, _ => true
  | PosInf, _ => false
  | _, PosInf => true
  | Fin a, Fin b => Qltb a b
  end.

Definition gt (x y : number) : bool := lt y x.

(** [x <= y] *)
Definition le (x y : number) : bool :=
  match x, y with
  | NaN, _ | _, NaN => false
  | _, _ => negb (lt y x)
  end.

Definition ge (x y : number) : bool := le y x.

(** [x === y] on numbers *)
Definition strict_eq (x y : number) : bool :=
  match x, y with
  | PosInf, PosInf | NegInf, NegInf => true
  | Fin a, Fin b => Qeqb a b
  | _, _ => false
  end.

Definition strict_neq (x y : number) : bool := negb (strict_eq x y).

(** [Math.round]: the nearest integer, ties towards +Infinity. *)
Definition Math_round (x : number) : number :=
  match x with
  | Fin q => num_of_Z (Qfloor (q + (1 # 2)))
  | _ => x
  end.

(** [Math.min] and [Math.max] of two arguments. *)
Definition Math_min (x y : number) : number :=
  match x, y with
  | NaN, _ | _, NaN => NaN
  | _, _ => if lt x y then x else y
  end.

Definition Math_max (x y : number) : number :=
  match x, y with
  | NaN, _ | _, NaN => NaN
  | _, _ => if lt x y then y else x
  end.

Definition Math_abs (x : number) : number :=
  match x with
  | NaN => NaN
  | PosInf | NegInf => PosInf
  | Fin q => Fin (Qred (Qabs q))
  end.

(** *** Binary64

    What the language computes: an operation returns the binary64 value
    nearest to its exact result, of two equally near the one whose last bit
    is even (IEEE 754 round to nearest, ties to even), and an infinity when
    that value would be 2^1024 or more.  A binary64 value has 53 significant
    bits, the last of them weighing 2^-1074 at least. *)

Module Binary64.

(** For [q > 0], the [e] with 2^e <= q < 2^(e+1). *)
Definition binade (q : Q) : Z :=
  let e := (Z.log2 (Qnum q) - Z.log2 (Z.pos (Qden q)))%Z in
  if Qltb q (2 ^ e) then (e - 1)%Z else e.

(** The integer nearest to [q], the even one of two equally near. *)
Definition nearest_even (q : Q) : Z :=
  let f := Qfloor q in
  match Qcompare (q - inject_Z f) (1 # 2) with
  | Lt => f
  | Gt => (f + 1)%Z
  | Eq => if Z.even f then f else (f + 1)%Z
  end.

(** The weight of the last of the 53 bits kept of [q > 0]. *)
Definition last_bit (q : Q) : Z := Z.max (binade q - 52) (-1074).

(** [q > 0] to the nearest multiple of the weight of its last bit. *)
Definition nearest (q : Q) : Q :=
  inject_Z (nearest_even (q / 2 ^ last_bit q)) * 2 ^ last_bit q.

Definition round_pos (q : Q) : number :=
  let r := nearest q in
  if Qltb r (2 ^ 1024) then Fin (Qred r) else PosInf.

(** The binary64 value of the exact result [q]. *)
Definition round (q : Q) : number :=
  match Qcompare q 0 with
  | Eq => Fin 0
  | Gt => round_pos q
  | Lt => neg (round_pos (- q))
  end.

Definition rounded (x : number) : number :=
  match x with
  | Fin q => round q
  | _ => x
  end.

(** [x + y], [x - y], [x * y] and [x / y] *)
Definition add (x y : number) : number := rounded (add x y).
Definition sub (x y : number) : number := rounded (sub x y).
Definition mul (x y : number) : number := rounded (mul x y).
Definition div (x y : number) : number := rounded (div x y).

(** A decimal literal of the source, such as [0.8]. *)
Definition literal (q : Q) : number := round q.

End Binary64.

(** *** Numeric strings

    [parseFloat] reads the longest prefix that is a StrDecimalLiteral after
    leading white space; [ToNumber] wants the whole trimmed string to be a
    StringNumericLiteral.  Either gives the binary64 value of the exact
    value read.  White space is the ASCII part of the language's WhiteSpace
    and LineTerminator sets. *)

Local Open Scope string_scope.
Local Open Scope Z_scope.

Definition is_ws (c : ascii) : bool :=
  match nat_of_ascii c with
  | 9%nat | 10%nat | 11%nat | 12%nat | 13%nat | 32%nat => true
  | _ => false
  end.

Fixpoint skip_ws (s : string) : string :=
  match s with
  | String c s' => if is_ws c then skip_ws s' else s
  | EmptyString => s
  end.

(** The value of [c] as a digit in the given radix. *)
Definition digit_of (radix : Z) (c : ascii) : option Z :=
  let n := Z.of_nat (nat_of_ascii c) in
  let d :=
    if (48 <=? n) && (n <=? 57) then Some (n - 48)
    else if (97 <=? n) && (n <=? 102) then Some (n - 87)
    else if (65 <=? n) && (n <=? 70) then Some (n - 55)
    else None in
  match d with
  | Some v => if v <? radix then Some v else None
  | None => None
  end.

(** Reads digits, returning the accumulated value, how many were read and
    what is left. *)
Fixpoint scan_digits (radix : Z) (s : string) (acc : Z) (n : nat)
  : Z * nat * string :=
  match s with
  | String c s' =>
      match digit_of radix c with
      | Some d => scan_digits radix s' (radix * acc + d) (S n)
      | None => (acc, n, s)
      end
  | EmptyString => (acc, n, s)
  end.

Fixpoint strip_prefix (p s : string) : option string :=
  match p, s with
  | EmptyString, _ => Some s
  | String a p', String b s' =>
      if Ascii.eqb a b then strip_prefix p' s' else None
  | String _ _, EmptyString => None
  end.

(** ExponentPart, when one is there: [e] or [E], a sign, at least one digit. *)
Definition scan_exponent (s : string) : Z * string :=
  match s with
  | String c r =>
      if Ascii.eqb c "e" || Ascii.eqb c "E" then
        let '(negative, r') :=
          match r with
          | String "+" t => (false, t)
          | String "-" t => (true, t)
          | _ => (false, r)
          end in
        let '(e, n, rest) := scan_digits 10 r' 0 0%nat in
        match n with
        | O => (0, s)
        | S _ => (if negative then - e else e, rest)
        end
      else (0, s)
  | EmptyString => (0, s)
  end.

(** [m * 10^e] *)
Definition scale10 (m e : Z) : Q :=
  if 0 <=? e then inject_Z (m * 10 ^ e)
  else Qred (m # Z.to_pos (10 ^ (- e))).

Definition scan_unsigned (s : string) : option (number * string) :=
  match strip_prefix "Infinity" s with
  | Some rest => Some (PosInf, rest)
  | None =>
      let '(ip, ni, r1) := scan_digits 10 s 0 0%nat in
      let '(m, nf, r2) :=
        match r1 with
        | String "." r =>
            let '(m, nf, r2) := scan_digits 10 r ip 0%nat in
            match ni, nf with
            | O, O => (ip, O, r1)
            | _, _ => (m, nf, r2)
            end
        | _ => (ip, O, r1)
        end in
      match ni, nf with
      | O, O => None
      | _, _ =>
          let '(e, r3) := scan_exponent r2 in
          Some (Fin (scale10 m (e - Z.of_nat nf)), r3)
      end
  end.

Definition scan_decimal (s : string) : option (number * string) :=
  match s with
  | String "+" r => scan_unsigned r
  | String "-" r =>
      match scan_unsigned r with
      | Some (n, rest) => Some (neg n, rest)
      | None => None
      end
  | _ => scan_unsigned s
  end.

(** The exact value of the decimal prefix [parseFloat] reads. *)
Definition prefix_value (s : string) : number :=
  match scan_decimal (skip_ws s) with
  | Some (n, _) => n
  | None => NaN
  end.

(** [parseFloat] of a string *)
Definition parseFloat_string (s : string) : number :=
  Binary64.rounded (prefix_value s).

(** A NonDecimalIntegerLiteral: [0x], [0o] or [0b] and at least one digit. *)
Definition scan_non_decimal (s : string) : option (number * string) :=
  match s with
  | String "0" (String c r) =>
      let radix :=
        if Ascii.eqb c "x" || Ascii.eqb c "X" then Some 16
        else if Ascii.eqb c "o" || Ascii.eqb c "O" then Some 8
        else if Ascii.eqb c "b" || Ascii.eqb c "B" then Some 2
        else None in
      match radix with
      | Some b =>
          let '(v, n, rest) := scan_digits b r 0 0%nat in
          match n with
          | O => None
          | S _ => Some (num_of_Z v, rest)
          end
      | None => None
      end
  | _ => None
  end.

(** The exact value of a string that is a numeric literal. *)
Definition literal_value (s : string) : number :=
  let t := skip_ws s in
  match t with
  | EmptyString => Fin 0
  | _ =>
      let whole (r : option (number * string)) : option number :=
        match r with
        | Some (n, rest) =>
            match skip_ws rest with
            | EmptyString => Some n
            | _ => None
            end
        | None => None
        end in
      match whole (scan_non_decimal t) with
      | Some n => n
      | None =>
          match whole (scan_decimal t) with
          | Some n => n
          | None => NaN
          end
      end
  end.

(** [ToNumber] of a string *)
Definition StringToNumber (s : string) : number :=
  Binary64.rounded (literal_value s).

(** *** Values

    The values a JSON request body or a [Mixed] schema path can hold, as far
    as the code inspects them: of an object only the properties [systolic]
    and [diastolic] are ever read, [JUndefined] standing for an absent one.
    [JNum n] is the number value a numeric literal [n] denotes, the binary64
    value of [n]. *)

Inductive value : Type :=
| JUndefined
| JNull
| JBool (b : bool)
| JNum (n : number)
| JStr (s : string)
| JObj (systolic diastolic : value).

(** The number value of [JNum n]. *)
Definition number_value (n : number) : number := Binary64.rounded n.

(** ToBoolean *)
Definition truthy (v : value) : bool :=
  match v with
  | JUndefined | JNull => false
  | JBool b => b
  | JNum n => negb (isNaN (number_value n) || is_zero (number_value n))
  | JStr s => match s with EmptyString => false | _ => true end
  | JObj _ _ => true
  end.

(** [typeof v === 'object' && v !== null] *)
Definition is_object (v : value) : bool :=
  match v with JObj _ _ => true | _ => false end.

(** ToNumber *)
Definition ToNumber (v : value) : number :=
  match v with
  | JUndefined => NaN
  | JNull => Fin 0
  | JBool b => if b then Fin 1 else Fin 0
  | JNum n => number_value n
  | JStr s => StringToNumber s
  | JObj _ _ => NaN
  end.

(** [parseFloat(v)]: [v] is turned into a string first, so only numbers and
    strings can give anything but [NaN]. *)
Definition parseFloat (v : value) : number :=
  match v with
  | JNum n => number_value n
  | JStr s => parseFloat_string s
  | _ => NaN
  end.

(** *** Completions *)

Inductive error : Type :=
| TypeError.

Inductive completion (A : Type) : Type :=
| Normal (a : A)
| Throw (e : error).
Arguments Normal {A} a.
Arguments Throw {A} e.

Definition bind {A B} (c : completion A) (k : A -> completion B)
  : completion B :=
  match c with
  | Normal a => k a
  | Throw e => Throw e
  end.

Inductive property : Type :=
| systolic
| diastolic.

(** [v.p]: reading a property of [undefined] or [null] throws; a primitive
    has neither property. *)
Definition get (v : value) (p : property) : completion value :=
  match v with
  | JUndefined | JNull => Throw TypeError
  | JObj s d => Normal (match p with systolic => s | diastolic => d end)
  | _ => Normal JUndefined
  end.

(** *** [Array.prototype.sort]

    The sort is stable; [cmp a b] is the sign of the comparator's result,
    [Lt] placing [a] before [b].  Insertion from the right keeps equal
    elements in their original order. *)

Section Sort.
Context {A : Type} (cmp : A -> A -> comparison).

Fixpoint insert (x : A) (l : list A) : list A :=
  match l with
  | [] => [x]
  | y :: l' =>
      match cmp x y with
      | Gt => y :: insert x l'
      | _ => x :: l
      end
  end.

Definition sort (l : list A) : list A := fold_right insert [] l.
End Sort.

End JS.

Declare Scope js_scope.
Delimit Scope js_scope with js.
Notation "x <- c ;; k" := (JS.bind c (fun x => k))
(at level 61, c at next level, right associativity) : js_scope.

(** ** The Standard Library's binary64

    [SpecFloat] specifies the IEEE 754 operations on bit patterns; the
    numbers they stand for serve to compare [JS.Binary64] with it. *)

Module Ieee754.
Import JS.

Definition prec : Z := 53.
Definition emax : Z := 1024.

(** The number a binary64 datum stands for, the sign of a zero dropped. *)
Definition to_number (x : spec_float) : number :=
  match x with
  | S754_zero _ => Fin 0
  | S754_infinity negative => if negative then NegInf else PosInf
  | S754_nan => NaN
  | S754_finite negative m e =>
      Fin (Qred ((if negative then -1 else 1) * inject_Z (Z.pos m) * 2 ^ e))
  end.

(** The datum nearest to the quotient of two integers, the second one
    positive: the library's division, which does not round its operands. *)
Definition quotient (n d : Z) : spec_float :=
  if (n =? 0)%Z then S754_zero false
  else
    let '(q, e, l) := SFdiv_core_binary prec emax (Z.abs n) 0 d 0 in
    binary_round_aux prec emax (n <? 0)%Z q e l.

Definition add : spec_float -> spec_float -> spec_float := SFadd prec emax.
Definition sub : spec_float -> spec_float -> spec_float := SFsub prec emax.
Definition mul : spec_float -> spec_float -> spec_float := SFmul prec emax.
Definition div : spec_float -> spec_float -> spec_float := SFdiv prec emax.

(** Decimal fractions, given by numerator and denominator, and exact
    results on either side of a rounding boundary, of the overflow
    threshold and of the least positive value. *)
Definition samples : list (Z * Z) :=
  [(92, 10); (71, 10); (47, 10); (68, 10); (83, 10); (16, 10); (1, 10);
   (8, 10); (4, 10); (1, 3); (2, 3); (-5, 3); (1450, 10000); (23, 160);
   (7, 1); (0, 5); (2 ^ 53 + 1, 1); (2 ^ 53 + 3, 1); (2 ^ 53 - 1, 7);
   (1, 2 ^ 53 - 1); (5, 3 * 2 ^ 1074); (1, 2 ^ 1075); (3, 2 ^ 1075);
   (3, 2 ^ 1076); (1, 2 ^ 1074); (2 ^ 1024 - 2 ^ 970, 1);
   (2 ^ 1024 - 2 ^ 970 - 1, 1); (- 2 ^ 1024, 1); (10 ^ 400, 1);
   (1, 10 ^ 400); (2 ^ 53 + 1, 2 ^ 1075)]%Z.

End Ieee754.

(** ** [backend/models/HealthGoal.js] *)

Module Status.
(** [status: enum ['active', 'completed', 'abandoned']] *)
Inductive t : Type :=
| active
| completed
| abandoned.

Definition eqb (a b : t) : bool :=
  match a, b with
  | active, active | completed, completed | abandoned, abandoned => true
  | _, _ => false
  end.
End Status.

Module Frequency.
(** [frequency: enum ['daily', 'weekly', 'monthly', 'custom']] *)
Inductive t : Type :=
| daily
| weekly
| monthly
| custom.

Definition eqb (a b : t) : bool :=
  match a, b with
  | daily, daily | weekly, weekly | monthly, monthly | custom, custom => true
  | _, _ => false
  end.
End Frequency.

Module HealthGoal.
Import JS.
Local Open Scope Z_scope.
Local Open Scope js_scope.

(** An element of [checkIns]. *)
Record CheckIn : Type := {
  date : Z;
  completed : bool;
  value : JS.value;
  notes : option string
}.

(** The nested path [metrics]. *)
Record Metrics : Type := {
  current : JS.value;
  target : JS.value;
  unit : option string
}.

(** A HealthGoal document, with the paths the goal logic reads or writes
    and the ones that identify the goal. *)
Record Goal : Type := {
  user : string;
  title : string;
  status : Status.t;
  progress : number;
  metrics : Metrics;
  frequency : Frequency.t;
  streak : Z;
  startDate : Z;
  targetDate : Z;
  completedDate : option Z;
  checkIns : list CheckIn
}.

Definition set_checkIns (g : Goal) (l : list CheckIn) : Goal :=
  {| user := user g; title := title g; status := status g;
     progress := progress g; metrics := metrics g;
     frequency := frequency g; streak := streak g;
     startDate := startDate g; targetDate := targetDate g;
     completedDate := completedDate g; checkIns := l |}.

Definition set_progress (g : Goal) (p : number) : Goal :=
  {| user := user g; title := title g; status := status g;
     progress := p; metrics := metrics g;
     frequency := frequency g; streak := streak g;
     startDate := startDate g; targetDate := targetDate g;
     completedDate := completedDate g; checkIns := checkIns g |}.

Definition set_streak (g : Goal) (s : Z) : Goal :=
  {| user := user g; title := title g; status := status g;
     progress := progress g; metrics := metrics g;
     frequency := frequency g; streak := s;
     startDate := startDate g; targetDate := targetDate g;
     completedDate := completedDate g; checkIns := checkIns g |}.

Definition set_completed (g : Goal) (now : Z) : Goal :=
  {| user := user g; title := title g; status := Status.completed;
     progress := progress g; metrics := metrics g;
     frequency := frequency g; streak := streak g;
     startDate := startDate g; targetDate := targetDate g;
     completedDate := Some now; checkIns := checkIns g |}.

Definition set_frequency (g : Goal) (f : Frequency.t) : Goal :=
  {| user := user g; title := title g; status := status g;
     progress := progress g; metrics := metrics g;
     frequency := f; streak := streak g;
     startDate := startDate g; targetDate := targetDate g;
     completedDate := completedDate g; checkIns := checkIns g |}.

(** The comparator [(a, b) => new Date(b.date) - new Date(a.date)], by the
    sign of its result. *)
Definition by_date_desc (a b : CheckIn) : comparison :=
  Z.compare (date b) (date a).

(** [this.checkIns.sort(...)]: the array is sorted in place and returned. *)
Definition sort_checkIns (g : Goal) : Goal * list CheckIn :=
  let sorted := sort by_date_desc (checkIns g) in
  (set_checkIns g sorted, sorted).

(** Reading a field of [arr[0]], which is [undefined] on an empty array. *)
Definition of_element {A} (o : option CheckIn) (f : CheckIn -> A)
  : completion A :=
  match o with
  | Some c => Normal (f c)
  | None => Throw TypeError
  end.

Definition calculateProgress (g : Goal) : Goal * completion number :=
  if negb (truthy (target (metrics g))) then (g, Normal (progress g))
  else if Status.eqb (status g) Status.completed then (g, Normal (Fin 100))
  else if (List.length (checkIns g) =? 0)%nat then (g, Normal (Fin 0))
  else
    let '(g', sorted) := sort_checkIns g in
    let latestCheckIn := nth_error sorted 0 in
    let this_target := target (metrics g') in
    (g',
     if is_object (current (metrics g')) then
       ts <- get this_target systolic ;;
       both <- (if truthy ts
                then td <- get this_target diastolic ;; Normal (truthy td)
                else Normal false) ;;
       if (both : bool) then
         v <- of_element latestCheckIn value ;;
         vs <- get v systolic ;;
         ts <- get this_target systolic ;;
         let systolicProgress :=
           Binary64.mul (Binary64.div (ToNumber vs) (ToNumber ts)) (Fin 100) in
         v <- of_element latestCheckIn value ;;
         vd <- get v diastolic ;;
         td <- get this_target diastolic ;;
         let diastolicProgress :=
           Binary64.mul (Binary64.div (ToNumber vd) (ToNumber td)) (Fin 100) in
         Normal (Math_min
                   (Math_round
                      (Binary64.div
                         (Binary64.add systolicProgress diastolicProgress)
                         (Fin 2)))
                   (Fin 100))
       else Normal (progress g')
     else
       v <- of_element latestCheckIn value ;;
       let currentValue := parseFloat v in
       let targetValue := parseFloat this_target in
       if isNaN currentValue || isNaN targetValue then Normal (progress g')
       else
         Normal (Math_min
                   (Math_round
                      (Binary64.mul (Binary64.div currentValue targetValue)
                         (Fin 100)))
                   (Fin 100))).

Definition ms_per_day : Z := 1000 * 60 * 60 * 24.

(** [let expectedDiff = 1; if (this.frequency === 'weekly') expectedDiff = 7;
    else if (this.frequency === 'monthly') expectedDiff = 30;] *)
Definition expectedDiff (this_frequency : Frequency.t) : Z :=
  if Frequency.eqb this_frequency Frequency.weekly then 7
  else if Frequency.eqb this_frequency Frequency.monthly then 30
  else 1.

(** The body of the [for] loop of [updateStreak], over the check-ins at
    indices [1 ..]; a [break] returns the streak reached. *)
Fixpoint streak_loop (this_frequency : Frequency.t) (rest : list CheckIn)
  (streak : Z) (prevDate : Z) : Z :=
  match rest with
  | [] => streak
  | checkIn :: rest' =>
      let checkInDate := date checkIn in
      let diffTime := prevDate - checkInDate in
      let diffDays :=
        Math_round (div (num_of_Z diffTime) (num_of_Z ms_per_day)) in
      if negb (completed checkIn)
         || strict_neq diffDays (num_of_Z (expectedDiff this_frequency))
      then streak
      else streak_loop this_frequency rest' (streak + 1) checkInDate
  end.

Definition updateStreak (g : Goal) : Goal * completion Z :=
  if (List.length (checkIns g) =? 0)%nat then (g, Normal 0)
  else
    let '(g', sortedCheckIns) := sort_checkIns g in
    let latestCheckIn := nth_error sortedCheckIns 0 in
    (g',
     latestDate <- of_element latestCheckIn date ;;
     done <- of_element latestCheckIn completed ;;
     if negb done then Normal 0
     else
       Normal (streak_loop (frequency g') (tl sortedCheckIns) 1 latestDate)).

(** The range validators of the schema: [progress: min 0, max 100] and
    [streak: min 0]. *)
Definition validate (g : Goal) : bool :=
  le (Fin 0) (progress g) && le (progress g) (Fin 100) && (0 <=? streak g).

End HealthGoal.

(** ** [backend/controllers/goalController.js] *)

Module CheckInRequest.
(** [date] as the body gives it: a number of milliseconds, or a string that
    is a date, held by the time value it denotes. *)
Inductive date_value : Type :=
| Milliseconds (n : Z)
| DateString (time : Z).

(** The time value of the [Date] the schema casts the [date] to. *)
Definition time_value (d : date_value) : Z :=
  match d with
  | Milliseconds n => n
  | DateString time => time
  end.

(** ToBoolean: of these only the number 0 is falsy. *)
Definition truthy (d : date_value) : bool :=
  match d with
  | Milliseconds n => negb (n =? 0)%Z
  | DateString _ => true
  end.

(** [const { date, completed, value, notes } = req.body]; an absent [date]
    or [completed] is [None], and so is a [date] that is [null], [false] or
    the empty string, which [!date] refuses like an absent one. *)
Record body : Type := {
  date : option date_value;
  completed : option bool;
  value : JS.value;
  notes : option string
}.
End CheckInRequest.

Module GoalUpdate.
(** The body of [PUT /api/goals/:id]: the top-level paths it sets. *)
Record body : Type := {
  title : option string;
  status : option Status.t;
  progress : option JS.number;
  metrics : option HealthGoal.Metrics;
  frequency : option Frequency.t;
  streak : option Z;
  checkIns : option (list HealthGoal.CheckIn)
}.
End GoalUpdate.

Module GoalController.
Import JS HealthGoal.
Local Open Scope Z_scope.

(** What a handler answers: [res.status(200).json({success, data})], an
    [ErrorResponse] with its status code handed to [next], or an exception
    (a thrown error or a rejected [save]) caught by [asyncHandler].  Only
    [Success] leaves the returned goal in the collection. *)
Inductive response : Type :=
| Success (data : Goal)
| ErrorResponse (statusCode : Z)
| Rejected.

Definition or_default {A} (o : option A) (d : A) : A :=
  match o with Some a => a | None => d end.

(** [goal.checkIns.push({date, completed: completed || false, value, notes})] *)
Definition push_checkIn (goal : Goal) (date : Z) (b : CheckInRequest.body)
  : Goal :=
  set_checkIns goal
    (checkIns goal ++
     [{| HealthGoal.date := date;
         HealthGoal.completed := or_default (CheckInRequest.completed b) false;
         HealthGoal.value := CheckInRequest.value b;
         HealthGoal.notes := CheckInRequest.notes b |}]).

(** [goal.save()] runs the schema's validators. *)
Definition save (goal : Goal) : response :=
  if validate goal then Success goal else Rejected.

(** [addCheckIn]; [found] is the result of [HealthGoal.findById], [req_user]
    is [req.user.id], [now] the time value of [new Date()]. *)
Definition addCheckIn (now : Z) (req_user : string) (found : option Goal)
  (b : CheckInRequest.body) : response :=
  match CheckInRequest.date b with
  | None => ErrorResponse 400
  | Some date =>
      if negb (CheckInRequest.truthy date) then ErrorResponse 400
      else
      match found with
      | None => ErrorResponse 404
      | Some goal =>
          if negb (String.eqb (user goal) req_user) then ErrorResponse 401
          else
            let goal := push_checkIn goal (CheckInRequest.time_value date) b in
            let '(goal, p) := calculateProgress goal in
            match p with
            | Throw _ => Rejected
            | Normal p =>
                let goal := set_progress goal p in
                let '(goal, s) := updateStreak goal in
                match s with
                | Throw _ => Rejected
                | Normal s =>
                    let goal := set_streak goal s in
                    let goal :=
                      if ge (progress goal) (Fin 100)
                         && or_default (CheckInRequest.completed b) false
                      then set_completed goal now
                      else goal in
                    save goal
                end
            end
      end
  end.

(** [HealthGoal.findByIdAndUpdate(id, req.body, {new: true, runValidators:
    true})]: the paths of the body are set, the others kept, after the
    validators of the paths that are set have run. *)
Definition apply_update (goal : Goal) (b : GoalUpdate.body) : Goal :=
  {| user := user goal;
     title := or_default (GoalUpdate.title b) (title goal);
     status := or_default (GoalUpdate.status b) (status goal);
     progress := or_default (GoalUpdate.progress b) (progress goal);
     metrics := or_default (GoalUpdate.metrics b) (metrics goal);
     frequency := or_default (GoalUpdate.frequency b) (frequency goal);
     streak := or_default (GoalUpdate.streak b) (streak goal);
     startDate := startDate goal;
     targetDate := targetDate goal;
     completedDate := completedDate goal;
     checkIns := or_default (GoalUpdate.checkIns b) (checkIns goal) |}.

(** The range validators of [progress] and [streak]; a [title] of the body
    is taken to pass its own. *)
Definition update_validators (b : GoalUpdate.body) : bool :=
  match GoalUpdate.progress b with
  | Some p => le (Fin 0) p && le p (Fin 100)
  | None => true
  end
  && match GoalUpdate.streak b with
     | Some s => 0 <=? s
     | None => true
     end.

Definition updateGoal (req_user : string) (found : option Goal)
  (b : GoalUpdate.body) : response :=
  match found with
  | None => ErrorResponse 404
  | Some goal =>
      if negb (String.eqb (user goal) req_user) then ErrorResponse 401
      else if update_validators b then Success (apply_update goal b)
      else Rejected
  end.

End GoalController.

(** ** [backend/services/aiService.js] *)

Module AiService.
Import JS.
Local Open Scope Z_scope.
Local Open Scope string_scope.
Local Open Scope js_scope.

(** A metric sample as the analysis reads it. *)
Record Metric : Type := {
  type : string;
  value : JS.value;
  timestamp : Z
}.

(** [metrics.filter(m => m.type === name)] *)
Definition of_type (name : string) (metrics : list Metric) : list Metric :=
  filter (fun m => String.eqb (type m) name) metrics.

(** [Array.prototype.filter] with a callback that can throw. *)
Fixpoint filter_c {A} (f : A -> completion bool) (l : list A)
  : completion (list A) :=
  match l with
  | [] => Normal []
  | x :: l' =>
      keep <- f x ;;
      kept <- filter_c f l' ;;
      Normal (if (keep : bool) then x :: kept else kept)
  end.

(** [ms.reduce((sum, m) => sum + parseFloat(m.value), 0) / ms.length] *)
Definition average (ms : list Metric) : number :=
  Binary64.div
    (fold_left (fun sum m => Binary64.add sum (parseFloat (value m))) ms
       (Fin 0))
    (num_of_nat (List.length ms)).

Definition non_empty {A} (l : list A) : bool := (0 <? List.length l)%nat.

Definition calculateHealthScore (metrics : list Metric) : completion number :=
  let baseScore := 70 in
  let modifiers := 0 in
  (* Check heart rate *)
  let heartRateMetrics := of_type "heart_rate" metrics in
  let modifiers :=
    if non_empty heartRateMetrics then
      let avgHeartRate := average heartRateMetrics in
      if lt avgHeartRate (Fin 60) || gt avgHeartRate (Fin 100)
      then modifiers - 5
      else if ge avgHeartRate (Fin 60) && le avgHeartRate (Fin 80)
      then modifiers + 5
      else modifiers
    else modifiers in
  (* Check blood pressure *)
  let bpMetrics := of_type "blood_pressure" metrics in
  modifiers <-
    (if non_empty bpMetrics then
       optimalReadings <-
         filter_c (fun m =>
                     s <- get (value m) systolic ;;
                     if lt (ToNumber s) (Fin 120)
                     then d <- get (value m) diastolic ;;
                          Normal (lt (ToNumber d) (Fin 80))
                     else Normal false) bpMetrics ;;
       let percentOptimal :=
         Binary64.div (num_of_nat (List.length optimalReadings))
           (num_of_nat (List.length bpMetrics)) in
       Normal (if gt percentOptimal (Binary64.literal (8 # 10))
               then modifiers + 10
               else if lt percentOptimal (Binary64.literal (4 # 10))
               then modifiers - 10
               else modifiers)
     else Normal modifiers) ;;
  (* Check sleep *)
  let sleepMetrics := of_type "sleep" metrics in
  let modifiers :=
    if non_empty sleepMetrics then
      let avgSleep := average sleepMetrics in
      if ge avgSleep (Fin 7) && le avgSleep (Fin 9) then modifiers + 8
      else if lt avgSleep (Fin 6) then modifiers - 8
      else if lt avgSleep (Fin 7) then modifiers - 4
      else modifiers
    else modifiers in
  (* Check activity level *)
  let stepMetrics := of_type "steps" metrics in
  let modifiers :=
    if non_empty stepMetrics then
      let avgSteps := average stepMetrics in
      if ge avgSteps (Fin 10000) then modifiers + 10
      else if ge avgSteps (Fin 7500) then modifiers + 5
      else if lt avgSteps (Fin 5000) then modifiers - 5
      else modifiers
    else modifiers in
  let finalScore := num_of_Z (baseScore + modifiers) in
  let finalScore := Math_max (Fin 0) (Math_min (Fin 100) finalScore) in
  Normal (Math_round finalScore).

Definition bp_concern : string :=
  "Several blood pressure readings are above the recommended range.".
Definition sleep_concern : string :=
  "Your sleep duration varies significantly from day to day, which can impact sleep quality.".
Definition steps_concern : string :=
  "Several days show lower-than-recommended physical activity levels.".

(** The [for] loop over [sleepMetrics[1 ..]], [prev] being
    [sleepMetrics[i-1]]. *)
Fixpoint inconsistent_loop (prev : Metric) (rest : list Metric)
  (inconsistentNights : Z) : Z :=
  match rest with
  | [] => inconsistentNights
  | m :: rest' =>
      let diff :=
        Math_abs (Binary64.sub (ToNumber (value m)) (ToNumber (value prev))) in
      inconsistent_loop m rest'
        (if gt diff (Fin (3 # 2)) then inconsistentNights + 1
         else inconsistentNights)
  end.

Definition identifyConcerns (metrics : list Metric) : completion (list string) :=
  let concerns : list string := [] in
  (* Check for high blood pressure *)
  let bpMetrics := of_type "blood_pressure" metrics in
  concerns <-
    (if non_empty bpMetrics then
       highReadings <-
         filter_c (fun m =>
                     s <- get (value m) systolic ;;
                     if gt (ToNumber s) (Fin 130) then Normal true
                     else d <- get (value m) diastolic ;;
                          Normal (gt (ToNumber d) (Fin 80))) bpMetrics ;;
       Normal (if gt (num_of_nat (List.length highReadings))
                     (Binary64.div (num_of_nat (List.length bpMetrics))
                        (Fin 2))
               then (concerns ++ [bp_concern])%list else concerns)
     else Normal concerns) ;;
  (* Check for sleep consistency *)
  let sleepMetrics := of_type "sleep" metrics in
  let concerns :=
    if (3 <? List.length sleepMetrics)%nat then
      let inconsistentNights :=
        match sleepMetrics with
        | first :: rest => inconsistent_loop first rest 0
        | [] => 0
        end in
      if gt (num_of_Z inconsistentNights)
            (Binary64.div (num_of_nat (List.length sleepMetrics)) (Fin 3))
      then (concerns ++ [sleep_concern])%list else concerns
    else concerns in
  (* Check for sedentary patterns *)
  let stepMetrics := of_type "steps" metrics in
  let concerns :=
    if non_empty stepMetrics then
      let lowActivityDays :=
        filter (fun m => lt (ToNumber (value m)) (Fin 5000)) stepMetrics in
      if gt (num_of_nat (List.length lowActivityDays))
            (Binary64.div (num_of_nat (List.length stepMetrics)) (Fin 2))
      then (concerns ++ [steps_concern])%list else concerns
    else concerns in
  Normal concerns.

End AiService.

(** ** The specification's wording, for comparison with the code *)

Module Spec.
Import JS HealthGoal.
Local Open Scope Z_scope.

(** The longest prefix whose elements all satisfy [p]. *)
Fixpoint take_while {A} (p : A -> bool) (l : list A) : list A :=
  match l with
  | [] => []
  | x :: l' => if p x then x :: take_while p l' else []
  end.

(** The max-date check-in; of several with that date, the first. *)
Fixpoint latest (cis : list CheckIn) : option CheckIn :=
  match cis with
  | [] => None
  | c :: rest =>
      match latest rest with
      | Some m => if date c <? date m then Some m else Some c
      | None => Some c
      end
  end.

(** The check-ins in descending date order. *)
Definition latest_first (cis : list CheckIn) : list CheckIn :=
  sort by_date_desc cis.

Definition descending (a b : CheckIn) : Prop := date b <= date a.

(** "expected gap in days is 1 for daily, 7 for weekly, 30 for monthly";
    none is given for custom. *)
Definition expected_gap (f : Frequency.t) : option Z :=
  match f with
  | Frequency.daily => Some 1
  | Frequency.weekly => Some 7
  | Frequency.monthly => Some 30
  | Frequency.custom => None
  end.

(** The gap between two check-ins in whole days, to the nearest day (half a
    day counting as a whole one). *)
Definition day_gap (prev cur : CheckIn) : Z :=
  (2 * (date prev - date cur) + ms_per_day) / (2 * ms_per_day).

(** "completed = true AND the day-gap from the previous (more recent)
    check-in exactly equals the expected gap" *)
Definition on_schedule (gap : Z) (pair : CheckIn * CheckIn) : bool :=
  let '(prev, cur) := pair in
  completed cur && (day_gap prev cur =? gap).

(** Each check-in after the first, with the one before it. *)
Definition successive {A} (l : list A) : list (A * A) :=
  combine l (tl l).

(** "Returns 0 if [checkIns] is empty or if the most-recent (max-date)
    check-in has [completed = false]"; otherwise 1 plus the number of
    successive on-schedule check-ins up to the first that is not. *)
Definition streak (gap : Z) (cis : list CheckIn) : Z :=
  match latest cis with
  | None => 0
  | Some l =>
      if completed l then
        1 + Z.of_nat
              (List.length
                 (take_while (on_schedule gap) (successive (latest_first cis))))
      else 0
  end.

(** A completed check-in [k] whole days before the time [D]. *)
Definition on_day (D k : Z) (v : JS.value) : CheckIn :=
  {| date := D - k * ms_per_day; completed := true; value := v;
     notes := None |}.

(** "5 consecutive completed daily check-ins (dates D, D-1, D-2, D-3, D-4)" *)
Definition five_days (D : Z) (v0 v1 v2 v3 v4 : JS.value) : list CheckIn :=
  [on_day D 0 v0; on_day D 1 v1; on_day D 2 v2; on_day D 3 v3;
   on_day D 4 v4].

Definition strictly_descending (a b : CheckIn) : Prop := date b < date a.

Import AiService.
Local Open Scope string_scope.

(** "if average < 60 or > 100, modifier -5; if in [60,80], modifier +5;
    otherwise modifier 0" *)
Definition heart_rate_modifier (avg : number) : Z :=
  if lt avg (Fin 60) || gt avg (Fin 100) then -5
  else if ge avg (Fin 60) && le avg (Fin 80) then 5
  else 0.

(** "[7,9] -> +8; <6 -> -8; [6,7) -> -4; >9 -> 0" *)
Definition sleep_modifier (avg : number) : Z :=
  if ge avg (Fin 7) && le avg (Fin 9) then 8
  else if lt avg (Fin 6) then -8
  else if ge avg (Fin 6) && lt avg (Fin 7) then -4
  else 0.

(** ">=10000 -> +10; [7500,10000) -> +5; <5000 -> -5; [5000,7500) -> 0" *)
Definition steps_modifier (avg : number) : Z :=
  if ge avg (Fin 10000) then 10
  else if ge avg (Fin 7500) && lt avg (Fin 10000) then 5
  else if lt avg (Fin 5000) then -5
  else 0.

(** "only if at least one sample of that type exists; absent categories
    contribute 0" *)
Definition contribution (samples : list Metric)
  (modifier : list Metric -> Z) : Z :=
  match samples with
  | [] => 0
  | _ :: _ => modifier samples
  end.

Definition clamp (x lo hi : Z) : Z := Z.max lo (Z.min hi x).

(** Every blood-pressure sample carries a value whose properties can be
    read: the data model gives a sample a number or a pair, never
    [undefined] or [null]. *)
Definition readable (m : Metric) : bool :=
  negb (String.eqb (type m) "blood_pressure")
  || match AiService.value m with
     | JUndefined | JNull => false
     | _ => true
     end.

(** The averages, fractions and differences of the specification can be
    read in two ways: with exact results, a decimal reading being the number
    its digits say ([exact]), and as the language computes them, every
    result and every decimal rounded to binary64 ([Binary64.rounded]). *)
Definition exact (x : number) : number := x.

Section Formulas.
Variable result : number -> number.

(** The number a sample's value is read as where the code applies
    [parseFloat] ... *)
Definition reading (v : JS.value) : number :=
  match v with
  | JStr s => result (prefix_value s)
  | _ => parseFloat v
  end.

(** ... and where it relies on the conversion of an operand. *)
Definition operand (v : JS.value) : number :=
  match v with
  | JStr s => result (literal_value s)
  | _ => ToNumber v
  end.

(** "average of all ... samples": the readings added up in input order, the
    sum divided by their number. *)
Definition sum (readings : list number) : number :=
  fold_left (fun total x => result (add total x)) readings (Fin 0).

Definition average (samples : list Metric) : number :=
  result (div (sum (map (fun m => reading (AiService.value m)) samples))
            (num_of_nat (List.length samples))).

(** "systolic<120 AND diastolic<80 (optimal)" *)
Definition optimal (m : Metric) : bool :=
  match AiService.value m with
  | JObj s d => lt (operand s) (Fin 120) && lt (operand d) (Fin 80)
  | _ => false
  end.

(** "fraction of samples" that are optimal *)
Definition optimal_fraction (bp : list Metric) : number :=
  result (div (num_of_nat (List.length (filter optimal bp)))
            (num_of_nat (List.length bp))).

(** "fraction > 0.8 -> +10; fraction < 0.4 -> -10; else 0" *)
Definition blood_pressure_modifier (fraction : number) : Z :=
  if gt fraction (result (Fin (8 # 10))) then 10
  else if lt fraction (result (Fin (4 # 10))) then -10
  else 0.

Definition modifiers (metrics : list Metric) : Z :=
  contribution (of_type "heart_rate" metrics)
    (fun s => heart_rate_modifier (average s))
  + contribution (of_type "blood_pressure" metrics)
      (fun s => blood_pressure_modifier (optimal_fraction s))
  + contribution (of_type "sleep" metrics)
      (fun s => sleep_modifier (average s))
  + contribution (of_type "steps" metrics)
      (fun s => steps_modifier (average s)).

(** "Final score = clamp(base + sum(modifiers), 0, 100)", an integer. *)
Definition health_score (metrics : list Metric) : Z :=
  clamp (70 + modifiers metrics) 0 100.

(** "consecutive day-pairs (sorted by input order, not by date) differ by
    >1.5 hours" *)
Definition differ (pair : Metric * Metric) : bool :=
  let '(a, b) := pair in
  gt (Math_abs (result (sub (operand (AiService.value b))
                          (operand (AiService.value a)))))
     (Fin (3 # 2)).

Definition differing_pairs (sleep : list Metric) : nat :=
  List.length (filter differ (successive sleep)).

End Formulas.

Definition pair_count (sleep : list Metric) : nat :=
  List.length (successive sleep).

End Spec.

(** ** Concrete goals, requests and metric lists *)

Module Examples.
Import JS HealthGoal.
Local Open Scope string_scope.
Local Open Scope Z_scope.

Definition checkIn (date : Z) (completed : bool) (value : JS.value)
  : CheckIn :=
  {| date := date; completed := completed; value := value; notes := None |}.

Definition goal (status : Status.t) (progress : number)
  (current target : JS.value) (frequency : Frequency.t)
  (checkIns : list CheckIn) : Goal :=
  {| user := "u1"; title := "Daily steps"; status := status;
     progress := progress;
     metrics := {| current := current; target := target;
                   unit := Some "steps" |};
     frequency := frequency; streak := 0;
     startDate := 0; targetDate := 90 * ms_per_day;
     completedDate := None; checkIns := checkIns |}.

Definition num (z : Z) : JS.value := JNum (num_of_Z z).

(** Half way to 10000 steps, with the cache in step. *)
Definition walking : Goal :=
  goal Status.active (Fin 50) (num 0) (num 10000) Frequency.daily
    [checkIn 0 true (num 5000)].

(** [PUT] with a new target of 20000 steps. *)
Definition raise_target : GoalUpdate.body :=
  {| GoalUpdate.title := None; GoalUpdate.status := None;
     GoalUpdate.progress := None;
     GoalUpdate.metrics :=
       Some {| current := num 0; target := num 20000;
               unit := Some "steps" |};
     GoalUpdate.frequency := None; GoalUpdate.streak := None;
     GoalUpdate.checkIns := None |}.

(** No check-in yet. *)
Definition fresh : Goal :=
  goal Status.active (Fin 0) (num 0) (num 10000) Frequency.daily [].

(** No check-in, a target of 0 and a progress of 50 given at creation. *)
Definition zero_target : Goal :=
  goal Status.active (Fin 50) (num 0) (num 0) Frequency.daily [].

(** No check-in, marked completed. *)
Definition completed_empty : Goal :=
  goal Status.completed (Fin 100) (num 0) (num 10000) Frequency.daily [].

(** A target of 10 and a latest value of -5. *)
Definition below_zero : Goal :=
  goal Status.active (Fin 0) (num 0) (num 10) Frequency.daily
    [checkIn 0 true (num (-5))].

Definition no_checkIn_yet : Goal :=
  goal Status.active (Fin 0) (num 0) (num 10) Frequency.daily [].

Definition minus_five : CheckInRequest.body :=
  {| CheckInRequest.date := Some (CheckInRequest.DateString 0);
     CheckInRequest.completed := Some true;
     CheckInRequest.value := num (-5); CheckInRequest.notes := None |}.

(** Two completed check-ins a day apart, oldest first. *)
Definition two_days (f : Frequency.t) : Goal :=
  goal Status.active (Fin 50) (num 0) (num 10000) f
    [checkIn 0 true (num 4000); checkIn ms_per_day true (num 5000)].

(** Five completed check-ins on consecutive days, oldest first. *)
Definition five_in_a_row : Goal :=
  goal Status.active (Fin 50) (num 0) (num 10000) Frequency.daily
    (rev (Spec.five_days (4 * ms_per_day) (num 1000) (num 2000) (num 3000)
            (num 4000) (num 5000))).

(** Completed by hand with the cache at 40; the latest value is no number. *)
Definition completed_unparsable : Goal :=
  goal Status.completed (Fin 40) (num 0) (num 10) Frequency.daily
    [checkIn 0 true (JStr "abc")].

(** The target is no number and there is no check-in. *)
Definition unparsable_target_empty : Goal :=
  goal Status.active (Fin 40) (num 0) (JStr "abc") Frequency.daily [].

(** Active, the latest value is no number. *)
Definition active_unparsable : Goal :=
  goal Status.active (Fin 40) (num 0) (num 10) Frequency.daily
    [checkIn 0 true (num 5); checkIn ms_per_day true (JStr "abc")].

(** Completed, without a target, the cache at 40. *)
Definition completed_no_target : Goal :=
  goal Status.completed (Fin 40) JUndefined JUndefined Frequency.daily [].

Import AiService.

Definition sample (type : string) (z : Z) : Metric :=
  {| type := type; value := num z; timestamp := 0 |}.

Definition hours (l : list Z) : list Metric := map (sample "sleep") l.

(** Two nights three hours apart. *)
Definition two_nights : list Metric := hours [8; 5].

(** Six nights; only the first two pairs differ by more than 1.5 hours. *)
Definition six_nights : list Metric := hours [8; 5; 8; 8; 8; 8].

(** Four nights, each three hours from the one before. *)
Definition restless : list Metric := hours [8; 5; 8; 5].

(** Heart rate 70, sleep 8 hours, 11000 steps, no blood pressure. *)
Definition good_week : list Metric :=
  [sample "heart_rate" 68; sample "heart_rate" 72;
   sample "sleep" 8; sample "steps" 10000; sample "steps" 12000].

(** A blood-pressure sample without a value. *)
Definition unreadable : list Metric :=
  [{| type := "blood_pressure"; value := JUndefined; timestamp := 0 |}].

(** Sleep samples whose values are decimal strings. *)
Definition nights (l : list string) : list Metric :=
  map (fun s => {| type := "sleep"; value := JStr s; timestamp := 0 |}) l.

(** Three nights of 9.2, 7.1 and 4.7 hours: 7 hours on average. *)
Definition seven_hours : list Metric := nights ["9.2"; "7.1"; "4.7"].

(** Four nights, each one and a half hours from the one before. *)
Definition ninety_minutes : list Metric := nights ["6.8"; "8.3"; "6.8"; "8.3"].

End Examples.

(** ** More of the runtime: rounding, array reads, [includes] *)

Module Runtime.
Import JS.
Local Open Scope Z_scope.

(** [Math.ceil] and [Math.floor] *)
Definition Math_ceil (x : number) : number :=
  match x with
  | Fin q => num_of_Z (Qceiling q)
  | _ => x
  end.

Definition Math_floor (x : number) : number :=
  match x with
  | Fin q => num_of_Z (Qfloor q)
  | _ => x
  end.

(** [arr[i]] for a number [i]: an element when [i] is an index of the array,
    [undefined] otherwise. *)
Definition element {A} (arr : list A) (i : number) : option A :=
  match i with
  | Fin q =>
      if Qeqb q (inject_Z (Qfloor q)) && (0 <=? Qfloor q)
      then nth_error arr (Z.to_nat (Qfloor q))
      else None
  | _ => None
  end.

(** [arr.includes(s)] for a string [s]. *)
Definition includes (arr : list value) (s : string) : bool :=
  existsb (fun v => match v with JStr t => String.eqb t s | _ => false end) arr.

(** [arr?.includes(s)] used as a condition: an absent array gives
    [undefined]. *)
Definition optional_includes (arr : option (list value)) (s : string) : bool :=
  match arr with
  | Some a => includes a s
  | None => false
  end.

(** The property names every object literal inherits from
    [Object.prototype]. *)
Definition inherited_keys : list string :=
  ["constructor"; "__defineGetter__"; "__defineSetter__"; "hasOwnProperty";
   "__lookupGetter__"; "__lookupSetter__"; "isPrototypeOf";
   "propertyIsEnumerable"; "toString"; "valueOf"; "__proto__";
   "toLocaleString"]%string.

(** [table[key]] on an object literal: an own property, a member inherited
    from [Object.prototype] (a function or an object), or [undefined]. *)
Inductive lookup_result (A : Type) : Type :=
| Own (a : A)
| Inherited
| Absent.
Arguments Own {A} a.
Arguments Inherited {A}.
Arguments Absent {A}.

Fixpoint assoc {A} (table : list (string * A)) (key : string) : option A :=
  match table with
  | [] => None
  | (k, a) :: rest => if String.eqb k key then Some a else assoc rest key
  end.

Definition lookup {A} (table : list (string * A)) (key : string)
  : lookup_result A :=
  match assoc table key with
  | Some a => Own a
  | None =>
      if existsb (String.eqb key) inherited_keys then Inherited else Absent
  end.

End Runtime.

(** ** [backend/models/HealthGoal.js]: the virtuals *)

Module HealthGoalVirtuals.
Import JS Runtime HealthGoal.
Local Open Scope Z_scope.

(** [daysRemaining]; [today] is the time value of [new Date()], an absent
    [targetDate] is [None], and so is the [null] returned for it. *)
Definition daysRemaining (today : Z) (this_targetDate : option Z)
  (this_status : Status.t) : option number :=
  match this_targetDate with
  | None => None
  | Some target =>
      if Status.eqb this_status Status.completed then Some (Fin 0)
      else
        let diffTime := target - today in
        let diffDays :=
          Math_ceil (div (num_of_Z diffTime) (num_of_Z ms_per_day)) in
        Some (if gt diffDays (Fin 0) then diffDays else Fin 0)
  end.

(** [daysSinceStart] *)
Definition daysSinceStart (today : Z) (this_startDate : option Z)
  : option number :=
  match this_startDate with
  | None => None
  | Some start =>
      let diffTime := today - start in
      let diffDays :=
        Math_ceil (div (num_of_Z diffTime) (num_of_Z ms_per_day)) in
      Some (if gt diffDays (Fin 0) then diffDays else Fin 0)
  end.

End HealthGoalVirtuals.

(** ** [backend/services/aiService.js]: the other two concern tests *)

Module Readings.
Import JS AiService.

(** "systolic > 130 || diastolic > 80" *)
Definition high (m : Metric) : bool :=
  match value m with
  | JObj s d => gt (ToNumber s) (Fin 130) || gt (ToNumber d) (Fin 80)
  | _ => false
  end.

(** "value < 5000" *)
Definition low_activity (m : Metric) : bool :=
  lt (ToNumber (value m)) (Fin 5000).

End Readings.

(** ** [backend/services/aiService.js]: the recommendation helpers *)

Module Advice.
Import JS Runtime.
Local Open Scope string_scope.
Local Open Scope Z_scope.
Local Open Scope js_scope.

(** The user profile and the context as the helpers read them; an absent
    array is [None]. *)
Record UserProfile : Type := {
  age : JS.value;
  gender : JS.value;
  conditions : option (list JS.value);
  medications : option (list JS.value)
}.

Record Context : Type := {
  goals : option (list JS.value)
}.

(** The symptom [analyzeSymptom] is given. *)
Record Symptom : Type := {
  name : string;
  bodyPart : string;
  severity : number
}.

Definition severityLevels : list string := ["low"; "moderate"; "high"].

(** [severityLevels[Math.min(Math.floor(data.symptom.severity / 4), 2)]];
    [None] is [undefined]. *)
Definition severityAssessment (symptom : Symptom) : option string :=
  element severityLevels
    (Math_min (Math_floor (div (severity symptom) (Fin 4))) (Fin 2)).

Definition genericRecommendations : list string :=
  ["Stay hydrated throughout the day";
   "Ensure adequate rest and sleep";
   "Monitor symptom changes and frequency";
   "Consider keeping a symptom journal"].

Definition specificRecommendations : list (string * list string) :=
  [("Headache",
    ["Take short breaks from screen time";
     "Practice relaxation techniques";
     "Maintain good posture";
     "Ensure proper lighting when reading"]);
   ("Fatigue",
    ["Establish a consistent sleep schedule";
     "Include protein in each meal";
     "Take short walks during the day";
     "Consider iron-rich foods in your diet"]);
   ("Nausea",
    ["Eat smaller, more frequent meals";
     "Avoid strong odors when possible";
     "Try ginger tea or peppermint";
     "Avoid lying down right after eating"])].

Definition consult : string :=
  "Consider consulting with a healthcare professional".

(** [generateRecommendations(symptom, severity, userProfile)]; spreading an
    inherited member, which is not iterable, throws. *)
Definition generateRecommendations (symptom : Symptom)
  (severity : option string) (userProfile : UserProfile)
  : completion (list string) :=
  let recommendations := genericRecommendations in
  recommendations <-
    (match lookup specificRecommendations (name symptom) with
     | Own specific => Normal (recommendations ++ specific)%list
     | Inherited => Throw TypeError
     | Absent => Normal recommendations
     end) ;;
  let recommendations :=
    match severity with
    | Some s => if String.eqb s "high" then consult :: recommendations
                else recommendations
    | None => recommendations
    end in
  Normal (firstn 5 recommendations).

(** One entry of [findCorrelations]' result. *)
Record Correlation : Type := {
  metricType : string;
  relationship : string;
  confidence : number
}.

(** [findCorrelations(symptom, metrics)]; [random i] is what the [i]-th call
    of [Math.random()] returns, one call per kept metric, in order. *)
Fixpoint correlate (random : nat -> number) (i : nat)
  (metrics : list AiService.Metric) : list Correlation :=
  match metrics with
  | [] => []
  | metric :: rest =>
      {| metricType := AiService.type metric;
         relationship := "potential correlation";
         confidence := add (Math_floor (mul (random i) (Fin 30))) (Fin 40) |}
      :: correlate random (S i) rest
  end.

Definition findCorrelations (random : nat -> number) (symptom : Symptom)
  (metrics : list AiService.Metric) : list Correlation :=
  correlate random 0 (firstn 3 metrics).

Definition baseHabits : list string :=
  ["Start your day with a large glass of water";
   "Take 5 minutes for deep breathing or meditation";
   "Stand up and stretch every hour";
   "Go for a 10-minute walk after lunch";
   "Ensure 7-8 hours of sleep each night"].

(** [generateDailyHabits(userProfile, context)] *)
Definition generateDailyHabits (userProfile : UserProfile) (context : Context)
  : list string :=
  let habits := baseHabits in
  let habits :=
    if optional_includes (conditions userProfile) "Hypertension"
    then (habits
          ++ ["Monitor your blood pressure at the same time each day";
              "Limit sodium intake by avoiding processed foods"])%list
    else habits in
  let habits :=
    if optional_includes (conditions userProfile) "Diabetes"
    then (habits
          ++ ["Check your blood glucose levels as recommended by your doctor";
              "Include protein with each meal to stabilize blood sugar"])%list
    else habits in
  let habits :=
    if optional_includes (goals context) "Reduce stress"
    then (habits
          ++ ["Practice progressive muscle relaxation before bed";
              "Designate 15 minutes of worry-free time each day"])%list
    else habits in
  firstn 5 habits.



End Advice.

(** ** [Number.prototype.toFixed] *)

Module NumberFormat.
Import JS.
Local Open Scope string_scope.
Local Open Scope Z_scope.

Definition digit_char (d : Z) : ascii := ascii_of_nat (48 + Z.to_nat d).

(** The lowest [w] decimal digits of [z], most significant first. *)
Fixpoint fixed_digits (w : nat) (z : Z) : string :=
  match w with
  | O => EmptyString
  | S w' =>
      String (digit_char ((z / 10 ^ Z.of_nat w') mod 10)) (fixed_digits w' z)
  end.

(** How many decimal digits [z] has, at least one. *)
Fixpoint count_digits (fuel : nat) (z : Z) : nat :=
  match fuel with
  | O => 1
  | S fuel' => if z <? 10 then 1 else S (count_digits fuel' (z / 10))
  end.

(** The decimal representation of a natural number. *)
Definition digits (z : Z) : string :=
  fixed_digits (count_digits (Z.to_nat (Z.log2 z)) z) z.

(** A string that does not begin with a decimal digit. *)
Definition no_leading_digit (s : string) : Prop :=
  match s with
  | String c _ => digit_of 10 c = None
  | EmptyString => True
  end.

Section ToFixed.
(** The exponential notation of a magnitude of 10^21 or more, which depends on
    the binary64 value and is left to the runtime. *)
Variable exponential : Q -> string.

(** [x.toFixed(fractionDigits)]: the digits of the exact value of the
    binary64 [x] to the nearest last digit, of the two nearest candidates
    the larger. *)
Definition toFixed (fractionDigits : nat) (x : number) : string :=
  match x with
  | NaN => "NaN"
  | PosInf => "Infinity"
  | NegInf => "-Infinity"
  | Fin q =>
      let s := if Qltb q 0 then "-" else "" in
      let a := Qabs q in
      if Qltb a (inject_Z (10 ^ 21)) then
        let n := Qfloor (a * inject_Z (10 ^ Z.of_nat fractionDigits) + (1 # 2)) in
        let whole := digits (n / 10 ^ Z.of_nat fractionDigits) in
        match fractionDigits with
        | O => s ++ whole
        | S _ => s ++ whole ++ "." ++ fixed_digits fractionDigits n
        end
      else s ++ exponential a
  end.
End ToFixed.

End NumberFormat.

(** ** [backend/controllers/goalController.js]: [getGoalStats] *)

Module Category.
(** [category: enum ['fitness', 'nutrition', 'mental', 'sleep', 'health',
    'custom']] *)
Inductive t : Type :=
| fitness
| nutrition
| mental
| sleep
| health
| custom.

Definition eqb (a b : t) : bool :=
  match a, b with
  | fitness, fitness | nutrition, nutrition | mental, mental
  | sleep, sleep | health, health | custom, custom => true
  | _, _ => false
  end.
End Category.

Module GoalStats.
Import JS NumberFormat HealthGoal.
Local Open Scope string_scope.
Local Open Scope Z_scope.

(** A stored goal with its [category] path. *)
Record Document : Type := {
  goal : Goal;
  category : Category.t
}.

(** [HealthGoal.find({user, status})] and [countDocuments] of the same
    filter *)
Definition find_status (req_user : string) (st : Status.t)
  (collection : list Document) : list Document :=
  filter (fun d => String.eqb (user (goal d)) req_user
                   && Status.eqb (status (goal d)) st) collection.

Definition count_status (req_user : string) (st : Status.t)
  (collection : list Document) : nat :=
  List.length (find_status req_user st collection).

(** [HealthGoal.countDocuments({user, category})] *)
Definition count_category (req_user : string) (c : Category.t)
  (collection : list Document) : nat :=
  List.length
    (filter (fun d => String.eqb (user (goal d)) req_user
                      && Category.eqb (category d) c) collection).

Definition categories : list Category.t :=
  [Category.fitness; Category.nutrition; Category.mental; Category.sleep;
   Category.health; Category.custom].

(** [Math.max(...xs)] of a non-empty list of integers. *)
Definition maximum (first : Z) (rest : list Z) : Z :=
  fold_left Z.max rest first.

(** The [data] of the response. *)
Record Stats : Type := {
  activeGoals : nat;
  completedGoals : nat;
  abandonedGoals : nat;
  totalGoals : nat;
  completionRate : number;
  categoryCounts : list (Category.t * nat);
  averageStreak : number;
  longestStreak : Z
}.

Section GetGoalStats.
Variable exponential : Q -> string.

Definition getGoalStats (req_user : string) (collection : list Document)
  : Stats :=
  let activeGoals := count_status req_user Status.active collection in
  let completedGoals := count_status req_user Status.completed collection in
  let abandonedGoals := count_status req_user Status.abandoned collection in
  let totalGoals := (activeGoals + completedGoals + abandonedGoals)%nat in
  let completionRate :=
    if (0 <? totalGoals)%nat
    then Binary64.mul
           (Binary64.div (num_of_nat completedGoals) (num_of_nat totalGoals))
           (Fin 100)
    else Fin 0 in
  let categoryCounts :=
    map (fun c => (c, count_category req_user c collection)) categories in
  let goals := find_status req_user Status.active collection in
  let totalStreak :=
    fold_left (fun sum d => sum + streak (goal d)) goals 0 in
  let averageStreak :=
    if (0 <? List.length goals)%nat
    then JStr (toFixed exponential 1
                 (Binary64.div (num_of_Z totalStreak)
                    (num_of_nat (List.length goals))))
    else JNum (Fin 0) in
  let longestStreak :=
    match map (fun d => streak (goal d)) goals with
    | first :: rest => maximum first rest
    | [] => 0
    end in
  {| activeGoals := activeGoals;
     completedGoals := completedGoals;
     abandonedGoals := abandonedGoals;
     totalGoals := totalGoals;
     completionRate := parseFloat_string (toFixed exponential 2 completionRate);
     categoryCounts := categoryCounts;
     averageStreak := parseFloat averageStreak;
     longestStreak := longestStreak |}.
End GetGoalStats.

End GoalStats.

(** ** [backend/services/aiService.js]: [generateObservations] *)

Module Observations.
Import JS NumberFormat AiService.
Local Open Scope string_scope.

Section GenerateObservations.
Variable exponential : Q -> string.

(** [`${Math.round(x)}`]: an integer is printed as [toFixed(0)] prints it. *)
Definition rounded (x : number) : string :=
  toFixed exponential 0 (Math_round x).

Definition generateObservations (metrics : list Metric) : list string :=
  let observations : list string := [] in
  if (List.length metrics =? 0)%nat then observations
  else
    (* Look for trends in heart rate *)
    let heartRateMetrics := of_type "heart_rate" metrics in
    let observations :=
      if non_empty heartRateMetrics then
        let avgHeartRate := average heartRateMetrics in
        if lt avgHeartRate (Fin 60) then
          (observations
           ++ [("Your average heart rate ("
               ++ toFixed exponential 1 avgHeartRate
               ++ " bpm) is below the typical resting range.")%string])%list
        else if gt avgHeartRate (Fin 100) then
          (observations
           ++ [("Your average heart rate ("
               ++ toFixed exponential 1 avgHeartRate
               ++ " bpm) is above the typical resting range.")%string])%list
        else
          (observations
           ++ [("Your average heart rate ("
               ++ toFixed exponential 1 avgHeartRate
               ++ " bpm) is within the normal resting range.")%string])%list
      else observations in
    (* Look at sleep patterns *)
    let sleepMetrics := of_type "sleep" metrics in
    let observations :=
      if non_empty sleepMetrics then
        let avgSleep := average sleepMetrics in
        if lt avgSleep (Fin 7) then
          (observations
           ++ [("Your average sleep duration ("
               ++ toFixed exponential 1 avgSleep
               ++ " hours) is below the recommended 7-9 hours.")%string])%list
        else
          (observations
           ++ [("Your average sleep duration ("
               ++ toFixed exponential 1 avgSleep
               ++ " hours) meets the recommended guidelines.")%string])%list
      else observations in
    (* Check step counts *)
    let stepMetrics := of_type "steps" metrics in
    let observations :=
      if non_empty stepMetrics then
        let avgSteps := average stepMetrics in
        if lt avgSteps (Fin 7000) then
          (observations
           ++ [("Your average daily step count ("
               ++ rounded avgSteps
               ++ ") is below the recommended 10,000 steps.")%string])%list
        else
          (observations
           ++ [("You're maintaining a good activity level with an average of "
               ++ rounded avgSteps ++ " steps daily.")%string])%list
      else observations in
    observations.
End GenerateObservations.

End Observations.

(** ** More concrete inputs *)

Module Scenarios.
Import JS HealthGoal GoalController.
Local Open Scope string_scope.
Local Open Scope Z_scope.

(** A completed check-in of 6000 steps on the day after the first. *)
Definition next_day : CheckInRequest.body :=
  {| CheckInRequest.date := Some (CheckInRequest.DateString ms_per_day);
     CheckInRequest.completed := Some true;
     CheckInRequest.value := Examples.num 6000;
     CheckInRequest.notes := None |}.

(** The walking goal as stored after that check-in. *)
Definition walking_after : Goal :=
  match addCheckIn 0 "u1" (Some Examples.walking) next_day with
  | Success g => g
  | _ => Examples.walking
  end.

(** A [Math.random] that returns one half at every call. *)
Definition one_half (i : nat) : number := Fin (1 # 2).

(** A headache rated 9 out of 10. *)
Definition severe_headache : Advice.Symptom :=
  {| Advice.name := "Headache"; Advice.bodyPart := "Head";
     Advice.severity := Fin 9 |}.

End Scenarios.

(** ** Facts about the runtime slice and the models *)

Section NumberFacts.
Import JS.
Local Open Scope string_scope.
Local Open Scope Z_scope.

(** [parseFloat] reads a numeric prefix; [ToNumber] wants the whole string. *)
Example parseFloat_prefix :
  map parseFloat_string ["12abc"; "  -3.5e2x"; ".5"; "1e"; "Infinityx"]
  = [Fin 12; Fin (-350); Fin (1 # 2); Fin 1; PosInf].
Proof. reflexivity. Qed.

Example parseFloat_no_number :
  map parseFloat_string ["abc"; "."; ""; "e5"] = [NaN; NaN; NaN; NaN].
Proof. reflexivity. Qed.

Example ToNumber_whole_string :
  map StringToNumber ["12abc"; " 42 "; ""; "0x1F"; "1e3"; "12 3"]
  = [NaN; Fin 42; Fin 0; Fin 31; Fin 1000; NaN].
Proof. reflexivity. Qed.

Example Math_round_half_up :
  map Math_round [Fin (5 # 2); Fin (- 5 # 2); Fin (149 # 100); NaN]
  = [Fin 3; Fin (-2); Fin 1; NaN].
Proof. reflexivity. Qed.

Lemma Qltb_inject_Z (a b : Z) : Qltb (inject_Z a) (inject_Z b) = (a <? b).
Proof.
  unfold Qltb, Qcompare, inject_Z; simpl.
  rewrite !Z.mul_1_r. unfold Z.ltb. reflexivity.
Qed.

Lemma Qeqb_inject_Z (a b : Z) : Qeqb (inject_Z a) (inject_Z b) = (a =? b).
Proof.
  unfold Qeqb, Qcompare, inject_Z; simpl.
  rewrite !Z.mul_1_r. rewrite Z.eqb_compare. reflexivity.
Qed.

Lemma Qeqb_false (a b : Q) : ~ (a == b)%Q -> Qeqb a b = false.
Proof.
  intro H. unfold Qeqb. destruct (a ?= b)%Q eqn:E; try reflexivity.
  exfalso. apply H, Qeq_alt, E.
Qed.

Lemma lt_num_of_Z (a b : Z) : lt (num_of_Z a) (num_of_Z b) = (a <? b).
Proof. apply Qltb_inject_Z. Qed.

Lemma strict_eq_num_of_Z (a b : Z) :
  strict_eq (num_of_Z a) (num_of_Z b) = (a =? b).
Proof. apply Qeqb_inject_Z. Qed.

Lemma Math_round_num_of_Z (z : Z) : Math_round (num_of_Z z) = num_of_Z z.
Proof.
  unfold Math_round, num_of_Z. f_equal. f_equal.
  unfold Qfloor, Qplus, inject_Z; simpl.
  symmetry. apply Z.div_unique with (r := 1); lia.
Qed.

Lemma round_days (d : Z) :
  Math_round (div (num_of_Z d) (num_of_Z HealthGoal.ms_per_day))
  = num_of_Z ((2 * d + HealthGoal.ms_per_day) / (2 * HealthGoal.ms_per_day)).
Proof.
  unfold div, num_of_Z.
  replace (Qeqb (inject_Z HealthGoal.ms_per_day) 0) with false by reflexivity.
  unfold Math_round. f_equal.
  assert (E : (Qred (inject_Z d / inject_Z HealthGoal.ms_per_day) + (1 # 2) ==
          (2 * d + HealthGoal.ms_per_day) # (2 * 86400000))%Q).
  { rewrite Qred_correct. unfold Qeq, Qdiv, Qmult, Qplus, Qinv, inject_Z.
    change HealthGoal.ms_per_day with 86400000. cbn [Qnum Qden]. simpl Qnum. simpl Qden. lia. }
  unfold num_of_Z. f_equal.
  rewrite (Qfloor_comp _ _ E). unfold Qfloor. reflexivity.
Qed.
End NumberFacts.

(** ** Facts about binary64 rounding *)

Section Binary64Facts.
Import JS.
Local Open Scope Q_scope.

Lemma Qltb_lt (a b : Q) : Qltb a b = true <-> a < b.
Proof.
  unfold Qltb. rewrite Qlt_alt.
  destruct (a ?= b); split; congruence.
Qed.

Lemma Qltb_ge (a b : Q) : Qltb a b = false <-> b <= a.
Proof.
  rewrite <- Bool.not_true_iff_false, Qltb_lt. split.
  - apply Qnot_lt_le.
  - apply Qle_not_lt.
Qed.

Lemma pow2_pos (e : Z) : 0 < 2 ^ e.
Proof. apply Qpower_0_lt. reflexivity. Qed.

Lemma pow2_plus (a b : Z) : 2 ^ (a + b) == 2 ^ a * 2 ^ b.
Proof. apply Qpower_plus. discriminate. Qed.

Lemma pow2_le (a b : Z) : (a <= b)%Z -> 2 ^ a <= 2 ^ b.
Proof. intro H. apply Qpower_le_compat_l; [exact H|discriminate]. Qed.

Lemma pow2_lt (a b : Z) : (a < b)%Z -> 2 ^ a < 2 ^ b.
Proof. intro H. apply Qpower_lt_compat_l; [exact H|reflexivity]. Qed.

Lemma pow2_Z (a : Z) : (0 <= a)%Z -> 2 ^ a == inject_Z (2 ^ a).
Proof. intro H. symmetry. apply (Zpower_Qpower 2 a H). Qed.

Lemma pow2_succ (a : Z) : 2 ^ (a + 1) == 2 * 2 ^ a.
Proof. rewrite pow2_plus. change (2 ^ 1) with 2. ring. Qed.

Lemma pow2_split (a b : Z) : 2 ^ a == 2 ^ (a - b) * 2 ^ b.
Proof. rewrite <- pow2_plus. replace (a - b + b)%Z with a by lia. reflexivity. Qed.

(** The binade of a positive rational. *)
Lemma binade_spec (q : Q) :
  0 < q -> 2 ^ Binary64.binade q <= q < 2 ^ (Binary64.binade q + 1).
Proof.
  intro Hq. unfold Binary64.binade.
  destruct q as [n d]. cbn [Qnum Qden].
  assert (Hn : (0 < n)%Z) by (unfold Qlt in Hq; simpl in Hq; lia).
  destruct (Z.log2_spec n Hn) as [Ha1 Ha2].
  destruct (Z.log2_spec (Z.pos d) (Pos2Z.is_pos d)) as [Hb1 Hb2].
  pose proof (Z.log2_nonneg n) as Ha0.
  pose proof (Z.log2_nonneg (Z.pos d)) as Hb0.
  set (a := Z.log2 n) in *. set (b := Z.log2 (Z.pos d)) in *.
  assert (HA : 2 ^ a == inject_Z (2 ^ a)) by (apply pow2_Z; lia).
  assert (HB : 2 ^ b == inject_Z (2 ^ b)) by (apply pow2_Z; lia).
  pose proof (pow2_split a b) as Hs.
  pose proof (pow2_pos (a - b)) as Hp.
  pose proof (pow2_pos b) as Hpb.
  assert (Hlo : 2 ^ (a - b - 1) < n # d).
  { pose proof (pow2_succ (a - b - 1)) as E.
    replace (a - b - 1 + 1)%Z with (a - b)%Z in E by lia.
    pose proof (pow2_pos (a - b - 1)) as Hp1.
    unfold Qlt. cbn [Qnum Qden].
    set (x := 2 ^ (a - b - 1)) in *.
    assert (Hx : x * inject_Z (Z.pos d) < inject_Z n).
    { apply Qlt_le_trans with (x * (2 * 2 ^ b)).
      - apply Qmult_lt_l; [exact Hp1|].
        rewrite HB. change 2 with (inject_Z 2). rewrite <- inject_Z_mult.
        rewrite <- Zlt_Qlt. replace (2 * 2 ^ b)%Z with (2 ^ (b + 1))%Z
          by (rewrite Z.pow_add_r by lia; lia). exact Hb2.
      - setoid_replace (x * (2 * 2 ^ b)) with (2 ^ a)
          by (rewrite Hs, E; ring).
        rewrite HA. rewrite <- Zle_Qle. exact Ha1. }
    unfold Qlt, Qmult, inject_Z in Hx. cbn [Qnum Qden] in Hx.
    rewrite !Pos.mul_1_r, Z.mul_1_r in Hx. exact Hx. }
  assert (Hhi : n # d < 2 ^ (a - b + 1)).
  { pose proof (pow2_succ (a - b)) as E.
    set (y := 2 ^ (a - b + 1)) in *.
    assert (Hy : inject_Z n < y * inject_Z (Z.pos d)).
    { apply Qlt_le_trans with (y * 2 ^ b).
      - setoid_replace (y * 2 ^ b) with (2 * 2 ^ a) by (rewrite E, Hs; ring).
        rewrite HA. change 2 with (inject_Z 2) at 1. rewrite <- inject_Z_mult.
        rewrite <- Zlt_Qlt. replace (2 * 2 ^ a)%Z with (2 ^ (a + 1))%Z
          by (rewrite Z.pow_add_r by lia; lia). exact Ha2.
      - apply Qmult_le_l; [apply pow2_pos|].
        rewrite HB. rewrite <- Zle_Qle. exact Hb1. }
    unfold Qlt, Qmult, inject_Z in Hy. cbn [Qnum Qden] in Hy.
    unfold Qlt. cbn [Qnum Qden].
    rewrite !Pos.mul_1_r, Z.mul_1_r in Hy. exact Hy. }
  destruct (Qltb (n # d) (2 ^ (a - b))) eqn:E.
  - apply Qltb_lt in E. replace (a - b - 1 + 1)%Z with (a - b)%Z by lia.
    split; [apply Qlt_le_weak, Hlo|exact E].
  - apply Qltb_ge in E. split; [exact E|exact Hhi].
Qed.

Lemma binade_unique (q : Q) (e : Z) :
  2 ^ e <= q < 2 ^ (e + 1) -> Binary64.binade q = e.
Proof.
  intros [H1 H2].
  assert (Hq : 0 < q) by (apply Qlt_le_trans with (2 ^ e); [apply pow2_pos|exact H1]).
  destruct (binade_spec q Hq) as [B1 B2].
  set (b := Binary64.binade q) in *.
  destruct (Z.lt_trichotomy b e) as [H|[H|H]]; [|exact H|]; exfalso.
  - assert (2 ^ (b + 1) <= 2 ^ e) by (apply pow2_le; lia).
    apply (Qlt_irrefl q). apply Qlt_le_trans with (2 ^ (b + 1)); [exact B2|].
    apply Qle_trans with (2 ^ e); assumption.
  - assert (2 ^ (e + 1) <= 2 ^ b) by (apply pow2_le; lia).
    apply (Qlt_irrefl q). apply Qlt_le_trans with (2 ^ (e + 1)); [exact H2|].
    apply Qle_trans with (2 ^ b); assumption.
Qed.

Lemma binade_comp (q q' : Q) :
  0 < q -> q == q' -> Binary64.binade q = Binary64.binade q'.
Proof.
  intros Hq E. symmetry. apply binade_unique. rewrite <- E.
  apply binade_spec, Hq.
Qed.

Lemma binade_mono (q q' : Q) :
  0 < q -> q <= q' -> (Binary64.binade q <= Binary64.binade q')%Z.
Proof.
  intros Hq Hle.
  assert (Hq' : 0 < q') by (apply Qlt_le_trans with q; assumption).
  destruct (binade_spec q Hq) as [B1 _].
  destruct (binade_spec q' Hq') as [_ B2].
  destruct (Z.le_gt_cases (Binary64.binade q) (Binary64.binade q')) as [H|H];
    [exact H|exfalso].
  assert (2 ^ (Binary64.binade q' + 1) <= 2 ^ Binary64.binade q)
    by (apply pow2_le; lia).
  apply (Qlt_irrefl q'). apply Qlt_le_trans with (2 ^ (Binary64.binade q' + 1));
    [exact B2|].
  apply Qle_trans with (2 ^ Binary64.binade q); [assumption|].
  apply Qle_trans with q; assumption.
Qed.
End Binary64Facts.

Section NearestFacts.
Import JS.
Local Open Scope Q_scope.

Lemma nearest_even_comp (q q' : Q) :
  q == q' -> Binary64.nearest_even q = Binary64.nearest_even q'.
Proof.
  intro E. unfold Binary64.nearest_even.
  rewrite (Qfloor_comp q q' E).
  assert (E' : q - inject_Z (Qfloor q') == q' - inject_Z (Qfloor q'))
    by (rewrite E; reflexivity).
  rewrite (Qcompare_comp _ _ E' (1 # 2) (1 # 2) (Qeq_refl _)). reflexivity.
Qed.

Lemma nearest_even_Z (z : Z) : Binary64.nearest_even (inject_Z z) = z.
Proof.
  unfold Binary64.nearest_even. rewrite Qfloor_Z.
  assert (E : inject_Z z - inject_Z z == 0) by ring.
  rewrite (Qcompare_comp _ _ E (1 # 2) (1 # 2) (Qeq_refl _)). reflexivity.
Qed.

Lemma nearest_even_bounds (q : Q) :
  (Qfloor q <= Binary64.nearest_even q <= Qfloor q + 1)%Z.
Proof.
  unfold Binary64.nearest_even.
  destruct (Qcompare (q - inject_Z (Qfloor q)) (1 # 2)); [|lia|lia].
  destruct (Z.even (Qfloor q)); lia.
Qed.

Lemma nearest_even_mono (q q' : Q) :
  q <= q' -> (Binary64.nearest_even q <= Binary64.nearest_even q')%Z.
Proof.
  intro Hle. pose proof (Qfloor_resp_le q q' Hle) as Hf.
  pose proof (nearest_even_bounds q) as B.
  pose proof (nearest_even_bounds q') as B'.
  destruct (Z.eq_dec (Qfloor q) (Qfloor q')) as [E|N]; [|lia].
  unfold Binary64.nearest_even. rewrite <- E.
  destruct (Qcompare_spec (q - inject_Z (Qfloor q)) (1 # 2)) as [H|H|H];
    destruct (Qcompare_spec (q' - inject_Z (Qfloor q)) (1 # 2)) as [H'|H'|H'];
    try destruct (Z.even (Qfloor q)); try lia; exfalso; lra.
Qed.

Lemma nearest_even_close (q : Q) :
  q - (1 # 2) <= inject_Z (Binary64.nearest_even q) <= q + (1 # 2).
Proof.
  pose proof (Qfloor_le q) as H1. pose proof (Qlt_floor q) as H2.
  rewrite inject_Z_plus in H2. change (inject_Z 1) with 1 in H2.
  unfold Binary64.nearest_even.
  destruct (Qcompare_spec (q - inject_Z (Qfloor q)) (1 # 2)) as [H|H|H].
  - destruct (Z.even (Qfloor q)); [|rewrite inject_Z_plus; change (inject_Z 1) with 1];
      split; lra.
  - split; lra.
  - rewrite inject_Z_plus. change (inject_Z 1) with 1. split; lra.
Qed.

Lemma nearest_even_nonneg (q : Q) : 0 <= q -> (0 <= Binary64.nearest_even q)%Z.
Proof.
  intro H. rewrite <- (nearest_even_Z 0). apply nearest_even_mono. exact H.
Qed.

(** The rounded power of two is no more than the power itself. *)
Lemma nearest_even_pow2 (j : Z) : inject_Z (Binary64.nearest_even (2 ^ j)) <= 2 ^ j.
Proof.
  destruct (Z.le_gt_cases 0 j) as [H|H].
  - rewrite (nearest_even_comp _ _ (pow2_Z j H)), nearest_even_Z.
    rewrite <- pow2_Z by exact H. apply Qle_refl.
  - assert (Hh : 2 ^ j <= 1 # 2).
    { change (1 # 2) with (2 ^ (-1)). apply pow2_le. lia. }
    pose proof (pow2_pos j) as Hp.
    assert (Hz : Binary64.nearest_even (2 ^ j) = 0%Z).
    { assert (Hn : (0 <= Binary64.nearest_even (2 ^ j))%Z)
        by (apply nearest_even_nonneg, Qlt_le_weak, Hp).
      assert (Hm : (Binary64.nearest_even (2 ^ j) <= Binary64.nearest_even (1 # 2))%Z)
        by (apply nearest_even_mono, Hh).
      change (Binary64.nearest_even (1 # 2)) with 0%Z in Hm. lia. }
    rewrite Hz. apply Qlt_le_weak, Hp.
Qed.

Lemma last_bit_spec (q : Q) :
  Binary64.last_bit q = Z.max (Binary64.binade q - 52) (-1074).
Proof. reflexivity. Qed.

Lemma last_bit_mono (q q' : Q) :
  0 < q -> q <= q' -> (Binary64.last_bit q <= Binary64.last_bit q')%Z.
Proof.
  intros Hq Hle. pose proof (binade_mono q q' Hq Hle).
  rewrite !last_bit_spec. lia.
Qed.

Lemma nearest_nonneg (q : Q) : 0 < q -> 0 <= Binary64.nearest q.
Proof.
  intro Hq. unfold Binary64.nearest.
  apply Qmult_le_0_compat; [|apply Qlt_le_weak, pow2_pos].
  change 0 with (inject_Z 0). rewrite <- Zle_Qle.
  apply nearest_even_nonneg. apply Qle_shift_div_l; [apply pow2_pos|].
  rewrite Qmult_0_l. apply Qlt_le_weak, Hq.
Qed.

(** Rounding is monotone. *)
Lemma nearest_mono (q q' : Q) :
  0 < q -> q <= q' -> Binary64.nearest q <= Binary64.nearest q'.
Proof.
  intros Hq Hle.
  assert (Hq' : 0 < q') by (apply Qlt_le_trans with q; assumption).
  pose proof (last_bit_mono q q' Hq Hle) as HL.
  pose proof (binade_mono q q' Hq Hle) as HB.
  destruct (binade_spec q Hq) as [_ Bq].
  destruct (binade_spec q' Hq') as [Bq' _].
  unfold Binary64.nearest.
  pose proof (last_bit_spec q) as SL. pose proof (last_bit_spec q') as SL'.
  set (L := Binary64.last_bit q) in *. set (L' := Binary64.last_bit q') in *.
  pose proof (pow2_pos L) as HpL. pose proof (pow2_pos L') as HpL'.
  destruct (Z.eq_dec L L') as [E|N].
  - rewrite <- E. apply Qmult_le_compat_r; [|apply Qlt_le_weak, HpL].
    rewrite <- Zle_Qle. apply nearest_even_mono.
    apply Qmult_le_compat_r; [exact Hle|].
    apply Qlt_le_weak, Qinv_lt_0_compat, HpL.
  - assert (HL' : L' = (Binary64.binade q' - 52)%Z) by lia.
    assert (He : (Binary64.binade q + 1 <= Binary64.binade q')%Z) by lia.
    set (e := Binary64.binade q) in *. set (e' := Binary64.binade q') in *.
    apply Qle_trans with (2 ^ (e + 1)).
    + rewrite (pow2_split (e + 1) L).
      apply Qmult_le_compat_r; [|apply Qlt_le_weak, HpL].
      apply Qle_trans with (inject_Z (Binary64.nearest_even (2 ^ (e + 1 - L))));
        [|apply nearest_even_pow2].
      rewrite <- Zle_Qle. apply nearest_even_mono.
      apply Qle_shift_div_r; [exact HpL|].
      rewrite <- pow2_split. apply Qlt_le_weak, Bq.
    + apply Qle_trans with (2 ^ e'); [apply pow2_le; lia|].
      rewrite (pow2_split e' L') at 1.
      apply Qmult_le_compat_r; [|apply Qlt_le_weak, HpL'].
      replace (e' - L')%Z with 52%Z by lia.
      rewrite (pow2_Z 52) by lia.
      rewrite <- Zle_Qle. rewrite <- (nearest_even_Z (2 ^ 52)) at 1.
      apply nearest_even_mono. rewrite <- pow2_Z by lia.
      apply Qle_shift_div_l; [exact HpL'|].
      replace 52%Z with (e' - L')%Z by lia. rewrite <- pow2_split. exact Bq'.
Qed.

(** A multiple [m * 2^e] of a power of two no smaller than 2^-1074, with
    [m] below 2^53, is its own rounding. *)
Lemma nearest_exact (q : Q) (m e : Z) :
  (0 < m < 2 ^ 53)%Z -> (-1074 <= e)%Z -> q == inject_Z m * 2 ^ e ->
  Binary64.nearest q == q.
Proof.
  intros Hm He Eq.
  destruct (Z.log2_spec m (proj1 Hm)) as [Ha1 Ha2].
  pose proof (Z.log2_nonneg m) as Ha0.
  set (a := Z.log2 m) in *.
  assert (Ha : (a < 53)%Z).
  { apply (Z.pow_lt_mono_r_iff 2); lia. }
  assert (Hb : Binary64.binade q = (a + e)%Z).
  { apply binade_unique. rewrite Eq. split.
    - rewrite pow2_plus. apply Qmult_le_compat_r; [|apply Qlt_le_weak, pow2_pos].
      rewrite pow2_Z by lia. rewrite <- Zle_Qle. exact Ha1.
    - replace (a + e + 1)%Z with (a + 1 + e)%Z by lia. rewrite pow2_plus.
      apply Qmult_lt_compat_r; [apply pow2_pos|].
      rewrite pow2_Z by lia. rewrite <- Zlt_Qlt. exact Ha2. }
  unfold Binary64.nearest. rewrite last_bit_spec, Hb.
  set (L := Z.max (a + e - 52) (-1074)).
  assert (HL : (0 <= e - L)%Z) by (subst L; lia).
  assert (Es : q / 2 ^ L == inject_Z (m * 2 ^ (e - L))).
  { rewrite Eq, (pow2_split e L), inject_Z_mult, <- pow2_Z by exact HL.
    field. pose proof (pow2_pos L) as Hp. intro E0. rewrite E0 in Hp.
    discriminate. }
  rewrite (nearest_even_comp _ _ Es), nearest_even_Z.
  rewrite Eq, (pow2_split e L), inject_Z_mult, <- pow2_Z by exact HL. ring.
Qed.
End NearestFacts.

Section RoundFacts.
Import JS.
Local Open Scope Q_scope.

Lemma Qred_inject_Z (z : Z) : Qred (inject_Z z) = inject_Z z.
Proof.
  unfold inject_Z, Qred.
  pose proof (Z.ggcd_gcd z 1) as Hg.
  pose proof (Z.ggcd_correct_divisors z 1) as Hd.
  destruct (Z.ggcd z 1) as [g [aa bb]]. cbn [fst snd] in *.
  rewrite Z.gcd_1_r in Hg. subst g. destruct Hd as [Ha Hb].
  replace aa with z by lia. replace bb with 1%Z by lia. reflexivity.
Qed.

Lemma Qltb_comp (a a' b b' : Q) :
  a == a' -> b == b' -> Qltb a b = Qltb a' b'.
Proof. intros Ea Eb. unfold Qltb. rewrite (Qcompare_comp _ _ Ea _ _ Eb). reflexivity. Qed.

Lemma le_Fin (a b : Q) : le (Fin a) (Fin b) = true <-> a <= b.
Proof.
  cbn [le lt]. rewrite Bool.negb_true_iff. apply Qltb_ge.
Qed.

Lemma le_PosInf (x : number) : isNaN x = false -> le x PosInf = true.
Proof. destruct x; intro H; try discriminate; reflexivity. Qed.

Lemma le_not_NaN (x y : number) :
  le x y = true -> isNaN x = false /\ isNaN y = false.
Proof. destruct x, y; intro H; try discriminate; split; reflexivity. Qed.

Lemma le_trans (x y z : number) :
  le x y = true -> le y z = true -> le x z = true.
Proof.
  destruct x as [| | |a], y as [| | |b], z as [| | |c];
    try discriminate; try reflexivity.
  rewrite !le_Fin. apply Qle_trans.
Qed.

Lemma le_neg (x y : number) : le (neg x) (neg y) = le y x.
Proof.
  destruct x as [| | |a], y as [| | |b]; try reflexivity.
  cbn [neg le lt]. f_equal.
  destruct (Qltb a b) eqn:E.
  - apply Qltb_lt. apply Qltb_lt in E. rewrite !Qred_correct. lra.
  - apply Qltb_ge. apply Qltb_ge in E. rewrite !Qred_correct. lra.
Qed.

Lemma nearest_comp (q q' : Q) :
  0 < q -> q == q' -> Binary64.nearest q == Binary64.nearest q'.
Proof.
  intros Hq E. unfold Binary64.nearest.
  rewrite !last_bit_spec, (binade_comp q q' Hq E).
  set (L := Z.max _ _).
  assert (Es : q / 2 ^ L == q' / 2 ^ L) by (rewrite E; reflexivity).
  rewrite (nearest_even_comp _ _ Es). reflexivity.
Qed.

Lemma round_pos_comp (q q' : Q) :
  0 < q -> q == q' -> Binary64.round_pos q = Binary64.round_pos q'.
Proof.
  intros Hq E. unfold Binary64.round_pos.
  pose proof (nearest_comp q q' Hq E) as En.
  rewrite (Qltb_comp _ _ _ _ En (Qeq_refl _)).
  rewrite (Qred_complete _ _ En). reflexivity.
Qed.

(** Rounding depends on the value of the rational only. *)
Lemma round_comp (q q' : Q) : q == q' -> Binary64.round q = Binary64.round q'.
Proof.
  intro E. unfold Binary64.round.
  rewrite <- (Qcompare_comp _ _ E 0 0 (Qeq_refl _)).
  destruct (Qcompare_spec q 0) as [H|H|H]; [reflexivity| |].
  - f_equal. apply round_pos_comp; [lra|rewrite E; reflexivity].
  - apply round_pos_comp; assumption.
Qed.

Lemma round_Qred (q : Q) : Binary64.round (Qred q) = Binary64.round q.
Proof. apply round_comp, Qred_correct. Qed.

Lemma round_pos_mono (q q' : Q) :
  0 < q -> q <= q' ->
  le (Binary64.round_pos q) (Binary64.round_pos q') = true.
Proof.
  intros Hq Hle. pose proof (nearest_mono q q' Hq Hle) as Hn.
  unfold Binary64.round_pos.
  destruct (Qltb (Binary64.nearest q') (2 ^ 1024)) eqn:E'.
  - apply Qltb_lt in E'.
    assert (E : Qltb (Binary64.nearest q) (2 ^ 1024) = true).
    { apply Qltb_lt. apply Qle_lt_trans with (Binary64.nearest q'); assumption. }
    rewrite E. apply le_Fin. rewrite !Qred_correct. exact Hn.
  - apply le_PosInf. destruct (Qltb (Binary64.nearest q) _); reflexivity.
Qed.

Lemma round_pos_nonneg (q : Q) :
  0 < q -> le (Fin 0) (Binary64.round_pos q) = true.
Proof.
  intro Hq. unfold Binary64.round_pos.
  destruct (Qltb _ _); [|reflexivity].
  apply le_Fin. rewrite Qred_correct. apply nearest_nonneg, Hq.
Qed.

Lemma round_pos_nonpos (q : Q) :
  0 < q -> le (neg (Binary64.round_pos q)) (Fin 0) = true.
Proof.
  intro Hq. change (Fin 0) with (neg (Fin 0)). rewrite le_neg.
  apply round_pos_nonneg, Hq.
Qed.

(** Rounding is monotone. *)
Lemma round_mono (q q' : Q) :
  q <= q' -> le (Binary64.round q) (Binary64.round q') = true.
Proof.
  intro Hle. unfold Binary64.round.
  destruct (Qcompare_spec q 0) as [H|H|H];
    destruct (Qcompare_spec q' 0) as [H'|H'|H']; try (exfalso; lra).
  - reflexivity.
  - apply round_pos_nonneg, H'.
  - apply round_pos_nonpos. lra.
  - rewrite le_neg. apply round_pos_mono; lra.
  - apply le_trans with (Fin 0);
      [apply round_pos_nonpos; lra|apply round_pos_nonneg, H'].
  - apply round_pos_mono; assumption.
Qed.

Lemma rounded_mono (x y : number) :
  le x y = true -> le (Binary64.rounded x) (Binary64.rounded y) = true.
Proof.
  destruct x as [| | |a], y as [| | |b]; try discriminate; cbn [Binary64.rounded].
  - intros _. reflexivity.
  - intros _. apply le_PosInf. reflexivity.
  - intros _. reflexivity.
  - intros _.
    assert (H : le (neg (Binary64.round b)) (neg NegInf) = true).
    { apply le_PosInf.
      destruct (Binary64.round b) eqn:E; try reflexivity. exfalso.
      pose proof (round_mono b b (Qle_refl b)) as Hm. rewrite E in Hm.
      discriminate. }
    rewrite le_neg in H. exact H.
  - intros _. apply le_PosInf.
    destruct (Binary64.round a) eqn:E; try reflexivity. exfalso.
    pose proof (round_mono a a (Qle_refl a)) as Hm. rewrite E in Hm.
    discriminate.
  - intro H. apply le_Fin in H. apply round_mono, H.
Qed.

(** Representable values are their own rounding. *)
Lemma round_exact (q : Q) (m e : Z) :
  (Z.abs m < 2 ^ 53)%Z -> (-1074 <= e <= 971)%Z -> q == inject_Z m * 2 ^ e ->
  Binary64.round q = Fin (Qred q).
Proof.
  intros Hm He Eq.
  assert (Hpos : forall (p : Q) (k : Z),
             (0 < k < 2 ^ 53)%Z -> p == inject_Z k * 2 ^ e ->
             Binary64.round_pos p = Fin (Qred p)).
  { intros p k Hk Ep. unfold Binary64.round_pos.
    pose proof (nearest_exact p k e Hk (proj1 He) Ep) as En.
    assert (Hlt : Qltb (Binary64.nearest p) (2 ^ 1024) = true).
    { apply Qltb_lt. rewrite En, Ep.
      apply Qlt_le_trans with (inject_Z (2 ^ 53) * 2 ^ e).
      - apply Qmult_lt_compat_r; [apply pow2_pos|].
        rewrite <- Zlt_Qlt. lia.
      - rewrite <- pow2_Z by lia. rewrite <- pow2_plus. apply pow2_le. lia. }
    rewrite Hlt. f_equal. apply Qred_complete, En. }
  pose proof (pow2_pos e) as Hp.
  unfold Binary64.round.
  destruct (Qcompare_spec q 0) as [H|H|H].
  - f_equal. symmetry. transitivity (Qred 0); [apply Qred_complete, H|reflexivity].
  - assert (Hk : (0 < - m)%Z).
    { destruct (Z.lt_trichotomy m 0) as [L|[L|L]]; [lia| |]; exfalso.
      - subst m. rewrite Eq in H. change (inject_Z 0) with 0 in H.
        rewrite Qmult_0_l in H. discriminate.
      - assert (0 < inject_Z m) by (change 0 with (inject_Z 0);
                                    rewrite <- Zlt_Qlt; exact L).
        assert (0 < inject_Z m * 2 ^ e) by (apply Qmult_lt_0_compat; assumption).
        rewrite Eq in H. lra. }
    rewrite (Hpos (- q) (- m)%Z); [| lia |].
    + cbn [neg]. f_equal. apply Qred_complete. rewrite Qred_correct. ring.
    + rewrite Eq, inject_Z_opp. ring.
  - assert (Hk : (0 < m)%Z).
    { destruct (Z.lt_trichotomy m 0) as [L|[L|L]]; [| |lia]; exfalso.
      - assert (inject_Z m < 0) by (change 0 with (inject_Z 0);
                                    rewrite <- Zlt_Qlt; exact L).
        assert (0 < - inject_Z m * 2 ^ e)
          by (apply Qmult_lt_0_compat; [lra|assumption]).
        rewrite Eq in H. lra.
      - subst m. rewrite Eq in H. change (inject_Z 0) with 0 in H.
        rewrite Qmult_0_l in H. discriminate. }
    apply (Hpos q m); [lia|exact Eq].
Qed.

(** Integers below 2^53 are exact. *)
Lemma round_Z (z : Z) :
  (Z.abs z < 2 ^ 53)%Z -> Binary64.round (inject_Z z) = Fin (inject_Z z).
Proof.
  intro H. rewrite (round_exact (inject_Z z) z 0 H); [|lia|].
  - rewrite Qred_inject_Z. reflexivity.
  - change (2 ^ 0) with 1. ring.
Qed.

Lemma rounded_num_of_Z (z : Z) :
  (Z.abs z < 2 ^ 53)%Z -> Binary64.rounded (num_of_Z z) = num_of_Z z.
Proof. apply round_Z. Qed.
End RoundFacts.

Section RoundingError.
Import JS.
Local Open Scope Q_scope.

Lemma Fin_inj (a b : Q) : Fin a = Fin b -> a = b.
Proof. intro H. injection H as H. exact H. Qed.

(** A result is within half the weight of its last bit of the exact value:
    within a relative 2^-53, or within 2^-1075 where the last bit is the
    least one. *)
Lemma nearest_error (q : Q) :
  0 < q ->
  q - (q * 2 ^ (-53) + 2 ^ (-1075)) <= Binary64.nearest q
  <= q + (q * 2 ^ (-53) + 2 ^ (-1075)).
Proof.
  intro Hq. destruct (binade_spec q Hq) as [B _].
  unfold Binary64.nearest.
  pose proof (last_bit_spec q) as SL.
  set (L := Binary64.last_bit q) in *. set (e := Binary64.binade q) in *.
  pose proof (pow2_pos L) as HpL.
  pose proof (nearest_even_close (q / 2 ^ L)) as [C1 C2].
  set (m := inject_Z (Binary64.nearest_even (q / 2 ^ L))) in *.
  assert (Es : q == q / 2 ^ L * 2 ^ L).
  { field. intro E0. rewrite E0 in HpL. discriminate. }
  set (s := q / 2 ^ L) in *.
  assert (Hh : 2 ^ L * (1 # 2) <= q * 2 ^ (-53) + 2 ^ (-1075)).
  { pose proof (pow2_pos (-1075)) as Hp1.
    pose proof (pow2_pos (-53)) as Hp2.
    destruct (Z.max_spec (e - 52) (-1074)) as [[_ E]|[_ E]];
      rewrite E in SL; rewrite SL.
    - change (2 ^ (-1074) * (1 # 2)) with (2 ^ (-1075)).
      assert (0 <= q * 2 ^ (-53))
        by (apply Qmult_le_0_compat; apply Qlt_le_weak; assumption).
      lra.
    - assert (E2 : 2 ^ (e - 52) * (1 # 2) == 2 ^ e * 2 ^ (-53)).
      { replace (e - 52)%Z with (e + (-52))%Z by lia. rewrite pow2_plus.
        assert (E52 : 2 ^ (-52) == 2 * 2 ^ (-53)) by reflexivity.
        rewrite E52. ring. }
      rewrite E2.
      assert (2 ^ e * 2 ^ (-53) <= q * 2 ^ (-53))
        by (apply Qmult_le_compat_r; [exact B|apply Qlt_le_weak, Hp2]).
      lra. }
  assert (H1 : (s - (1 # 2)) * 2 ^ L <= m * 2 ^ L)
    by (apply Qmult_le_compat_r; [exact C1|apply Qlt_le_weak, HpL]).
  assert (H2 : m * 2 ^ L <= (s + (1 # 2)) * 2 ^ L)
    by (apply Qmult_le_compat_r; [exact C2|apply Qlt_le_weak, HpL]).
  set (w := 2 ^ L) in *. set (b := q * 2 ^ (-53) + 2 ^ (-1075)) in *.
  set (z := m * w) in *. set (sw := s * w) in *.
  assert (H1' : sw - w * (1 # 2) <= z) by (subst sw; lra).
  assert (H2' : z <= sw + w * (1 # 2)) by (subst sw; lra).
  rewrite Es. fold sw. split; lra.
Qed.

Lemma round_pos_error (q r : Q) :
  0 < q -> Binary64.round_pos q = Fin r ->
  q - (q * 2 ^ (-53) + 2 ^ (-1075)) <= r
  <= q + (q * 2 ^ (-53) + 2 ^ (-1075)).
Proof.
  intros Hq. unfold Binary64.round_pos.
  destruct (Qltb _ _); [|discriminate].
  intro E. apply Fin_inj in E.
  assert (Er : r == Binary64.nearest q) by (rewrite <- E; apply Qred_correct).
  rewrite Er. apply nearest_error, Hq.
Qed.

Lemma round_error (q r : Q) :
  Binary64.round q = Fin r ->
  q - (Qabs q * 2 ^ (-53) + 2 ^ (-1075)) <= r
  <= q + (Qabs q * 2 ^ (-53) + 2 ^ (-1075)).
Proof.
  unfold Binary64.round.
  pose proof (pow2_pos (-1075)) as Hp1.
  pose proof (pow2_pos (-53)) as Hp2.
  destruct (Qcompare_spec q 0) as [H|H|H].
  - intro E. apply Fin_inj in E. subst r. rewrite H.
    change (Qabs 0) with 0. lra.
  - destruct (Binary64.round_pos (- q)) as [| | |r'] eqn:E; try discriminate.
    cbn [neg]. intro E'. apply Fin_inj in E'.
    assert (Er : r == - r') by (rewrite <- E'; apply Qred_correct).
    assert (Hq : 0 < - q) by lra.
    pose proof (round_pos_error (- q) r' Hq E) as [H1 H2].
    assert (Ea : Qabs q == - q) by (apply Qabs_neg; lra).
    rewrite Ea, Er. split; lra.
  - intro E. pose proof (round_pos_error q r H E) as [H1 H2].
    assert (Ea : Qabs q == q) by (apply Qabs_pos; lra).
    rewrite Ea. split; lra.
Qed.

(** The rounding of a value between 0 and a representable bound. *)
Lemma round_between (q hi : Q) (m e : Z) :
  (0 <= m < 2 ^ 53)%Z -> (-1074 <= e <= 971)%Z -> hi == inject_Z m * 2 ^ e ->
  0 <= q <= hi ->
  exists r, Binary64.round q = Fin r /\ 0 <= r <= hi.
Proof.
  intros Hm He Eh [H0 H1].
  pose proof (round_mono 0 q H0) as L0.
  pose proof (round_mono q hi H1) as L1.
  rewrite (round_exact hi m e) in L1; [|lia|exact He|exact Eh].
  change (Binary64.round 0) with (Fin 0) in L0.
  destruct (Binary64.round q) as [| | |r]; try discriminate.
  exists r. split; [reflexivity|].
  apply le_Fin in L0. apply le_Fin in L1. rewrite Qred_correct in L1.
  split; assumption.
Qed.
End RoundingError.

Section Representable.
Import JS.
Local Open Scope Q_scope.

(** A rounded value is a binary64 value: a significand below 2^53 at an
    exponent from -1074 to 971. *)
Lemma round_pos_representable (q r : Q) :
  0 < q -> Binary64.round_pos q = Fin r ->
  exists m e, (0 <= m < 2 ^ 53)%Z /\ (-1074 <= e <= 971)%Z
              /\ r == inject_Z m * 2 ^ e.
Proof.
  intros Hq. unfold Binary64.round_pos.
  destruct (Qltb (Binary64.nearest q) (2 ^ 1024)) eqn:Hlt; [|discriminate].
  intro E. apply Fin_inj in E.
  assert (Er : r == Binary64.nearest q) by (rewrite <- E; apply Qred_correct).
  apply Qltb_lt in Hlt. clear E. unfold Binary64.nearest in *.
  destruct (binade_spec q Hq) as [B1 B2].
  pose proof (last_bit_spec q) as SL.
  set (L := Binary64.last_bit q) in *. set (b := Binary64.binade q) in *.
  pose proof (pow2_pos L) as HpL.
  set (n := Binary64.nearest_even (q / 2 ^ L)) in *.
  assert (Hn0 : (0 <= n)%Z).
  { apply nearest_even_nonneg. apply Qle_shift_div_l; [exact HpL|]. lra. }
  assert (Hn53 : (n <= 2 ^ 53)%Z).
  { rewrite <- (nearest_even_Z (2 ^ 53)). apply nearest_even_mono.
    apply Qle_shift_div_r; [exact HpL|].
    rewrite <- pow2_Z by lia. rewrite <- pow2_plus.
    apply Qle_trans with (2 ^ (b + 1)); [apply Qlt_le_weak, B2|].
    apply pow2_le. lia. }
  assert (Hcap : forall k : Z, (2 ^ k <= inject_Z n)%Q -> (0 <= k)%Z ->
                               (k + L < 1024)%Z).
  { intros k Hk Hk0.
    destruct (Z.le_gt_cases 1024 (k + L)) as [H|H]; [exfalso|lia].
    pose proof (pow2_le 1024 (k + L) H) as P. rewrite pow2_plus in P.
    assert (2 ^ k * 2 ^ L <= inject_Z n * 2 ^ L)
      by (apply Qmult_le_compat_r; [exact Hk|apply Qlt_le_weak, HpL]).
    lra. }
  destruct (Z.eq_dec n (2 ^ 53)) as [En|Nn].
  - exists (2 ^ 52)%Z, (L + 1)%Z. split; [lia|].
    assert (H53 : (53 + L < 1024)%Z).
    { apply Hcap; [|lia]. rewrite En. rewrite <- pow2_Z by lia.
      apply Qle_refl. }
    split; [lia|].
    rewrite Er, En, pow2_succ. rewrite <- !pow2_Z by lia.
    assert (E53 : 2 ^ 53 == 2 * 2 ^ 52) by reflexivity.
    rewrite E53. ring.
  - exists n, L. split; [lia|]. split; [|exact Er].
    destruct (Z.max_spec (b - 52) (-1074)) as [[_ EL]|[HL EL]];
      rewrite EL in SL; [lia|].
    assert (H52 : (2 ^ 52 <= n)%Z).
    { rewrite <- (nearest_even_Z (2 ^ 52)). apply nearest_even_mono.
      apply Qle_shift_div_l; [exact HpL|].
      rewrite <- pow2_Z by lia. rewrite <- pow2_plus.
      apply Qle_trans with (2 ^ b); [|exact B1]. apply pow2_le. lia. }
    assert ((52 + L < 1024)%Z).
    { apply Hcap; [|lia]. rewrite pow2_Z by lia. rewrite <- Zle_Qle.
      exact H52. }
    lia.
Qed.

(** Rounding leaves a rounded value as it is. *)
Lemma round_idempotent (q r : Q) :
  Binary64.round q = Fin r -> Binary64.round r = Fin r.
Proof.
  unfold Binary64.round at 1.
  destruct (Qcompare_spec q 0) as [H|H|H].
  - intro E. apply Fin_inj in E. subst r. reflexivity.
  - destruct (Binary64.round_pos (- q)) as [| | |r'] eqn:E; try discriminate.
    cbn [neg]. intro E'. apply Fin_inj in E'.
    assert (Hq : 0 < - q) by lra.
    destruct (round_pos_representable (- q) r' Hq E) as (m & e & Hm & He & Em).
    rewrite (round_exact r (- m) e); [| lia | exact He |].
    + f_equal. rewrite <- E'. apply Qred_complete, Qred_correct.
    + rewrite <- E', Qred_correct, Em, inject_Z_opp. ring.
  - intro E.
    destruct (round_pos_representable q r H E) as (m & e & Hm & He & Em).
    rewrite (round_exact r m e); [| lia | exact He | exact Em].
    f_equal. unfold Binary64.round_pos in E.
    destruct (Qltb _ _); [|discriminate]. apply Fin_inj in E.
    rewrite <- E. apply Qred_complete, Qred_correct.
Qed.

Lemma rounded_idempotent (x : number) :
  Binary64.rounded (Binary64.rounded x) = Binary64.rounded x.
Proof.
  destruct x as [| | |q]; try reflexivity. cbn [Binary64.rounded].
  destruct (Binary64.round q) as [| | |r] eqn:E; try reflexivity.
  cbn [Binary64.rounded]. apply (round_idempotent q), E.
Qed.

(** So the number value of a binary64 value is that value. *)
Lemma number_value_rounded (x : number) :
  number_value (Binary64.rounded x) = Binary64.rounded x.
Proof. apply rounded_idempotent. Qed.
End Representable.

Section LibraryComparison.
Import JS.
Local Open Scope Q_scope.
Local Open Scope Z_scope.

(** On the samples [Binary64.round] is the rounding of the library. *)
Example round_as_the_library :
  map (fun s => Binary64.round (fst s # Z.to_pos (snd s))) Ieee754.samples
  = map (fun s => Ieee754.to_number (Ieee754.quotient (fst s) (snd s)))
      Ieee754.samples.
Proof. vm_compute. reflexivity. Qed.

(** So are the operations: 9.2 + 7.1 + 4.7, the third of that sum,
    8.3 - 6.8 and 1450 / 10000 * 100. *)
Example operations_as_the_library :
  let d n := Binary64.round (n # 10) in
  let l n := Ieee754.quotient n 10 in
  let z n := Ieee754.quotient n 1 in
  [Binary64.add (Binary64.add (d 92) (d 71)) (d 47);
   Binary64.div (Binary64.add (Binary64.add (d 92) (d 71)) (d 47)) (Fin 3%Q);
   Binary64.sub (d 83) (d 68);
   Binary64.mul (Binary64.div (Fin 1450%Q) (Fin 10000%Q)) (Fin 100%Q)]
  = map Ieee754.to_number
      [Ieee754.add (Ieee754.add (l 92) (l 71)) (l 47);
       Ieee754.div (Ieee754.add (Ieee754.add (l 92) (l 71)) (l 47)) (z 3);
       Ieee754.sub (l 83) (l 68);
       Ieee754.mul (Ieee754.div (z 1450) (z 10000)) (z 100)].
Proof. vm_compute. reflexivity. Qed.

(** The sum 9.2 + 7.1 + 4.7 is 20.999999999999996, 8.3 - 6.8 is
    1.5000000000000009, and 1450 / 10000 * 100 is 14.499999999999998. *)
Example binary64_results :
  let d n := Binary64.round (n # 10) in
  Binary64.add (Binary64.add (d 92) (d 71)) (d 47)
  = Fin (Qred (21 - 2 ^ (-48)))%Q
  /\ Binary64.sub (d 83) (d 68) = Fin (Qred ((3 # 2) + 2 ^ (-50)))%Q
  /\ Binary64.mul (Binary64.div (Fin 1450%Q) (Fin 10000%Q)) (Fin 100%Q)
     = Fin (Qred ((29 # 2) - 2 ^ (-49)))%Q.
Proof. vm_compute. repeat split. Qed.
End LibraryComparison.

Section SortFacts.
Context {A : Type} (cmp : A -> A -> comparison).

Lemma insert_perm (x : A) (l : list A) :
  Permutation (JS.insert cmp x l) (x :: l).
Proof.
  induction l as [|y l IH]; simpl.
  - apply Permutation_refl.
  - destruct (cmp x y); try apply Permutation_refl.
    apply Permutation_trans with (y :: x :: l).
    + apply perm_skip, IH.
    + apply perm_swap.
Qed.

Lemma sort_perm (l : list A) : Permutation (JS.sort cmp l) l.
Proof.
  induction l as [|x l IH]; simpl.
  - apply perm_nil.
  - apply Permutation_trans with (x :: JS.sort cmp l).
    + apply insert_perm.
    + apply perm_skip, IH.
Qed.

Lemma sort_length (l : list A) : List.length (JS.sort cmp l) = List.length l.
Proof. apply Permutation_length, sort_perm. Qed.

Lemma sort_nil_iff (l : list A) : JS.sort cmp l = [] <-> l = [].
Proof.
  split; intro H.
  - apply List.length_zero_iff_nil. rewrite <- sort_length, H. reflexivity.
  - subst. reflexivity.
Qed.
End SortFacts.

Section DateOrder.
Import HealthGoal.
Local Open Scope Z_scope.

Lemma insert_hd (x : CheckIn) (l : list CheckIn) :
  hd_error (JS.insert by_date_desc x l)
  = match hd_error l with
    | Some y => if date x <? date y then Some y else Some x
    | None => Some x
    end.
Proof.
  destruct l as [|y l]; simpl; [reflexivity|].
  unfold by_date_desc. rewrite Z.ltb_compare, (Z.compare_antisym (date x) (date y)).
  destruct (date x ?= date y); reflexivity.
Qed.

Lemma insert_sorted (x : CheckIn) (l : list CheckIn) :
  Sorted Spec.descending l ->
  Sorted Spec.descending (JS.insert by_date_desc x l).
Proof.
  induction 1 as [|y l Hs IH Hhd]; simpl.
  - repeat constructor.
  - unfold by_date_desc at 1.
    destruct (Z.compare_spec (date y) (date x)) as [E|L|G].
    + constructor; [constructor; assumption|].
      constructor. unfold Spec.descending. lia.
    + constructor; [constructor; assumption|].
      constructor. unfold Spec.descending. lia.
    + constructor; [exact IH|].
      assert (Hx : hd_error (JS.insert by_date_desc x l)
                   = match hd_error l with
                     | Some z => if date x <? date z then Some z else Some x
                     | None => Some x
                     end) by apply insert_hd.
      destruct (JS.insert by_date_desc x l) as [|w r]; [constructor|].
      constructor. simpl in Hx.
      destruct l as [|z l']; simpl in Hx.
      * injection Hx as ->. unfold Spec.descending. lia.
      * inversion Hhd; subst.
        destruct (date x <? date z); injection Hx as ->;
          unfold Spec.descending in *; lia.
Qed.

Lemma sort_sorted (l : list CheckIn) :
  Sorted Spec.descending (JS.sort by_date_desc l).
Proof.
  induction l as [|x l IH]; simpl; [constructor|].
  apply insert_sorted, IH.
Qed.

Lemma sort_of_sorted (l : list CheckIn) :
  Sorted Spec.descending l -> JS.sort by_date_desc l = l.
Proof.
  induction 1 as [|x l Hs IH Hhd]; simpl; [reflexivity|].
  rewrite IH. destruct Hhd as [|y l' Hxy]; simpl; [reflexivity|].
  unfold by_date_desc, Spec.descending in *.
  destruct (Z.compare_spec (date y) (date x)); try reflexivity; lia.
Qed.

Lemma sort_idempotent (l : list CheckIn) :
  JS.sort by_date_desc (JS.sort by_date_desc l) = JS.sort by_date_desc l.
Proof. apply sort_of_sorted, sort_sorted. Qed.

Lemma sort_hd_latest (l : list CheckIn) :
  hd_error (JS.sort by_date_desc l) = Spec.latest l.
Proof.
  induction l as [|x l IH]; simpl; [reflexivity|].
  rewrite insert_hd, IH. reflexivity.
Qed.

Lemma descending_trans : Relations_1.Transitive Spec.descending.
Proof. intros a b c. unfold Spec.descending. lia. Qed.

(** The latest check-in has the greatest date. *)
Lemma latest_max (l : list CheckIn) (m : CheckIn) :
  Spec.latest l = Some m -> In m l /\ forall c, In c l -> date c <= date m.
Proof.
  rewrite <- sort_hd_latest. intro H.
  pose proof (sort_sorted l) as Hs.
  pose proof (sort_perm by_date_desc l) as Hp.
  destruct (JS.sort by_date_desc l) as [|y r]; [discriminate|].
  injection H as ->.
  apply Sorted_StronglySorted in Hs; [|exact descending_trans].
  inversion Hs as [|? ? _ Hall]; subst.
  split.
  - apply (Permutation_in _ Hp). left. reflexivity.
  - intros c Hc. apply (Permutation_in _ (Permutation_sym Hp)) in Hc.
    destruct Hc as [->|Hc]; [lia|].
    rewrite Forall_forall in Hall. apply Hall, Hc.
Qed.
End DateOrder.

Section StreakFacts.
Import JS HealthGoal.
Local Open Scope Z_scope.

Lemma loop_break_test (gap : Z) (prev cur : CheckIn) :
  negb (completed cur)
  || strict_neq
       (Math_round (div (num_of_Z (date prev - date cur)) (num_of_Z ms_per_day)))
       (num_of_Z gap)
  = negb (Spec.on_schedule gap (prev, cur)).
Proof.
  rewrite round_days. unfold strict_neq. rewrite strict_eq_num_of_Z.
  unfold Spec.on_schedule, Spec.day_gap.
  rewrite negb_andb. reflexivity.
Qed.

Lemma streak_loop_counts (f : Frequency.t) (rest : list CheckIn) :
  forall (s : Z) (prev : CheckIn),
    streak_loop f rest s (date prev)
    = s + Z.of_nat
            (List.length
               (Spec.take_while (Spec.on_schedule (expectedDiff f))
                  (Spec.successive (prev :: rest)))).
Proof.
  induction rest as [|c r IH]; intros s prev.
  - simpl. lia.
  - change (Spec.successive (prev :: c :: r))
      with ((prev, c) :: Spec.successive (c :: r)).
    cbn [streak_loop Spec.take_while].
    rewrite loop_break_test.
    destruct (Spec.on_schedule (expectedDiff f) (prev, c)); cbn [negb].
    + rewrite IH. cbn [List.length]. lia.
    + simpl. lia.
Qed.

Lemma expected_gap_used (f : Frequency.t) (gap : Z) :
  Spec.expected_gap f = Some gap -> expectedDiff f = gap.
Proof. destruct f; simpl; intro H; inversion H; reflexivity. Qed.

Lemma updateStreak_spec (g : Goal) :
  snd (updateStreak g)
  = Normal (Spec.streak (expectedDiff (frequency g)) (checkIns g)).
Proof.
  unfold updateStreak, Spec.streak, sort_checkIns, Spec.latest_first.
  rewrite <- sort_hd_latest.
  destruct (checkIns g) as [|c l] eqn:E; [reflexivity|].
  cbn [List.length Nat.eqb snd].
  destruct (sort by_date_desc (c :: l)) as [|y r] eqn:Es.
  - apply sort_nil_iff in Es. discriminate.
  - cbn [nth_error hd_error of_element bind tl frequency set_checkIns].
    destruct (completed y); cbn [negb]; [|reflexivity].
    rewrite streak_loop_counts. reflexivity.
Qed.

Lemma day_gap_whole (prev cur : CheckIn) (k : Z) :
  date prev - date cur = k * ms_per_day -> Spec.day_gap prev cur = k.
Proof.
  intro H. unfold Spec.day_gap. rewrite H.
  symmetry. apply Z.div_unique with (r := ms_per_day).
  - left. unfold ms_per_day. lia.
  - lia.
Qed.

(** Check-ins with pairwise different dates have one descending order. *)
Lemma sort_unique (l sorted : list CheckIn) :
  Sorted Spec.strictly_descending sorted ->
  Permutation l sorted ->
  sort by_date_desc l = sorted.
Proof.
  intros Hs Hp.
  assert (Hp2 : Permutation (sort by_date_desc l) sorted)
    by (eapply Permutation_trans; [apply sort_perm | exact Hp]).
  pose proof (sort_sorted l) as Hs2.
  clear Hp. revert Hs Hp2 Hs2.
  generalize (sort by_date_desc l) as l2. clear l.
  induction sorted as [|x r1 IH]; intros l2 Hs Hp Hs2.
  - apply Permutation_sym, Permutation_nil in Hp. exact Hp.
  - destruct l2 as [|y r2].
    + apply Permutation_nil in Hp. discriminate.
    + apply Sorted_StronglySorted in Hs;
        [|intros a b c; unfold Spec.strictly_descending; lia].
      pose proof Hs2 as Hss2.
      apply Sorted_StronglySorted in Hss2; [|exact descending_trans].
      inversion Hs as [|? ? Hs1 Hall1]; subst.
      inversion Hss2 as [|? ? _ Hall2]; subst.
      rewrite Forall_forall in Hall1, Hall2.
      assert (y = x) as ->.
      { assert (Hy : In y (x :: r1))
          by (apply (Permutation_in _ Hp); left; reflexivity).
        assert (Hx : In x (y :: r2))
          by (apply (Permutation_in _ (Permutation_sym Hp)); left; reflexivity).
        destruct Hy as [->|Hy]; [reflexivity|].
        destruct Hx as [->|Hx]; [reflexivity|].
        apply Hall1 in Hy. apply Hall2 in Hx.
        unfold Spec.strictly_descending, Spec.descending in *. lia. }
      f_equal. apply IH.
      * apply StronglySorted_Sorted, Hs1.
      * eapply Permutation_cons_inv, Hp.
      * inversion Hs2; assumption.
Qed.

Lemma five_days_sorted (D : Z) (v0 v1 v2 v3 v4 : JS.value) :
  Sorted Spec.strictly_descending (Spec.five_days D v0 v1 v2 v3 v4).
Proof.
  unfold Spec.five_days.
  repeat (constructor; [|try constructor;
                          unfold Spec.strictly_descending, Spec.on_day,
                            ms_per_day; simpl; lia]).
  constructor.
Qed.

Lemma five_days_streak (D : Z) (v0 v1 v2 v3 v4 : JS.value) (l : list CheckIn) :
  Permutation l (Spec.five_days D v0 v1 v2 v3 v4) ->
  Spec.streak 1 l = 5.
Proof.
  intro Hp.
  pose proof (sort_unique _ _ (five_days_sorted D v0 v1 v2 v3 v4) Hp) as Es.
  unfold Spec.streak, Spec.latest_first.
  rewrite <- sort_hd_latest, Es.
  unfold Spec.five_days. cbn [hd_error Spec.on_day completed].
  unfold Spec.successive. cbn [tl combine Spec.take_while].
  unfold Spec.on_schedule.
  repeat (rewrite (@day_gap_whole _ _ 1);
          [|unfold Spec.on_day, ms_per_day; simpl; lia]).
  reflexivity.
Qed.
End StreakFacts.

Section ProgressFacts.
Import JS HealthGoal.
Local Open Scope Z_scope.

Lemma set_checkIns_same (g : Goal) : set_checkIns g (checkIns g) = g.
Proof. destruct g; reflexivity. Qed.

Lemma status_eqb_eq (a b : Status.t) : Status.eqb a b = true <-> a = b.
Proof. destruct a, b; simpl; split; intro H; congruence. Qed.

Lemma calculateProgress_no_target (g : Goal) :
  truthy (target (metrics g)) = false ->
  calculateProgress g = (g, Normal (progress g)).
Proof. intro H. unfold calculateProgress. rewrite H. reflexivity. Qed.

Lemma calculateProgress_completed (g : Goal) :
  truthy (target (metrics g)) = true ->
  status g = Status.completed ->
  calculateProgress g = (g, Normal (Fin 100)).
Proof.
  intros Ht Hs. unfold calculateProgress. rewrite Ht, Hs. reflexivity.
Qed.

Lemma calculateProgress_empty (g : Goal) :
  truthy (target (metrics g)) = true ->
  status g <> Status.completed ->
  checkIns g = [] ->
  calculateProgress g = (g, Normal (Fin 0)).
Proof.
  intros Ht Hs He. unfold calculateProgress. rewrite Ht, He.
  destruct (Status.eqb (status g) Status.completed) eqn:E.
  - apply status_eqb_eq in E. contradiction.
  - reflexivity.
Qed.

(** The goal [calculateProgress] leaves behind. *)
Lemma calculateProgress_goal (g : Goal) :
  fst (calculateProgress g) = g
  \/ fst (calculateProgress g) = set_checkIns g (sort by_date_desc (checkIns g)).
Proof.
  unfold calculateProgress, sort_checkIns.
  destruct (negb (truthy (target (metrics g)))); [left; reflexivity|].
  destruct (Status.eqb (status g) Status.completed); [left; reflexivity|].
  destruct (List.length (checkIns g) =? 0)%nat; [left; reflexivity|].
  right. reflexivity.
Qed.

Lemma updateStreak_goal (g : Goal) :
  fst (updateStreak g) = set_checkIns g (sort by_date_desc (checkIns g)).
Proof.
  unfold updateStreak, sort_checkIns.
  destruct (checkIns g) as [|c l] eqn:E.
  - simpl. rewrite <- E. symmetry. apply set_checkIns_same.
  - reflexivity.
Qed.

(** What [calculateProgress] returns once the early exits are passed, in
    terms of the latest check-in. *)
Lemma calculateProgress_plain_NaN (g : Goal) (l : CheckIn) :
  status g <> Status.completed ->
  Spec.latest (checkIns g) = Some l ->
  is_object (target (metrics g)) = false ->
  isNaN (parseFloat (value l)) || isNaN (parseFloat (target (metrics g))) = true ->
  snd (calculateProgress g) = Normal (progress g).
Proof.
  intros Hs Hl Hplain Hnan. unfold calculateProgress, sort_checkIns.
  destruct (truthy (target (metrics g))) eqn:Ht; cbn [negb]; [|reflexivity].
  destruct (Status.eqb (status g) Status.completed) eqn:E.
  { apply status_eqb_eq in E. contradiction. }
  rewrite <- sort_hd_latest in Hl.
  destruct (checkIns g) as [|c r] eqn:Ec; [discriminate|].
  cbn [List.length Nat.eqb snd metrics set_checkIns progress].
  destruct (sort by_date_desc (c :: r)) as [|y s]; [discriminate|].
  injection Hl as ->.
  cbn [nth_error of_element bind].
  destruct (is_object (current (metrics g))).
  - destruct (target (metrics g)); try discriminate; reflexivity.
  - rewrite Hnan. reflexivity.
Qed.
End ProgressFacts.

Section CacheFacts.
Import JS HealthGoal GoalController.
Local Open Scope Z_scope.

Lemma strict_eq_refl_of_le (p q : number) :
  le p q = true -> strict_eq p p = true.
Proof.
  destruct p as [| | |a]; destruct q; simpl; try discriminate; try reflexivity;
    intros _; unfold Qeqb; rewrite (proj1 (Qeq_alt a a) (Qeq_refl a));
    reflexivity.
Qed.

Lemma le_antisym_strict_eq (p q : number) :
  le p q = true -> le q p = true -> strict_eq p q = true.
Proof.
  destruct p as [| | |a], q as [| | |b]; simpl; try discriminate;
    try reflexivity.
  unfold Qltb, Qeqb. rewrite <- (Qcompare_antisym a b).
  destruct (a ?= b)%Q; simpl; congruence.
Qed.

(** Two goals with the same target, status and sorted check-ins get the same
    progress, save where the cached value is handed back. *)
Lemma calculateProgress_same_inputs (g g' : Goal) :
  metrics g' = metrics g ->
  status g' = status g ->
  sort by_date_desc (checkIns g') = sort by_date_desc (checkIns g) ->
  snd (calculateProgress g') = snd (calculateProgress g)
  \/ (snd (calculateProgress g) = Normal (progress g)
      /\ snd (calculateProgress g') = Normal (progress g')).
Proof.
  intros Hm Hs Hc.
  assert (Hlen : List.length (checkIns g') = List.length (checkIns g)).
  { rewrite <- (sort_length by_date_desc (checkIns g')), Hc.
    apply sort_length. }
  unfold calculateProgress, sort_checkIns. rewrite Hm, Hs, Hlen.
  destruct (negb (truthy (target (metrics g)))); [right; split; reflexivity|].
  destruct (Status.eqb (status g) Status.completed); [left; reflexivity|].
  destruct (List.length (checkIns g) =? 0)%nat; [left; reflexivity|].
  cbn [snd metrics set_checkIns progress]. rewrite Hm, Hc.
  destruct (is_object (current (metrics g))).
  - destruct (get (target (metrics g)) systolic) as [ts|]; cbn [bind];
      [|left; reflexivity].
    destruct (truthy ts); cbn [bind].
    + destruct (get (target (metrics g)) diastolic) as [td|]; cbn [bind];
        [|left; reflexivity].
      destruct (truthy td); [left; reflexivity|right; split; reflexivity].
    + right; split; reflexivity.
  - destruct (of_element (nth_error (sort by_date_desc (checkIns g)) 0) value)
      as [v|]; cbn [bind]; [|left; reflexivity].
    destruct (isNaN (parseFloat v) || isNaN (parseFloat (target (metrics g))));
      [right; split; reflexivity|left; reflexivity].
Qed.

(** After a check-in has been stored, the cached progress is what
    [calculateProgress] computes on the stored goal. *)
Lemma addCheckIn_progress_cached (now : Z) (u : string) (g g' : Goal)
  (b : CheckInRequest.body) :
  addCheckIn now u (Some g) b = Success g' ->
  exists r, snd (calculateProgress g') = Normal r
            /\ strict_eq (progress g') r = true.
Proof.
  unfold addCheckIn.
  destruct (CheckInRequest.date b) as [d|]; [|discriminate].
  destruct (negb (CheckInRequest.truthy d)); [discriminate|].
  destruct (negb (String.eqb (user g) u)); [discriminate|].
  set (g1 := push_checkIn g (CheckInRequest.time_value d) b).
  pose proof (calculateProgress_goal g1) as Hg2.
  destruct (calculateProgress g1) as [g2 [p|]] eqn:E1; [|discriminate].
  cbn [fst] in Hg2.
  rewrite (surjective_pairing (updateStreak (set_progress g2 p))).
  rewrite updateStreak_goal.
  destruct (snd (updateStreak (set_progress g2 p))) as [s|]; [|discriminate].
  set (g4 := set_checkIns (set_progress g2 p)
               (sort by_date_desc (checkIns (set_progress g2 p)))).
  assert (Hm : metrics g4 = metrics g1) by (destruct Hg2; subst g2; reflexivity).
  assert (Hs : status g4 = status g1) by (destruct Hg2; subst g2; reflexivity).
  assert (Hc : sort by_date_desc (checkIns g4) = sort by_date_desc (checkIns g1)).
  { subst g4. cbn [checkIns set_checkIns set_progress].
    rewrite sort_idempotent.
    destruct Hg2; subst g2; cbn [checkIns set_checkIns];
      [reflexivity|apply sort_idempotent]. }
  assert (Hp : progress g4 = p) by reflexivity.
  assert (E1' : snd (calculateProgress g1) = Normal p) by (rewrite E1; reflexivity).
  change (progress (set_streak g4 s)) with p.
  destruct (ge p (Fin 100) && or_default (CheckInRequest.completed b) false)
    eqn:Edone; unfold save.
  all: match goal with
  | |- (if validate ?x then _ else _) = _ -> _ =>
      destruct (validate x) eqn:V; [|discriminate]
  end.
  all: intro H; injection H as <-.
  all: unfold validate in V; apply andb_prop in V; destruct V as [V _].
  all: apply andb_prop in V; destruct V as [V0 V100].
  all: change (le p (Fin 100) = true) in V100.
  - change (progress (set_completed (set_streak g4 s) now)) with p.
    apply andb_prop in Edone. destruct Edone as [Hge _].
    destruct (truthy (target (metrics g4))) eqn:Ht.
    + exists (Fin 100). split.
      * rewrite calculateProgress_completed; [reflexivity| |reflexivity].
        exact Ht.
      * apply le_antisym_strict_eq; assumption.
    + exists p. split.
      * rewrite calculateProgress_no_target; [reflexivity|exact Ht].
      * eapply strict_eq_refl_of_le, V100.
  - change (progress (set_streak g4 s)) with p.
    exists p. split; [|eapply strict_eq_refl_of_le, V100].
    destruct (calculateProgress_same_inputs g1 (set_streak g4 s) Hm Hs Hc)
      as [H|[_ H]].
    + rewrite H. exact E1'.
    + rewrite H. reflexivity.
Qed.
End CacheFacts.

Section ScoreFacts.
Import JS AiService.
Local Open Scope Z_scope.
Local Open Scope string_scope.

Lemma filter_c_pure {A} (f : A -> completion bool) (p : A -> bool)
  (l : list A) :
  (forall x, In x l -> f x = Normal (p x)) ->
  filter_c f l = Normal (filter p l).
Proof.
  induction l as [|x l IH]; intro H; simpl; [reflexivity|].
  rewrite (H x (or_introl eq_refl)). cbn [bind].
  rewrite IH by (intros y Hy; apply H; right; exact Hy).
  reflexivity.
Qed.

Lemma readable_blood_pressure (metrics : list Metric) (m : Metric) :
  forallb Spec.readable metrics = true ->
  In m (of_type "blood_pressure" metrics) ->
  value m <> JUndefined /\ value m <> JNull.
Proof.
  intros Hall Hin. unfold of_type in Hin. apply filter_In in Hin.
  destruct Hin as [Hin Ht].
  rewrite forallb_forall in Hall. specialize (Hall m Hin).
  unfold Spec.readable in Hall. rewrite Ht in Hall. cbn [negb orb] in Hall.
  destruct (value m); try discriminate; split; discriminate.
Qed.

(** Read with binary64 results, the specification's readings are the
    code's conversions. *)
Lemma reading_binary64 (v : JS.value) :
  Spec.reading Binary64.rounded v = parseFloat v.
Proof. destruct v; reflexivity. Qed.

Lemma operand_binary64 (v : JS.value) :
  Spec.operand Binary64.rounded v = ToNumber v.
Proof. destruct v; reflexivity. Qed.

Lemma sum_binary64 (s : list Metric) (total : number) :
  fold_left (fun total x => Binary64.rounded (add total x))
    (map (fun m => Spec.reading Binary64.rounded (value m)) s) total
  = fold_left (fun sum m => Binary64.add sum (parseFloat (value m))) s total.
Proof.
  revert total. induction s as [|m s IH]; intro total; [reflexivity|].
  cbn [map fold_left]. rewrite IH, reading_binary64. reflexivity.
Qed.

Lemma average_binary64 (s : list Metric) :
  Spec.average Binary64.rounded s = average s.
Proof.
  unfold Spec.average, Spec.sum, average. rewrite sum_binary64. reflexivity.
Qed.

Lemma contribution_non_empty (s : list Metric) (f : list Metric -> Z) (m : Z) :
  (if non_empty s then m + f s else m) = m + Spec.contribution s f.
Proof. destruct s; simpl; [lia|reflexivity]. Qed.

Lemma contribution_present (s : list Metric) (f : list Metric -> Z) :
  non_empty s = true -> Spec.contribution s f = f s.
Proof. destruct s; [discriminate|reflexivity]. Qed.

Lemma contribution_absent (s : list Metric) (f : list Metric -> Z) :
  non_empty s = false -> Spec.contribution s f = 0.
Proof. destruct s; [reflexivity|discriminate]. Qed.

Lemma contribution_ext (s : list Metric) (f g : list Metric -> Z) :
  (forall l, f l = g l) -> Spec.contribution s f = Spec.contribution s g.
Proof. intro H. destruct s; [reflexivity|apply H]. Qed.

Lemma heart_rate_step (avg : number) (m : Z) :
  (if lt avg (Fin 60) || gt avg (Fin 100) then m - 5
   else if ge avg (Fin 60) && le avg (Fin 80) then m + 5 else m)
  = m + Spec.heart_rate_modifier avg.
Proof.
  unfold Spec.heart_rate_modifier.
  destruct (lt avg (Fin 60) || gt avg (Fin 100)); [lia|].
  destruct (ge avg (Fin 60) && le avg (Fin 80)); lia.
Qed.

Lemma blood_pressure_step (fraction : number) (m : Z) :
  (if gt fraction (Binary64.literal (8 # 10)) then m + 10
   else if lt fraction (Binary64.literal (4 # 10)) then m - 10 else m)
  = m + Spec.blood_pressure_modifier Binary64.rounded fraction.
Proof.
  unfold Spec.blood_pressure_modifier, Binary64.literal.
  cbn [Binary64.rounded].
  destruct (gt fraction (Binary64.round (8 # 10))); [lia|].
  destruct (lt fraction (Binary64.round (4 # 10))); lia.
Qed.

Lemma sleep_step (avg : number) (m : Z) :
  (if ge avg (Fin 7) && le avg (Fin 9) then m + 8
   else if lt avg (Fin 6) then m - 8
   else if lt avg (Fin 7) then m - 4 else m)
  = m + Spec.sleep_modifier avg.
Proof.
  unfold Spec.sleep_modifier.
  destruct (ge avg (Fin 7) && le avg (Fin 9)); [lia|].
  destruct avg as [| | |q]; simpl; try lia.
  destruct (Qltb q 6); simpl; [lia|].
  destruct (Qltb q 7); lia.
Qed.

Lemma steps_step (avg : number) (m : Z) :
  (if ge avg (Fin 10000) then m + 10
   else if ge avg (Fin 7500) then m + 5
   else if lt avg (Fin 5000) then m - 5 else m)
  = m + Spec.steps_modifier avg.
Proof.
  unfold Spec.steps_modifier.
  destruct avg as [| | |q]; simpl; try lia.
  destruct (Qltb q 10000); simpl; [|lia].
  destruct (Qltb q 7500); simpl; [|lia].
  destruct (Qltb q 5000); lia.
Qed.

Lemma clamp_score (z : Z) :
  Math_round (Math_max (Fin 0) (Math_min (Fin 100) (num_of_Z z)))
  = num_of_Z (Spec.clamp z 0 100).
Proof.
  unfold Spec.clamp.
  change (Fin 100) with (num_of_Z 100). change (Fin 0) with (num_of_Z 0).
  unfold Math_min. cbn [num_of_Z]. fold (num_of_Z 100). fold (num_of_Z z).
  rewrite lt_num_of_Z.
  destruct (Z.ltb_spec 100 z).
  - cbn. f_equal.
    rewrite Z.min_l by lia. reflexivity.
  - rewrite Z.min_r by lia.
    unfold Math_max. cbn [num_of_Z]. fold (num_of_Z 0). fold (num_of_Z z).
    rewrite lt_num_of_Z.
    destruct (Z.ltb_spec 0 z).
    + rewrite Z.max_r by lia. apply Math_round_num_of_Z.
    + rewrite Z.max_l by lia. reflexivity.
Qed.

Lemma optimal_readings (metrics : list Metric) :
  forallb Spec.readable metrics = true ->
  filter_c (fun m =>
              JS.bind (get (value m) systolic) (fun s =>
              if lt (ToNumber s) (Fin 120)
              then JS.bind (get (value m) diastolic) (fun d =>
                   Normal (lt (ToNumber d) (Fin 80)))
              else Normal false))
    (of_type "blood_pressure" metrics)
  = Normal (filter (Spec.optimal Binary64.rounded)
              (of_type "blood_pressure" metrics)).
Proof.
  intro Hall. apply filter_c_pure. intros m Hin.
  destruct (readable_blood_pressure metrics m Hall Hin) as [Hu Hn].
  unfold Spec.optimal.
  destruct (value m) as [| | | | |s d]; try contradiction; try reflexivity.
  cbn [get bind]. rewrite !operand_binary64.
  destruct (lt (ToNumber s) (Fin 120)); reflexivity.
Qed.

(** The modifiers of the specification, read with binary64 results, in
    terms of the code's [average]. *)
Lemma modifiers_binary64 (metrics : list Metric) :
  Spec.modifiers Binary64.rounded metrics
  = Spec.contribution (of_type "heart_rate" metrics)
      (fun s => Spec.heart_rate_modifier (average s))
    + Spec.contribution (of_type "blood_pressure" metrics)
        (fun s => Spec.blood_pressure_modifier Binary64.rounded
                    (Spec.optimal_fraction Binary64.rounded s))
    + Spec.contribution (of_type "sleep" metrics)
        (fun s => Spec.sleep_modifier (average s))
    + Spec.contribution (of_type "steps" metrics)
        (fun s => Spec.steps_modifier (average s)).
Proof.
  unfold Spec.modifiers.
  rewrite (contribution_ext (of_type "heart_rate" metrics) _
             (fun s => Spec.heart_rate_modifier (average s)))
    by (intro l; rewrite average_binary64; reflexivity).
  rewrite (contribution_ext (of_type "sleep" metrics) _
             (fun s => Spec.sleep_modifier (average s)))
    by (intro l; rewrite average_binary64; reflexivity).
  rewrite (contribution_ext (of_type "steps" metrics) _
             (fun s => Spec.steps_modifier (average s)))
    by (intro l; rewrite average_binary64; reflexivity).
  reflexivity.
Qed.

Lemma calculateHealthScore_spec (metrics : list Metric) :
  forallb Spec.readable metrics = true ->
  calculateHealthScore metrics
  = Normal (num_of_Z (Spec.health_score Binary64.rounded metrics)).
Proof.
  intro Hall. unfold calculateHealthScore.
  rewrite heart_rate_step.
  rewrite (contribution_non_empty (of_type "heart_rate" metrics)
             (fun s => Spec.heart_rate_modifier (average s))).
  unfold Spec.health_score. rewrite modifiers_binary64.
  destruct (non_empty (of_type "blood_pressure" metrics)) eqn:Ebp.
  - rewrite (optimal_readings metrics Hall). cbn [bind].
    rewrite blood_pressure_step, sleep_step, steps_step.
    rewrite (contribution_non_empty (of_type "sleep" metrics)
               (fun s => Spec.sleep_modifier (average s))).
    rewrite (contribution_non_empty (of_type "steps" metrics)
               (fun s => Spec.steps_modifier (average s))).
    rewrite clamp_score. do 3 f_equal.
    rewrite (contribution_present _ _ Ebp).
    unfold Spec.optimal_fraction, Binary64.div. lia.
  - cbn [bind].
    rewrite sleep_step, steps_step.
    rewrite (contribution_non_empty (of_type "sleep" metrics)
               (fun s => Spec.sleep_modifier (average s))).
    rewrite (contribution_non_empty (of_type "steps" metrics)
               (fun s => Spec.steps_modifier (average s))).
    rewrite clamp_score. do 3 f_equal.
    rewrite (contribution_absent _ _ Ebp). lia.
Qed.
End ScoreFacts.

Section AverageFacts.
Import JS AiService.
Local Open Scope string_scope.
Local Open Scope Z_scope.

Lemma Qeqb_eq (a b : Q) : Qeqb a b = true -> (a == b)%Q.
Proof.
  unfold Qeqb. intro H. apply Qeq_alt.
  destruct (a ?= b)%Q; try discriminate; reflexivity.
Qed.

Lemma strict_eq_lt_l (x y : number) (c : Q) :
  strict_eq x (Fin c) = true -> lt x y = lt (Fin c) y.
Proof.
  destruct x as [| | |q]; try discriminate. intro H. apply Qeqb_eq in H.
  destruct y as [| | |b]; try reflexivity.
  simpl. unfold Qltb. rewrite H. reflexivity.
Qed.

Lemma strict_eq_lt_r (x y : number) (c : Q) :
  strict_eq x (Fin c) = true -> lt y x = lt y (Fin c).
Proof.
  destruct x as [| | |q]; try discriminate. intro H. apply Qeqb_eq in H.
  destruct y as [| | |b]; try reflexivity.
  simpl. unfold Qltb. rewrite H. reflexivity.
Qed.

Lemma strict_eq_le_l (x y : number) (c : Q) :
  strict_eq x (Fin c) = true -> le x y = le (Fin c) y.
Proof.
  intro H. pose proof (strict_eq_lt_r x y c H) as E.
  destruct x as [| | |q]; try discriminate.
  destruct y; simpl in *; try reflexivity. rewrite E. reflexivity.
Qed.

Lemma strict_eq_le_r (x y : number) (c : Q) :
  strict_eq x (Fin c) = true -> le y x = le y (Fin c).
Proof.
  intro H. pose proof (strict_eq_lt_l x y c H) as E.
  destruct x as [| | |q]; try discriminate.
  destruct y; simpl in *; try reflexivity. rewrite E. reflexivity.
Qed.

Lemma average_defined (s : list Metric) (c : Q) :
  strict_eq (Spec.average Binary64.rounded s) (Fin c) = true ->
  non_empty s = true.
Proof.
  destruct s; [|reflexivity].
  intro H. exfalso. vm_compute in H. discriminate.
Qed.

Lemma none_of_type_readable (metrics : list Metric) :
  of_type "blood_pressure" metrics = [] ->
  forallb Spec.readable metrics = true.
Proof.
  unfold of_type. induction metrics as [|m l IH]; simpl; [reflexivity|].
  unfold Spec.readable at 1.
  destruct (String.eqb (type m) "blood_pressure"); [discriminate|].
  intro H. rewrite (IH H). reflexivity.
Qed.

Lemma health_score_example (metrics : list Metric) :
  of_type "blood_pressure" metrics = [] ->
  strict_eq (Spec.average Binary64.rounded (of_type "heart_rate" metrics))
    (Fin 70) = true ->
  strict_eq (Spec.average Binary64.rounded (of_type "sleep" metrics))
    (Fin 8) = true ->
  strict_eq (Spec.average Binary64.rounded (of_type "steps" metrics))
    (Fin 11000) = true ->
  calculateHealthScore metrics = Normal (Fin 93).
Proof.
  intros Hbp Hhr Hsl Hst.
  rewrite (calculateHealthScore_spec metrics (none_of_type_readable metrics Hbp)).
  unfold Spec.health_score, Spec.modifiers.
  rewrite Hbp.
  rewrite (contribution_present _ _ (average_defined _ _ Hhr)),
    (contribution_present _ _ (average_defined _ _ Hsl)),
    (contribution_present _ _ (average_defined _ _ Hst)).
  cbn [Spec.contribution]. cbv beta.
  unfold Spec.heart_rate_modifier, Spec.sleep_modifier, Spec.steps_modifier,
    gt, ge.
  rewrite (strict_eq_lt_l _ _ _ Hhr), (strict_eq_lt_r _ _ _ Hhr),
    (strict_eq_le_l _ _ _ Hhr), (strict_eq_le_r _ _ _ Hhr).
  rewrite (strict_eq_le_l _ _ _ Hsl), (strict_eq_le_r _ _ _ Hsl).
  rewrite (strict_eq_le_r _ _ _ Hst).
  reflexivity.
Qed.
End AverageFacts.

Section CountFacts.
Import JS.
Local Open Scope Q_scope.

Lemma below_2_53 (z : Z) :
  (Z.abs z < 2 ^ 34)%Z -> (Z.abs z < 2 ^ 53)%Z.
Proof.
  change (2 ^ 53)%Z with 9007199254740992%Z.
  change (2 ^ 34)%Z with 17179869184%Z. lia.
Qed.

Lemma div_binary64 (a b : Q) :
  ~ b == 0 -> Binary64.div (Fin a) (Fin b) = Binary64.round (a / b).
Proof.
  intro Hb. unfold Binary64.div, div. rewrite (Qeqb_false _ _ Hb).
  cbn [Binary64.rounded]. apply round_Qred.
Qed.

Lemma lt_of_le_Fin (x : number) (a b : Q) :
  le x (Fin a) = true -> a < b -> lt x (Fin b) = true.
Proof.
  destruct x as [| | |q]; try discriminate; [reflexivity|].
  rewrite le_Fin. intros H1 H2. apply Qltb_lt. lra.
Qed.

Lemma lt_of_Fin_le (x : number) (a b : Q) :
  le (Fin a) x = true -> b <= a -> lt x (Fin b) = false.
Proof.
  destruct x as [| | |q]; try discriminate; [reflexivity|].
  rewrite le_Fin. intros H1 H2. apply Qltb_ge. lra.
Qed.

(** A count against a third of a length: the rounding of the quotient does
    not change the comparison. *)
Lemma gt_third (k : Z) (n : nat) :
  (0 <= k <= Z.of_nat n)%Z -> (Z.of_nat n < 2 ^ 32)%Z ->
  gt (num_of_Z k) (Binary64.div (num_of_nat n) (Fin 3))
  = (Z.of_nat n <? 3 * k)%Z.
Proof.
  intros Hk Hn. unfold gt, num_of_nat, num_of_Z.
  rewrite div_binary64 by discriminate.
  set (N := Z.of_nat n) in *.
  rewrite (round_comp (inject_Z N / 3) (inject_Z N * (1 # 3)))
    by (unfold Qdiv; reflexivity).
  destruct (Z.ltb_spec N (3 * k)) as [H|H].
  - assert (Hq : inject_Z N + 1 <= 3 * inject_Z k).
    { change 1 with (inject_Z 1). change 3 with (inject_Z 3).
      rewrite <- inject_Z_plus, <- inject_Z_mult, <- Zle_Qle. lia. }
    assert (Ec : inject_Z (4 * k - 1) * 2 ^ (-2) == inject_Z k - (1 # 4)).
    { unfold Z.sub. rewrite inject_Z_plus, inject_Z_mult.
      change (2 ^ (-2)) with (1 # 4). change (inject_Z 4) with 4.
      change (inject_Z (- (1))) with (- (1)). ring. }
    apply lt_of_le_Fin with (a := Qred (inject_Z (4 * k - 1) * 2 ^ (-2))).
    + rewrite <- (round_exact _ (4 * k - 1) (-2));
        [|apply below_2_53; change (2 ^ 34)%Z with 17179869184%Z;
           change (2 ^ 32)%Z with 4294967296%Z in Hn; lia
         |lia|reflexivity].
      apply round_mono. rewrite Ec. lra.
    + rewrite Qred_correct, Ec. lra.
  - assert (Hq : 3 * inject_Z k <= inject_Z N).
    { change 3 with (inject_Z 3). rewrite <- inject_Z_mult, <- Zle_Qle. lia. }
    apply lt_of_Fin_le with (a := inject_Z k); [|apply Qle_refl].
    rewrite <- (round_Z k)
      by (apply below_2_53; change (2 ^ 34)%Z with 17179869184%Z;
          change (2 ^ 32)%Z with 4294967296%Z in Hn; lia).
    apply round_mono. lra.
Qed.

(** Half of a length is exact. *)
Lemma gt_half (k n : nat) :
  (Z.of_nat n < 2 ^ 32)%Z ->
  gt (num_of_nat k) (Binary64.div (num_of_nat n) (Fin 2)) = (n <? 2 * k)%nat.
Proof.
  intro Hn. unfold gt, num_of_nat, num_of_Z.
  rewrite div_binary64 by discriminate.
  rewrite (round_exact _ (Z.of_nat n) (-1));
    [|apply below_2_53; change (2 ^ 34)%Z with 17179869184%Z;
      change (2 ^ 32)%Z with 4294967296%Z in Hn; lia
     |lia|reflexivity].
  cbn [lt].
  assert (E : Qred (inject_Z (Z.of_nat n) / 2) == inject_Z (Z.of_nat n) * (1 # 2))
    by (rewrite Qred_correct; reflexivity).
  destruct (Nat.ltb_spec n (2 * k)) as [H|H].
  - apply Qltb_lt. rewrite E.
    assert (inject_Z (Z.of_nat n) + 1 <= 2 * inject_Z (Z.of_nat k)).
    { change 1 with (inject_Z 1). change 2 with (inject_Z 2).
      rewrite <- inject_Z_plus, <- inject_Z_mult, <- Zle_Qle. lia. }
    lra.
  - apply Qltb_ge. rewrite E.
    assert (2 * inject_Z (Z.of_nat k) <= inject_Z (Z.of_nat n)).
    { change 2 with (inject_Z 2). rewrite <- inject_Z_mult, <- Zle_Qle. lia. }
    lra.
Qed.
End CountFacts.

Section ConcernFacts.
Import JS AiService.
Local Open Scope string_scope.
Local Open Scope Z_scope.

Lemma inconsistent_loop_counts (rest : list Metric) :
  forall (prev : Metric) (k : Z),
    inconsistent_loop prev rest k
    = k + Z.of_nat (Spec.differing_pairs Binary64.rounded (prev :: rest)).
Proof.
  unfold Spec.differing_pairs.
  induction rest as [|m r IH]; intros prev k.
  - simpl. lia.
  - change (Spec.successive (prev :: m :: r))
      with ((prev, m) :: Spec.successive (m :: r)).
    cbn [inconsistent_loop filter]. rewrite IH.
    assert (Hd : Spec.differ Binary64.rounded (prev, m)
                 = gt (Math_abs (Binary64.sub (ToNumber (value m))
                                   (ToNumber (value prev))))
                     (Fin (3 # 2)))
      by (unfold Spec.differ; rewrite !operand_binary64; reflexivity).
    rewrite Hd.
    destruct (gt (Math_abs (Binary64.sub (ToNumber (value m))
                              (ToNumber (value prev))))
                (Fin (3 # 2))); cbn [List.length]; lia.
Qed.

Lemma successive_shorter {A} (l : list A) :
  (List.length (Spec.successive l) <= List.length l)%nat.
Proof.
  unfold Spec.successive. rewrite length_combine.
  apply Nat.le_min_l.
Qed.

Lemma differing_pairs_bound (result : number -> number) (l : list Metric) :
  (Spec.differing_pairs result l <= List.length l)%nat.
Proof.
  unfold Spec.differing_pairs.
  apply Nat.le_trans with (List.length (Spec.successive l));
    [apply filter_length_le|apply successive_shorter].
Qed.

Lemma of_type_shorter (name : string) (metrics : list Metric) :
  (List.length (of_type name metrics) <= List.length metrics)%nat.
Proof. apply filter_length_le. Qed.

Lemma high_readings (metrics : list Metric) :
  forallb Spec.readable metrics = true ->
  exists high,
    filter_c (fun m =>
                JS.bind (get (value m) systolic) (fun s =>
                if gt (ToNumber s) (Fin 130) then Normal true
                else JS.bind (get (value m) diastolic) (fun d =>
                     Normal (gt (ToNumber d) (Fin 80)))))
      (of_type "blood_pressure" metrics)
    = Normal high.
Proof.
  intro Hall.
  exists (filter (fun m =>
                    match value m with
                    | JObj s d =>
                        gt (ToNumber s) (Fin 130) || gt (ToNumber d) (Fin 80)
                    | _ => false
                    end) (of_type "blood_pressure" metrics)).
  apply filter_c_pure. intros m Hin.
  destruct (readable_blood_pressure metrics m Hall Hin) as [Hu Hn].
  destruct (value m) as [| | | | |s d]; try contradiction; try reflexivity.
  cbn [get bind]. destruct (gt (ToNumber s) (Fin 130)); reflexivity.
Qed.

(** On readable metrics [identifyConcerns] returns, and the sleep concern is
    among the concerns exactly when the code's own test holds. *)
Lemma identifyConcerns_returns (metrics : list Metric) :
  forallb Spec.readable metrics = true ->
  exists concerns,
    identifyConcerns metrics = Normal concerns
    /\ (In sleep_concern concerns
        <-> ((3 < List.length (of_type "sleep" metrics))%nat
             /\ gt (num_of_Z
                      (Z.of_nat
                         (Spec.differing_pairs Binary64.rounded
                            (of_type "sleep" metrics))))
                   (Binary64.div
                      (num_of_nat (List.length (of_type "sleep" metrics)))
                      (Fin 3)) = true)).
Proof.
  intro Hall. unfold identifyConcerns.
  destruct (high_readings metrics Hall) as [high Eh].
  set (sl := of_type "sleep" metrics).
  set (st := of_type "steps" metrics).
  assert (Hk : match sl with
               | first :: rest => inconsistent_loop first rest 0
               | [] => 0
               end = Z.of_nat (Spec.differing_pairs Binary64.rounded sl)).
  { destruct sl; [reflexivity|]. rewrite inconsistent_loop_counts. lia. }
  rewrite Hk.
  assert (Hbp : exists c1,
             (if non_empty (of_type "blood_pressure" metrics)
              then JS.bind
                     (filter_c (fun m =>
                        JS.bind (get (value m) systolic) (fun s =>
                        if gt (ToNumber s) (Fin 130) then Normal true
                        else JS.bind (get (value m) diastolic) (fun d =>
                             Normal (gt (ToNumber d) (Fin 80)))))
                        (of_type "blood_pressure" metrics))
                     (fun highReadings =>
                        Normal
                          (if gt (num_of_nat (List.length highReadings))
                                (Binary64.div
                                   (num_of_nat
                                      (List.length
                                         (of_type "blood_pressure" metrics)))
                                   (Fin 2))
                           then ([] ++ [bp_concern])%list else []))
              else Normal []) = Normal c1
             /\ ~ In sleep_concern c1).
  { destruct (non_empty (of_type "blood_pressure" metrics)).
    - rewrite Eh. cbn [bind].
      match goal with |- context [if ?c then _ else _] => destruct c end;
        eexists; (split; [reflexivity|]).
      + simpl. intros [H|[]]. discriminate.
      + intros [].
    - exists []. split; [reflexivity|intros []]. }
  destruct Hbp as [c1 [E1 Hn1]]. rewrite E1. cbn [bind].
  eexists. split; [reflexivity|].
  assert (Hsteps : forall c : list string,
             In sleep_concern
               (if non_empty st
                then if gt (num_of_nat
                              (List.length
                                 (filter (fun m => lt (ToNumber (value m)) (Fin 5000)) st)))
                           (Binary64.div (num_of_nat (List.length st)) (Fin 2))
                     then (c ++ [steps_concern])%list else c
                else c)
             <-> In sleep_concern c).
  { intro c. destruct (non_empty st); [|reflexivity].
    match goal with |- context [if ?c then _ else _] => destruct c end;
      [|reflexivity].
    rewrite in_app_iff. simpl. split; [|tauto].
    intros [H|[H|[]]]; [exact H|discriminate]. }
  rewrite Hsteps.
  destruct (Nat.ltb_spec 3 (List.length sl)) as [H3|H3].
  - destruct (gt (num_of_Z (Z.of_nat (Spec.differing_pairs Binary64.rounded sl)))
                (Binary64.div (num_of_nat (List.length sl)) (Fin 3))).
    + rewrite in_app_iff. simpl. split; [intros _; split; [lia|reflexivity]|tauto].
    + split; [contradiction|]. intros [_ H]. discriminate.
  - split; [contradiction|]. intros [H _]. lia.
Qed.

Lemma identifyConcerns_sleep (metrics : list Metric) :
  forallb Spec.readable metrics = true ->
  Z.of_nat (List.length metrics) < 2 ^ 32 ->
  exists concerns,
    identifyConcerns metrics = Normal concerns
    /\ (In sleep_concern concerns
        <-> (3 < List.length (of_type "sleep" metrics)
             /\ List.length (of_type "sleep" metrics)
                < 3 * Spec.differing_pairs Binary64.rounded
                        (of_type "sleep" metrics))%nat).
Proof.
  intros Hall Hlen.
  destruct (identifyConcerns_returns metrics Hall) as [cs [E H]].
  exists cs. split; [exact E|]. rewrite H.
  pose proof (of_type_shorter "sleep" metrics) as Hs.
  pose proof (differing_pairs_bound Binary64.rounded (of_type "sleep" metrics))
    as Hd.
  rewrite gt_third by lia. rewrite Z.ltb_lt. lia.
Qed.

(** Nights of 1.6 and 0.1 hours differ by 1.5 as computed, which is not
    more than 1.5; nights of 6.8 and 8.3 hours by 1.5000000000000009. *)
Example sleep_concern_of_computed_differences :
  let nights :=
    map (fun q => {| type := "sleep"; value := JNum (Fin q);
                     timestamp := 0 |}) in
  identifyConcerns (nights [16 # 10; 1 # 10; 16 # 10; 1 # 10]%Q) = Normal []
  /\ identifyConcerns (nights [68 # 10; 83 # 10; 68 # 10; 83 # 10]%Q)
     = Normal [sleep_concern].
Proof. vm_compute. split; reflexivity. Qed.
End ConcernFacts.

(** ** The claims of the specification *)

Section GoalClaims.
Import JS HealthGoal GoalController.
Local Open Scope string_scope.
Local Open Scope Z_scope.

(** C1 (failing input).  A goal half way to 10000 steps has its target raised
    to 20000 through [updateGoal]: the update is accepted, the stored
    progress stays 50, and [calculateProgress] on the stored goal gives 25.
    The cache is in step before the update and out of step after it. *)
Theorem updateGoal_leaves_progress_stale :
  snd (calculateProgress Examples.walking)
  = Normal (progress Examples.walking)
  /\ exists g',
       updateGoal "u1" (Some Examples.walking) Examples.raise_target
       = Success g'
       /\ progress g' = Fin 50
       /\ snd (calculateProgress g') = Normal (Fin 25).
Proof.
  split; [reflexivity|].
  eexists. split; [reflexivity|]. split; reflexivity.
Qed.

(** C2 (as stated, refuted).  With no check-in, a goal whose target is 0
    gets its cached progress, here 50, and a completed goal gets 100. *)
Lemma progress_of_empty_checkIns_not_always_zero :
  checkIns Examples.zero_target = []
  /\ snd (calculateProgress Examples.zero_target) = Normal (Fin 50)
  /\ checkIns Examples.completed_empty = []
  /\ snd (calculateProgress Examples.completed_empty) = Normal (Fin 100)
  /\ ~ (forall g, checkIns g = [] ->
                  snd (calculateProgress g) = Normal (Fin 0)).
Proof.
  repeat split.
  intro H. specialize (H Examples.zero_target eq_refl). discriminate.
Qed.

(** C2 (amended).  For every goal with a truthy target that is not
    completed, [calculateProgress] on an empty check-in list returns 0 and
    leaves the goal as it is. *)
Theorem calculateProgress_empty_checkIns (g : Goal) :
  truthy (target (metrics g)) = true ->
  status g <> Status.completed ->
  checkIns g = [] ->
  calculateProgress g = (g, Normal (Fin 0)).
Proof. apply calculateProgress_empty. Qed.

Lemma calculateProgress_empty_checkIns_witness :
  calculateProgress Examples.fresh = (Examples.fresh, Normal (Fin 0)).
Proof.
  apply (calculateProgress_empty_checkIns Examples.fresh);
    [reflexivity | discriminate | reflexivity].
Defined.

(** C3.  [updateStreak] returns 0 on an empty list and when the max-date
    check-in is not completed; otherwise, for the daily, weekly and monthly
    cadences with their gaps of 1, 7 and 30 days, it returns 1 plus the
    length of the run of successive check-ins, latest first, that are
    completed and exactly the expected gap after the one before; five
    completed check-ins on consecutive days, in any order, give 5. *)
Theorem updateStreak_counts_on_schedule_run :
  (forall g, checkIns g = [] -> snd (updateStreak g) = Normal 0)
  /\ (forall g l,
         Spec.latest (checkIns g) = Some l -> completed l = false ->
         snd (updateStreak g) = Normal 0)
  /\ (forall g gap,
         Spec.expected_gap (frequency g) = Some gap ->
         snd (updateStreak g) = Normal (Spec.streak gap (checkIns g)))
  /\ (forall g D v0 v1 v2 v3 v4,
         frequency g = Frequency.daily ->
         Permutation (checkIns g) (Spec.five_days D v0 v1 v2 v3 v4) ->
         snd (updateStreak g) = Normal 5).
Proof.
  repeat split.
  - intros g H. rewrite updateStreak_spec. unfold Spec.streak.
    rewrite H. reflexivity.
  - intros g l Hl Hc. rewrite updateStreak_spec. unfold Spec.streak.
    rewrite Hl, Hc. reflexivity.
  - intros g gap H. rewrite updateStreak_spec.
    rewrite (expected_gap_used _ _ H). reflexivity.
  - intros g D v0 v1 v2 v3 v4 Hf Hp. rewrite updateStreak_spec, Hf.
    f_equal. exact (five_days_streak D v0 v1 v2 v3 v4 _ Hp).
Qed.

Lemma updateStreak_counts_on_schedule_run_witness :
  snd (updateStreak Examples.fresh) = Normal 0
  /\ snd (updateStreak (Examples.two_days Frequency.weekly))
     = Normal (Spec.streak 7 (checkIns (Examples.two_days Frequency.weekly)))
  /\ snd (updateStreak Examples.five_in_a_row) = Normal 5.
Proof.
  destruct updateStreak_counts_on_schedule_run as [H0 [_ [Hrun Hfive]]].
  split; [apply (H0 Examples.fresh); reflexivity|].
  split; [apply (Hrun (Examples.two_days Frequency.weekly) 7); reflexivity|].
  apply (Hfive Examples.five_in_a_row (4 * ms_per_day)
           (Examples.num 1000) (Examples.num 2000) (Examples.num 3000)
           (Examples.num 4000) (Examples.num 5000));
    [reflexivity|].
  apply Permutation_sym, Permutation_rev.
Defined.

(** C5 (failing input).  With a target of 10 and a latest value of -5 both
    inputs are numbers and [calculateProgress] returns -50, below 0; the
    schema's own [min: 0] validator then rejects the check-in that
    produced it. *)
Theorem calculateProgress_negative_value :
  snd (calculateProgress Examples.below_zero) = Normal (Fin (-50))
  /\ lt (Fin (-50)) (Fin 0) = true
  /\ addCheckIn 0 "u1" (Some Examples.no_checkIn_yet) Examples.minus_five
     = Rejected.
Proof. repeat split. Qed.

(** C6 (as stated, refuted).  With the custom cadence, two completed
    check-ins a day apart give a streak of 2. *)
Lemma custom_streak_exceeds_one :
  frequency (Examples.two_days Frequency.custom) = Frequency.custom
  /\ List.length (checkIns (Examples.two_days Frequency.custom)) = 2%nat
  /\ snd (updateStreak (Examples.two_days Frequency.custom)) = Normal 2
  /\ ~ (forall g,
           frequency g = Frequency.custom ->
           (2 <= List.length (checkIns g))%nat ->
           exists s, snd (updateStreak g) = Normal s /\ s <= 1).
Proof.
  repeat split.
  intro H.
  destruct (H (Examples.two_days Frequency.custom) eq_refl (le_n 2))
    as [s [E Hs]].
  vm_compute in E. injection E as <-. lia.
Qed.

(** C6 (amended).  With the custom cadence [updateStreak] expects a gap of
    one day: it returns what it returns for the daily cadence, 1 plus the
    length of the run of completed check-ins one day apart. *)
Theorem custom_cadence_streak_as_daily (g : Goal) :
  snd (updateStreak (set_frequency g Frequency.custom))
  = snd (updateStreak (set_frequency g Frequency.daily))
  /\ snd (updateStreak (set_frequency g Frequency.custom))
     = Normal (Spec.streak 1 (checkIns g)).
Proof. rewrite !updateStreak_spec. split; reflexivity. Qed.

(** C7 (as stated, refuted).  A completed goal whose latest value does not
    parse gets 100, not its cached 40; a goal without check-ins whose
    target does not parse gets 0, not its cached 40. *)
Lemma unparsable_value_not_always_cached :
  snd (calculateProgress Examples.completed_unparsable) = Normal (Fin 100)
  /\ progress Examples.completed_unparsable = Fin 40
  /\ snd (calculateProgress Examples.unparsable_target_empty) = Normal (Fin 0)
  /\ progress Examples.unparsable_target_empty = Fin 40
  /\ ~ (forall g l,
           is_object (target (metrics g)) = false ->
           Spec.latest (checkIns g) = Some l ->
           isNaN (parseFloat (value l))
           || isNaN (parseFloat (target (metrics g))) = true ->
           snd (calculateProgress g) = Normal (progress g)).
Proof.
  repeat split.
  intro H.
  specialize (H Examples.completed_unparsable
                (Examples.checkIn 0 true (JStr "abc"))
                eq_refl eq_refl eq_refl).
  discriminate.
Qed.

(** C7 (amended).  For every goal that is not completed, has a latest
    check-in and a target that is not an object: if the latest value or the
    target fails to parse as a number, [calculateProgress] returns the
    cached progress, and raises no error. *)
Theorem calculateProgress_unparsable_returns_cached (g : Goal) (l : CheckIn) :
  status g <> Status.completed ->
  Spec.latest (checkIns g) = Some l ->
  is_object (target (metrics g)) = false ->
  isNaN (parseFloat (value l)) || isNaN (parseFloat (target (metrics g)))
  = true ->
  snd (calculateProgress g) = Normal (progress g).
Proof. apply calculateProgress_plain_NaN. Qed.

Lemma calculateProgress_unparsable_returns_cached_witness :
  snd (calculateProgress Examples.active_unparsable) = Normal (Fin 40).
Proof.
  apply (calculateProgress_unparsable_returns_cached
           Examples.active_unparsable
           (Examples.checkIn ms_per_day true (JStr "abc")));
    [discriminate | reflexivity | reflexivity | reflexivity].
Defined.

(** C9 (as stated, refuted).  Called on a goal whose check-ins are stored
    oldest first, either method leaves them latest first. *)
Lemma calculateProgress_reorders_checkIns :
  checkIns (fst (calculateProgress (Examples.two_days Frequency.daily)))
  = rev (checkIns (Examples.two_days Frequency.daily))
  /\ fst (calculateProgress (Examples.two_days Frequency.daily))
     <> Examples.two_days Frequency.daily
  /\ fst (updateStreak (Examples.two_days Frequency.daily))
     <> Examples.two_days Frequency.daily.
Proof.
  split; [reflexivity|]. split; intro H; discriminate H.
Qed.

(** C9 (amended).  [calculateProgress] and [updateStreak] change no field
    of the goal but [checkIns], and that one only in its order: it is left
    as it was or sorted latest first, with the same check-ins, and as it
    was whenever it already was in that order. *)
Theorem progress_and_streak_only_reorder_checkIns (g : Goal) :
  (fst (calculateProgress g) = g
   \/ fst (calculateProgress g)
      = set_checkIns g (Spec.latest_first (checkIns g)))
  /\ fst (updateStreak g) = set_checkIns g (Spec.latest_first (checkIns g))
  /\ Permutation (Spec.latest_first (checkIns g)) (checkIns g)
  /\ Sorted Spec.descending (Spec.latest_first (checkIns g))
  /\ (Sorted Spec.descending (checkIns g) ->
      fst (calculateProgress g) = g /\ fst (updateStreak g) = g).
Proof.
  split; [apply calculateProgress_goal|].
  split; [apply updateStreak_goal|].
  split; [apply sort_perm|].
  split; [apply sort_sorted|].
  intro Hs. split.
  - destruct (calculateProgress_goal g) as [H|H]; [exact H|].
    rewrite H, (sort_of_sorted _ Hs). apply set_checkIns_same.
  - rewrite updateStreak_goal, (sort_of_sorted _ Hs).
    apply set_checkIns_same.
Qed.

Lemma progress_and_streak_only_reorder_checkIns_witness :
  fst (calculateProgress Examples.walking) = Examples.walking
  /\ fst (updateStreak Examples.walking) = Examples.walking.
Proof.
  apply (progress_and_streak_only_reorder_checkIns Examples.walking).
  repeat constructor.
Defined.

(** C10 (as stated, refuted).  A completed goal without a target gets its
    cached progress, here 40. *)
Lemma completed_goal_without_target_not_100 :
  status Examples.completed_no_target = Status.completed
  /\ snd (calculateProgress Examples.completed_no_target) = Normal (Fin 40)
  /\ ~ (forall g, status g = Status.completed ->
                  snd (calculateProgress g) = Normal (Fin 100)).
Proof.
  repeat split.
  intro H. specialize (H Examples.completed_no_target eq_refl). discriminate.
Qed.

(** C10 (amended).  For every completed goal whose target is truthy,
    [calculateProgress] returns 100 whatever the check-ins, an empty list
    included, and leaves the goal as it is. *)
Theorem completed_goal_with_target_is_100 (g : Goal) :
  status g = Status.completed ->
  truthy (target (metrics g)) = true ->
  calculateProgress g = (g, Normal (Fin 100)).
Proof. intros Hs Ht. apply calculateProgress_completed; assumption. Qed.

Lemma completed_goal_with_target_is_100_witness :
  calculateProgress Examples.completed_empty
  = (Examples.completed_empty, Normal (Fin 100)).
Proof.
  apply (completed_goal_with_target_is_100 Examples.completed_empty);
    reflexivity.
Defined.

End GoalClaims.

Section ScoringClaims.
Import JS AiService.
Local Open Scope string_scope.
Local Open Scope Z_scope.

(** C4 (as stated, refuted).  Three nights of 9.2, 7.1 and 4.7 hours: 7
    hours on average, in the band [7, 9] that adds 8, so that the formula
    gives 78.  The code adds the three readings up to 20.999999999999996,
    finds an average below 7 and returns 70 - 4 = 66. *)
Lemma health_score_not_by_exact_average :
  Spec.average Spec.exact Examples.seven_hours = Fin 7
  /\ Spec.health_score Spec.exact Examples.seven_hours = 78
  /\ lt (average Examples.seven_hours) (Fin 7) = true
  /\ calculateHealthScore Examples.seven_hours = Normal (Fin 66)
  /\ ~ (forall metrics,
           forallb Spec.readable metrics = true ->
           calculateHealthScore metrics
           = Normal (num_of_Z (Spec.health_score Spec.exact metrics))).
Proof.
  split; [vm_compute; reflexivity|].
  split; [vm_compute; reflexivity|].
  split; [vm_compute; reflexivity|].
  split; [vm_compute; reflexivity|].
  intro H. specialize (H Examples.seven_hours eq_refl).
  vm_compute in H. discriminate.
Qed.

(** C4 (amended).  On every metrics list whose blood-pressure samples carry
    a value, [calculateHealthScore] returns the integer clamp(70 + sum of
    the modifiers, 0, 100), a category adding its modifier only when it has
    a sample, the averages and the optimal fraction being the binary64
    results of adding the readings up in input order and of dividing; with
    such an average heart rate of 70, average sleep of 8, average steps of
    11000 and no blood-pressure sample the score is 93. *)
Theorem calculateHealthScore_is_clamped_sum_of_binary64_averages :
  (forall metrics,
      forallb Spec.readable metrics = true ->
      calculateHealthScore metrics
      = Normal (num_of_Z (Spec.health_score Binary64.rounded metrics)))
  /\ (forall metrics,
         of_type "blood_pressure" metrics = [] ->
         strict_eq (Spec.average Binary64.rounded
                      (of_type "heart_rate" metrics)) (Fin 70) = true ->
         strict_eq (Spec.average Binary64.rounded
                      (of_type "sleep" metrics)) (Fin 8) = true ->
         strict_eq (Spec.average Binary64.rounded
                      (of_type "steps" metrics)) (Fin 11000) = true ->
         calculateHealthScore metrics = Normal (Fin 93)).
Proof.
  split.
  - apply calculateHealthScore_spec.
  - apply health_score_example.
Qed.

Lemma calculateHealthScore_is_clamped_sum_of_binary64_averages_witness :
  calculateHealthScore Examples.good_week
  = Normal (num_of_Z (Spec.health_score Binary64.rounded Examples.good_week))
  /\ calculateHealthScore Examples.good_week = Normal (Fin 93).
Proof.
  split.
  - apply (proj1 calculateHealthScore_is_clamped_sum_of_binary64_averages
             Examples.good_week).
    reflexivity.
  - apply (proj2 calculateHealthScore_is_clamped_sum_of_binary64_averages
             Examples.good_week);
      vm_compute; reflexivity.
Defined.

(** C8 (as stated, refuted).  Two sleep samples three hours apart: the one
    pair differs, yet no concern is emitted.  Six samples of which two of
    the five pairs differ: more than a third of the pairs, yet no concern
    is emitted.  And four samples of 6.8, 8.3, 6.8 and 8.3 hours: no pair
    differs by more than 1.5 hours, yet the concern is emitted, 8.3 - 6.8
    being 1.5000000000000009 in binary64. *)
Lemma sleep_concern_not_by_pair_fraction :
  identifyConcerns Examples.two_nights = Normal []
  /\ Spec.differing_pairs Spec.exact Examples.two_nights = 1%nat
  /\ Spec.pair_count Examples.two_nights = 1%nat
  /\ identifyConcerns Examples.six_nights = Normal []
  /\ Spec.differing_pairs Spec.exact Examples.six_nights = 2%nat
  /\ Spec.pair_count Examples.six_nights = 5%nat
  /\ identifyConcerns Examples.ninety_minutes = Normal [sleep_concern]
  /\ Spec.differing_pairs Spec.exact Examples.ninety_minutes = 0%nat
  /\ (forall result,
         result = Spec.exact \/ result = Binary64.rounded ->
         ~ (forall metrics concerns,
               identifyConcerns metrics = Normal concerns ->
               (In sleep_concern concerns
                <-> (Spec.pair_count (of_type "sleep" metrics)
                     < 3 * Spec.differing_pairs result
                             (of_type "sleep" metrics))%nat))).
Proof.
  do 8 (split; [vm_compute; reflexivity|]).
  intros result Hr H.
  destruct (H Examples.two_nights [] ltac:(vm_compute; reflexivity))
    as [_ Hemit].
  apply Hemit. destruct Hr as [-> | ->]; vm_compute; lia.
Qed.

(** C8 (amended).  On every metrics list whose blood-pressure samples carry
    a value, [identifyConcerns] emits the sleep-consistency concern exactly
    when there are more than three sleep samples and the consecutive pairs
    of them, in input order, whose binary64 difference is more than 1.5
    hours number more than a third of the sleep samples.  (An array has
    fewer than 2^32 elements.) *)
Theorem identifyConcerns_sleep_consistency (metrics : list Metric) :
  forallb Spec.readable metrics = true ->
  Z.of_nat (List.length metrics) < 2 ^ 32 ->
  exists concerns,
    identifyConcerns metrics = Normal concerns
    /\ (In sleep_concern concerns
        <-> (3 < List.length (of_type "sleep" metrics)
             /\ List.length (of_type "sleep" metrics)
                < 3 * Spec.differing_pairs Binary64.rounded
                        (of_type "sleep" metrics))%nat).
Proof. apply identifyConcerns_sleep. Qed.

Lemma identifyConcerns_sleep_consistency_witness :
  exists concerns,
    identifyConcerns Examples.restless = Normal concerns
    /\ (In sleep_concern concerns
        <-> (3 < List.length (of_type "sleep" Examples.restless)
             /\ List.length (of_type "sleep" Examples.restless)
                < 3 * Spec.differing_pairs Binary64.rounded
                        (of_type "sleep" Examples.restless))%nat).
Proof.
  apply (identifyConcerns_sleep_consistency Examples.restless);
    reflexivity.
Defined.

End ScoringClaims.

(** ** Further properties of the code *)

Section CheckInFacts.
Import JS HealthGoal GoalController.
Local Open Scope string_scope.
Local Open Scope Z_scope.

(** The streak and the progress are those of the sorted check-ins. *)
Lemma streak_of_sorted (gap : Z) (l : list CheckIn) :
  Spec.streak gap (sort by_date_desc l) = Spec.streak gap l.
Proof.
  unfold Spec.streak, Spec.latest_first.
  rewrite <- !sort_hd_latest, !sort_idempotent. reflexivity.
Qed.

Lemma progress_of_sorted (g : Goal) :
  snd (calculateProgress (set_checkIns g (sort by_date_desc (checkIns g))))
  = snd (calculateProgress g).
Proof.
  destruct (calculateProgress_same_inputs g
              (set_checkIns g (sort by_date_desc (checkIns g)))
              eq_refl eq_refl (sort_idempotent (checkIns g))) as [H|[H1 H2]].
  - exact H.
  - rewrite H1, H2. reflexivity.
Qed.

(** What a successful [addCheckIn] stores, field by field. *)
Lemma addCheckIn_stored (now : Z) (u : string) (g g' : Goal)
  (b : CheckInRequest.body) :
  addCheckIn now u (Some g) b = Success g' ->
  exists d p,
    CheckInRequest.date b = Some d
    /\ user g = u
    /\ snd (calculateProgress (push_checkIn g (CheckInRequest.time_value d) b)) = Normal p
    /\ validate g' = true
    /\ g' = {| user := user g; title := title g;
               status := if ge p (Fin 100)
                            && or_default (CheckInRequest.completed b) false
                         then Status.completed else status g;
               progress := p; metrics := metrics g;
               frequency := frequency g;
               streak := Spec.streak (expectedDiff (frequency g))
                           (checkIns (push_checkIn g (CheckInRequest.time_value d) b));
               startDate := startDate g; targetDate := targetDate g;
               completedDate :=
                 if ge p (Fin 100)
                    && or_default (CheckInRequest.completed b) false
                 then Some now else completedDate g;
               checkIns := sort by_date_desc (checkIns (push_checkIn g (CheckInRequest.time_value d) b)) |}.
Proof.
  unfold addCheckIn.
  destruct (CheckInRequest.date b) as [d|]; [|discriminate].
  destruct (negb (CheckInRequest.truthy d)); [discriminate|].
  destruct (String.eqb (user g) u) eqn:Eu; cbn [negb]; [|discriminate].
  apply String.eqb_eq in Eu.
  set (g1 := push_checkIn g (CheckInRequest.time_value d) b).
  pose proof (calculateProgress_goal g1) as Hg2.
  destruct (calculateProgress g1) as [g2 [p|]] eqn:E1; [|discriminate].
  cbn [fst] in Hg2.
  rewrite (surjective_pairing (updateStreak (set_progress g2 p))).
  rewrite updateStreak_goal, updateStreak_spec.
  assert (Hc : sort by_date_desc (checkIns (set_progress g2 p))
               = sort by_date_desc (checkIns g1)).
  { destruct Hg2; subst g2; cbn [checkIns set_checkIns set_progress];
      [reflexivity|apply sort_idempotent]. }
  assert (Hs : Spec.streak (expectedDiff (frequency (set_progress g2 p)))
                 (checkIns (set_progress g2 p))
               = Spec.streak (expectedDiff (frequency g)) (checkIns g1)).
  { destruct Hg2; subst g2; cbn [checkIns frequency set_checkIns set_progress];
      [reflexivity|].
    apply streak_of_sorted. }
  rewrite Hc, Hs.
  set (s := Spec.streak (expectedDiff (frequency g)) (checkIns g1)).
  set (g4 := set_checkIns (set_progress g2 p) (sort by_date_desc (checkIns g1))).
  change (progress (set_streak g4 s)) with p.
  assert (Hu : user g4 = user g /\ title g4 = title g
               /\ status g4 = status g /\ metrics g4 = metrics g
               /\ frequency g4 = frequency g /\ startDate g4 = startDate g
               /\ targetDate g4 = targetDate g
               /\ completedDate g4 = completedDate g).
  { destruct Hg2; subst g2; repeat split; reflexivity. }
  destruct Hu as (H1 & H2 & H3 & H4 & H5 & H6 & H7 & H8).
  unfold save.
  destruct (ge p (Fin 100) && or_default (CheckInRequest.completed b) false)
    eqn:Ec.
  all: match goal with
       | |- (if validate ?x then _ else _) = _ -> _ =>
           destruct (validate x) eqn:V; [|discriminate]
       end.
  all: intro H; injection H as <-.
  all: exists d, p; split; [reflexivity|]; split; [exact Eu|].
  all: split; [fold g1; rewrite E1; reflexivity|]; split; [exact V|].
  all: fold g1; fold s; rewrite Ec.
  all: unfold set_completed, set_streak; cbn [user title status progress metrics
         frequency streak startDate targetDate completedDate checkIns].
  all: rewrite H1, H2, ?H3, H4, H5, H6, H7, ?H8; reflexivity.
Qed.

(** A [date] of 0 is refused like a missing one. *)
Example addCheckIn_refuses_date_zero :
  addCheckIn 0 "u1" (Some Examples.walking)
    {| CheckInRequest.date := Some (CheckInRequest.Milliseconds 0);
       CheckInRequest.completed := Some true;
       CheckInRequest.value := Examples.num 5000;
       CheckInRequest.notes := None |}
  = ErrorResponse 400.
Proof. reflexivity. Qed.
End CheckInFacts.

Section StreakBounds.
Import JS HealthGoal GoalController.
Local Open Scope string_scope.
Local Open Scope Z_scope.

Lemma take_while_length {A} (p : A -> bool) (l : list A) :
  (List.length (Spec.take_while p l) <= List.length l)%nat.
Proof.
  induction l as [|x l IH]; simpl; [lia|].
  destruct (p x); simpl; lia.
Qed.

Lemma successive_length {A} (l : list A) :
  List.length (Spec.successive l) = (List.length l - 1)%nat.
Proof.
  unfold Spec.successive. rewrite length_combine.
  destruct l; [reflexivity|]. cbn [tl List.length]. lia.
Qed.

Lemma latest_none (l : list CheckIn) : Spec.latest l = None <-> l = [].
Proof.
  rewrite <- sort_hd_latest. split; intro H.
  - apply (sort_nil_iff by_date_desc).
    destruct (sort by_date_desc l); [reflexivity|discriminate].
  - subst. reflexivity.
Qed.

Lemma streak_bounds (gap : Z) (l : list CheckIn) :
  0 <= Spec.streak gap l <= Z.of_nat (List.length l).
Proof.
  unfold Spec.streak.
  destruct (Spec.latest l) as [c|] eqn:E; [|lia].
  assert (Hne : l <> []) by (intro H; apply latest_none in H; congruence).
  destruct (completed c); [|lia].
  pose proof (take_while_length (Spec.on_schedule gap)
                (Spec.successive (Spec.latest_first l))) as H.
  rewrite successive_length in H. unfold Spec.latest_first in *.
  rewrite (sort_length by_date_desc) in H.
  destruct l as [|c0 l0]; [contradiction|].
  set (n := List.length (Spec.take_while (Spec.on_schedule gap)
                 (Spec.successive (sort by_date_desc (c0 :: l0))))) in *.
  cbn [List.length] in *. lia.
Qed.

Lemma streak_positive (gap : Z) (l : list CheckIn) :
  1 <= Spec.streak gap l
  <-> exists c, Spec.latest l = Some c /\ completed c = true.
Proof.
  unfold Spec.streak. split.
  - destruct (Spec.latest l) as [c|]; [|lia].
    destruct (completed c) eqn:E; [|lia].
    intros _. exists c. split; [reflexivity|exact E].
  - intros [c [-> ->]]. lia.
Qed.
End StreakBounds.

Section CheckInProperties.
Import JS HealthGoal GoalController.
Local Open Scope string_scope.
Local Open Scope Z_scope.

(** X1.  [updateStreak] always returns, never throws; the streak lies between 0 and
    the number of check-ins, and it is at least 1 exactly when there is a
    latest check-in and that one is completed. *)
Theorem updateStreak_within_checkIns (g : Goal) :
  exists s,
    snd (updateStreak g) = Normal s
    /\ 0 <= s <= Z.of_nat (List.length (checkIns g))
    /\ (1 <= s <-> exists c, Spec.latest (checkIns g) = Some c
                             /\ completed c = true).
Proof.
  eexists. split; [apply updateStreak_spec|].
  split; [apply streak_bounds|apply streak_positive].
Qed.

(** X2.  On every goal [addCheckIn] stores, the cached progress equals (as numbers)
    what [calculateProgress] returns on the stored goal, and the cached
    streak is what [updateStreak] returns on it. *)
Theorem addCheckIn_caches_in_step (now : Z) (u : string) (g g' : Goal)
  (b : CheckInRequest.body) :
  addCheckIn now u (Some g) b = Success g' ->
  (exists r, snd (calculateProgress g') = Normal r
             /\ strict_eq (progress g') r = true)
  /\ snd (updateStreak g') = Normal (streak g').
Proof.
  intro H. split; [exact (addCheckIn_progress_cached now u g g' b H)|].
  destruct (addCheckIn_stored now u g g' b H) as (d & p & _ & _ & _ & _ & ->).
  rewrite updateStreak_spec. cbn [frequency checkIns streak].
  rewrite streak_of_sorted. reflexivity.
Qed.

Lemma addCheckIn_caches_in_step_witness :
  (exists r, snd (calculateProgress Scenarios.walking_after) = Normal r
             /\ strict_eq (progress Scenarios.walking_after) r = true)
  /\ snd (updateStreak Scenarios.walking_after)
     = Normal (streak Scenarios.walking_after).
Proof.
  apply (addCheckIn_caches_in_step 0 "u1" Examples.walking
           Scenarios.walking_after Scenarios.next_day).
  reflexivity.
Defined.

(** X3.  A successful [addCheckIn] stores the old check-ins and the new one, none
    lost and none added besides, in descending date order; the new one has
    [completed = false] when the request gives none. *)
Theorem addCheckIn_keeps_checkIns_latest_first (now : Z) (u : string)
  (g g' : Goal) (b : CheckInRequest.body) :
  addCheckIn now u (Some g) b = Success g' ->
  exists d,
    CheckInRequest.date b = Some d
    /\ Permutation (checkIns g')
         (checkIns g
          ++ [{| date := CheckInRequest.time_value d;
                 completed := or_default (CheckInRequest.completed b) false;
                 value := CheckInRequest.value b;
                 notes := CheckInRequest.notes b |}])
    /\ Sorted Spec.descending (checkIns g').
Proof.
  intro H.
  destruct (addCheckIn_stored now u g g' b H) as (d & p & Hd & _ & _ & _ & ->).
  exists d. split; [exact Hd|]. cbn [checkIns].
  split; [apply sort_perm|apply sort_sorted].
Qed.

Lemma addCheckIn_keeps_checkIns_latest_first_witness :
  exists d,
    CheckInRequest.date Scenarios.next_day = Some d
    /\ Permutation (checkIns Scenarios.walking_after)
         (checkIns Examples.walking
          ++ [{| date := CheckInRequest.time_value d;
                 completed :=
                   or_default (CheckInRequest.completed Scenarios.next_day)
                     false;
                 value := CheckInRequest.value Scenarios.next_day;
                 notes := CheckInRequest.notes Scenarios.next_day |}])
    /\ Sorted Spec.descending (checkIns Scenarios.walking_after).
Proof.
  apply (addCheckIn_keeps_checkIns_latest_first 0 "u1" Examples.walking
           Scenarios.walking_after Scenarios.next_day).
  reflexivity.
Defined.

(** X4.  [addCheckIn] never takes a goal out of [completed]; it changes the status
    only to [completed], and then the stored progress is 100, the request's
    [completed] flag is true and [completedDate] is the current time; when
    the stored goal is not completed, status and [completedDate] are
    untouched. *)
Theorem addCheckIn_status_transitions (now : Z) (u : string) (g g' : Goal)
  (b : CheckInRequest.body) :
  addCheckIn now u (Some g) b = Success g' ->
  (status g = Status.completed -> status g' = Status.completed)
  /\ (status g' <> status g ->
      status g' = Status.completed
      /\ strict_eq (progress g') (Fin 100) = true
      /\ CheckInRequest.completed b = Some true
      /\ completedDate g' = Some now)
  /\ (status g' <> Status.completed ->
      status g' = status g /\ completedDate g' = completedDate g).
Proof.
  intro H.
  destruct (addCheckIn_stored now u g g' b H) as (d & p & _ & _ & _ & V & ->).
  unfold validate in V. cbn [progress streak] in V.
  apply andb_prop in V. destruct V as [V _].
  apply andb_prop in V. destruct V as [_ V100].
  cbn [status progress completedDate].
  destruct (ge p (Fin 100) && or_default (CheckInRequest.completed b) false)
    eqn:Ec.
  - apply andb_prop in Ec. destruct Ec as [Hge Hdone].
    split; [reflexivity|]. split.
    + intros _. split; [reflexivity|].
      split; [apply le_antisym_strict_eq; assumption|].
      split; [|reflexivity].
      destruct (CheckInRequest.completed b) as [[|]|]; try discriminate.
      reflexivity.
    + intro Hn. contradiction.
  - split; [tauto|]. split; [intro Hn; contradiction|].
    intros _. split; reflexivity.
Qed.

Lemma addCheckIn_status_transitions_witness :
  (status Examples.walking = Status.completed ->
   status Scenarios.walking_after = Status.completed)
  /\ (status Scenarios.walking_after <> status Examples.walking ->
      status Scenarios.walking_after = Status.completed
      /\ strict_eq (progress Scenarios.walking_after) (Fin 100) = true
      /\ CheckInRequest.completed Scenarios.next_day = Some true
      /\ completedDate Scenarios.walking_after = Some 0)
  /\ (status Scenarios.walking_after <> Status.completed ->
      status Scenarios.walking_after = status Examples.walking
      /\ completedDate Scenarios.walking_after
         = completedDate Examples.walking).
Proof.
  apply (addCheckIn_status_transitions 0 "u1" Examples.walking
           Scenarios.walking_after Scenarios.next_day).
  reflexivity.
Defined.

(** X5.  [addCheckIn] succeeds only for the goal's owner, and leaves user, title,
    metrics (current, target, unit), frequency, start date and target date
    as they were. *)
Theorem addCheckIn_touches_derived_fields_only (now : Z) (u : string)
  (g g' : Goal) (b : CheckInRequest.body) :
  addCheckIn now u (Some g) b = Success g' ->
  user g = u
  /\ user g' = user g /\ title g' = title g /\ metrics g' = metrics g
  /\ frequency g' = frequency g /\ startDate g' = startDate g
  /\ targetDate g' = targetDate g.
Proof.
  intro H.
  destruct (addCheckIn_stored now u g g' b H) as (d & p & _ & Hu & _ & _ & ->).
  repeat split. exact Hu.
Qed.

Lemma addCheckIn_touches_derived_fields_only_witness :
  user Examples.walking = "u1"
  /\ user Scenarios.walking_after = user Examples.walking
  /\ title Scenarios.walking_after = title Examples.walking
  /\ metrics Scenarios.walking_after = metrics Examples.walking
  /\ frequency Scenarios.walking_after = frequency Examples.walking
  /\ startDate Scenarios.walking_after = startDate Examples.walking
  /\ targetDate Scenarios.walking_after = targetDate Examples.walking.
Proof.
  apply (addCheckIn_touches_derived_fields_only 0 "u1" Examples.walking
           Scenarios.walking_after Scenarios.next_day).
  reflexivity.
Defined.


End CheckInProperties.

Section OrderFacts.
Import JS HealthGoal.
Local Open Scope Z_scope.

Lemma nth_error_0 {A} (l : list A) : nth_error l 0 = hd_error l.
Proof. destruct l; reflexivity. Qed.

Lemma strictly_of_distinct (s : list CheckIn) :
  Sorted Spec.descending s -> NoDup (map date s) ->
  Sorted Spec.strictly_descending s.
Proof.
  induction 1 as [|x s Hs IH Hhd]; intro Hn; [constructor|].
  inversion Hn as [|? ? Hx Hn']; subst.
  constructor; [apply IH, Hn'|].
  destruct Hhd as [|y s' Hxy]; constructor.
  unfold Spec.descending, Spec.strictly_descending in *.
  assert (date y <> date x).
  { intro E. apply Hx. rewrite <- E. left. reflexivity. }
  lia.
Qed.

Lemma sort_of_permutation (l l' : list CheckIn) :
  Permutation l l' -> NoDup (map date l') ->
  sort by_date_desc l = sort by_date_desc l'.
Proof.
  intros Hp Hn. apply sort_unique.
  - apply strictly_of_distinct; [apply sort_sorted|].
    eapply Permutation_NoDup; [|exact Hn].
    apply Permutation_map, Permutation_sym, sort_perm.
  - eapply Permutation_trans; [exact Hp|].
    apply Permutation_sym, sort_perm.
Qed.

Lemma streak_same_order (gap : Z) (l l' : list CheckIn) :
  sort by_date_desc l = sort by_date_desc l' ->
  Spec.streak gap l = Spec.streak gap l'.
Proof.
  intro H. rewrite <- (streak_of_sorted gap l), <- (streak_of_sorted gap l'), H.
  reflexivity.
Qed.

Lemma progress_same_order (g : Goal) (l : list CheckIn) :
  sort by_date_desc l = sort by_date_desc (checkIns g) ->
  snd (calculateProgress (set_checkIns g l)) = snd (calculateProgress g).
Proof.
  intro H.
  destruct (calculateProgress_same_inputs g (set_checkIns g l)
              eq_refl eq_refl H) as [E|[E1 E2]].
  - exact E.
  - rewrite E1, E2. reflexivity.
Qed.

Lemma calculateProgress_again (g : Goal) :
  calculateProgress (fst (calculateProgress g))
  = (fst (calculateProgress g), snd (calculateProgress g)).
Proof.
  destruct (calculateProgress_goal g) as [H|H].
  - rewrite H. rewrite (surjective_pairing (calculateProgress g)) at 1.
    rewrite H. reflexivity.
  - rewrite H.
    rewrite (surjective_pairing
               (calculateProgress
                  (set_checkIns g (sort by_date_desc (checkIns g))))).
    rewrite progress_of_sorted. f_equal.
    destruct (calculateProgress_goal
                (set_checkIns g (sort by_date_desc (checkIns g)))) as [E|E];
      rewrite E; [reflexivity|].
    cbn [checkIns set_checkIns]. rewrite sort_idempotent. reflexivity.
Qed.

Lemma Math_min_cap (x : number) (c : Q) :
  lt (Fin c) (Math_min x (Fin c)) = false.
Proof.
  assert (Hcc : Qltb c c = false).
  { unfold Qltb. rewrite (proj1 (Qeq_alt c c) (Qeq_refl c)). reflexivity. }
  destruct x as [| | |q]; simpl; try reflexivity; try exact Hcc.
  destruct (Qltb q c) eqn:E; simpl; [|exact Hcc].
  unfold Qltb in *. rewrite <- (Qcompare_antisym q c).
  destruct (q ?= c)%Q; try discriminate. reflexivity.
Qed.
End OrderFacts.

Section ProgressProperties.
Import JS HealthGoal.
Local Open Scope Z_scope.

(** X8.  Calling [calculateProgress] or [updateStreak] a second time changes
    nothing more and returns the same result, and neither call changes what
    the other returns. *)
Theorem progress_and_streak_calls_repeat (g : Goal) :
  calculateProgress (fst (calculateProgress g))
  = (fst (calculateProgress g), snd (calculateProgress g))
  /\ updateStreak (fst (updateStreak g))
     = (fst (updateStreak g), snd (updateStreak g))
  /\ snd (updateStreak (fst (calculateProgress g))) = snd (updateStreak g)
  /\ snd (calculateProgress (fst (updateStreak g))) = snd (calculateProgress g).
Proof.
  split; [apply calculateProgress_again|].
  split; [|split].
  - rewrite (surjective_pairing (updateStreak (fst (updateStreak g)))).
    rewrite !updateStreak_goal, !updateStreak_spec.
    cbn [checkIns frequency set_checkIns].
    rewrite sort_idempotent, streak_of_sorted. reflexivity.
  - rewrite !updateStreak_spec.
    destruct (calculateProgress_goal g) as [H|H]; rewrite H; [reflexivity|].
    cbn [checkIns frequency set_checkIns]. rewrite streak_of_sorted.
    reflexivity.
  - rewrite updateStreak_goal. apply progress_of_sorted.
Qed.

(** X9.  When the check-ins have pairwise different dates, the results of
    [calculateProgress] and [updateStreak] do not depend on the order in
    which the check-ins are stored. *)
Theorem stored_order_is_irrelevant_for_distinct_dates (g : Goal)
  (l : list CheckIn) :
  Permutation l (checkIns g) ->
  NoDup (map date (checkIns g)) ->
  snd (calculateProgress (set_checkIns g l)) = snd (calculateProgress g)
  /\ snd (updateStreak (set_checkIns g l)) = snd (updateStreak g).
Proof.
  intros Hp Hn. pose proof (sort_of_permutation l (checkIns g) Hp Hn) as Hs.
  split; [apply progress_same_order, Hs|].
  rewrite !updateStreak_spec. cbn [checkIns frequency set_checkIns].
  f_equal. apply streak_same_order, Hs.
Qed.

Lemma stored_order_is_irrelevant_for_distinct_dates_witness :
  snd (calculateProgress
         (set_checkIns (Examples.two_days Frequency.daily)
            (rev (checkIns (Examples.two_days Frequency.daily)))))
  = snd (calculateProgress (Examples.two_days Frequency.daily))
  /\ snd (updateStreak
            (set_checkIns (Examples.two_days Frequency.daily)
               (rev (checkIns (Examples.two_days Frequency.daily)))))
     = snd (updateStreak (Examples.two_days Frequency.daily)).
Proof.
  apply (stored_order_is_irrelevant_for_distinct_dates
           (Examples.two_days Frequency.daily)).
  - apply Permutation_sym, Permutation_rev.
  - cbn. apply NoDup_cons; [intros [H|[]]; discriminate H|].
    apply NoDup_cons; [intros []|apply NoDup_nil].
Defined.

(** X10.  [calculateProgress] depends on the check-ins only through the latest one:
    it returns the same on the goal with that check-in alone. *)
Theorem calculateProgress_reads_latest_only (g : Goal) (l : CheckIn) :
  Spec.latest (checkIns g) = Some l ->
  snd (calculateProgress g) = snd (calculateProgress (set_checkIns g [l])).
Proof.
  intro Hl. unfold calculateProgress, sort_checkIns.
  cbn [metrics status checkIns set_checkIns progress].
  destruct (negb (truthy (target (metrics g)))); [reflexivity|].
  destruct (Status.eqb (status g) Status.completed); [reflexivity|].
  assert (Hlen : (List.length (checkIns g) =? 0)%nat = false)
    by (destruct (checkIns g); [discriminate|reflexivity]).
  rewrite Hlen. cbn [List.length Nat.eqb snd metrics set_checkIns progress].
  change (sort by_date_desc [l]) with [l].
  rewrite nth_error_0, sort_hd_latest, Hl. reflexivity.
Qed.

Lemma calculateProgress_reads_latest_only_witness :
  snd (calculateProgress (Examples.two_days Frequency.daily))
  = snd (calculateProgress
           (set_checkIns (Examples.two_days Frequency.daily)
              [Examples.checkIn ms_per_day true (Examples.num 5000)])).
Proof.
  apply (calculateProgress_reads_latest_only
           (Examples.two_days Frequency.daily)
           (Examples.checkIn ms_per_day true (Examples.num 5000))).
  reflexivity.
Defined.

(** X11.  A value [calculateProgress] returns is never above 100 unless it is the
    cached progress handed back unchanged. *)
Theorem calculateProgress_above_100_only_from_cache (g : Goal) (r : number) :
  snd (calculateProgress g) = Normal r ->
  r = progress g \/ lt (Fin 100) r = false.
Proof.
  unfold calculateProgress, sort_checkIns.
  destruct (negb (truthy (target (metrics g))));
    [intro H; injection H as <-; left; reflexivity|].
  destruct (Status.eqb (status g) Status.completed);
    [intro H; injection H as <-; right; reflexivity|].
  destruct (List.length (checkIns g) =? 0)%nat;
    [intro H; injection H as <-; right; reflexivity|].
  cbn [snd metrics set_checkIns progress].
  destruct (is_object (current (metrics g))).
  - destruct (get (target (metrics g)) systolic) as [ts|]; cbn [bind];
      [|discriminate].
    destruct (truthy ts); cbn [bind];
      [|intro H; injection H as <-; left; reflexivity].
    destruct (get (target (metrics g)) diastolic) as [td|]; cbn [bind];
      [|discriminate].
    destruct (truthy td); [|intro H; injection H as <-; left; reflexivity].
    destruct (of_element (nth_error (sort by_date_desc (checkIns g)) 0) value)
      as [v|]; cbn [bind]; [|discriminate].
    destruct (get v systolic) as [vs|]; cbn [bind]; [|discriminate].
    destruct (get v diastolic) as [vd|]; cbn [bind]; [|discriminate].
    intro H; injection H as <-. right. apply Math_min_cap.
  - destruct (of_element (nth_error (sort by_date_desc (checkIns g)) 0) value)
      as [v|]; cbn [bind]; [|discriminate].
    destruct (isNaN (parseFloat v) || isNaN (parseFloat (target (metrics g))));
      intro H; injection H as <-; [left; reflexivity|].
    right. apply Math_min_cap.
Qed.

Lemma calculateProgress_above_100_only_from_cache_witness :
  Fin 50 = progress Examples.walking \/ lt (Fin 100) (Fin 50) = false.
Proof.
  apply (calculateProgress_above_100_only_from_cache Examples.walking (Fin 50)).
  reflexivity.
Defined.
End ProgressProperties.

Section NumericProgress.
Import JS HealthGoal.
Local Open Scope Z_scope.

Lemma Math_min_100 (k : Z) :
  Math_min (num_of_Z k) (Fin 100) = num_of_Z (Z.min 100 k).
Proof.
  change (Fin 100) with (num_of_Z 100).
  unfold Math_min. cbn [num_of_Z]. fold (num_of_Z 100). fold (num_of_Z k).
  rewrite lt_num_of_Z.
  destruct (Z.ltb_spec k 100); [rewrite Z.min_r by lia|rewrite Z.min_l by lia];
    reflexivity.
Qed.

Lemma plain_progress (g : Goal) (l : CheckIn) :
  truthy (target (metrics g)) = true ->
  status g <> Status.completed ->
  is_object (current (metrics g)) = false ->
  Spec.latest (checkIns g) = Some l ->
  isNaN (parseFloat (value l)) = false ->
  isNaN (parseFloat (target (metrics g))) = false ->
  snd (calculateProgress g)
  = Normal (Math_min
              (Math_round
                 (Binary64.mul
                    (Binary64.div (parseFloat (value l))
                       (parseFloat (target (metrics g))))
                    (Fin 100)))
              (Fin 100)).
Proof.
  intros Ht Hs Hc Hl Hv Htv.
  unfold calculateProgress, sort_checkIns. rewrite Ht. cbn [negb].
  destruct (Status.eqb (status g) Status.completed) eqn:E.
  { apply status_eqb_eq in E. contradiction. }
  assert (Hlen : (List.length (checkIns g) =? 0)%nat = false)
    by (destruct (checkIns g); [discriminate|reflexivity]).
  rewrite Hlen. cbn [snd metrics set_checkIns progress]. rewrite Hc.
  rewrite nth_error_0, sort_hd_latest, Hl. cbn [of_element bind].
  rewrite Hv, Htv. reflexivity.
Qed.

Lemma floor_ge (z : Z) (x : Q) : z <= Qfloor x <-> (inject_Z z <= x)%Q.
Proof.
  split; intro H.
  - apply Qle_trans with (inject_Z (Qfloor x)); [|apply Qfloor_le].
    rewrite <- Zle_Qle. exact H.
  - rewrite <- (Qfloor_Z z). apply Qfloor_resp_le, H.
Qed.

(** The steps of the percentage are monotone. *)
Lemma div_mono (x y : number) (t : Q) :
  (0 < t)%Q -> le x y = true -> le (div x (Fin t)) (div y (Fin t)) = true.
Proof.
  intros Ht H.
  assert (Hz : Qeqb t 0 = false) by (apply Qeqb_false; lra).
  assert (Hn : Qltb t 0 = false) by (apply Qltb_ge; lra).
  destruct x as [| | |a], y as [| | |b]; try discriminate;
    cbn [div is_negative xorb inf_of_sign]; rewrite ?Hz, ?Hn;
    try reflexivity.
  apply le_Fin in H. apply le_Fin. rewrite !Qred_correct.
  apply Qmult_le_compat_r; [exact H|].
  apply Qlt_le_weak, Qinv_lt_0_compat, Ht.
Qed.

Lemma mul_100_mono (x y : number) :
  le x y = true -> le (mul x (Fin 100)) (mul y (Fin 100)) = true.
Proof.
  intro H.
  destruct x as [| | |a], y as [| | |b]; try discriminate; try reflexivity.
  apply le_Fin in H. apply le_Fin. rewrite !Qred_correct. lra.
Qed.

Lemma Math_round_mono (x y : number) :
  le x y = true -> le (Math_round x) (Math_round y) = true.
Proof.
  intro H.
  destruct x as [| | |a], y as [| | |b]; try discriminate; try reflexivity.
  apply le_Fin in H. apply le_Fin. unfold num_of_Z. rewrite <- Zle_Qle.
  apply Qfloor_resp_le. lra.
Qed.

Lemma Math_min_mono (x y : number) (c : Q) :
  le x y = true -> le (Math_min x (Fin c)) (Math_min y (Fin c)) = true.
Proof.
  intro H.
  destruct x as [| | |a], y as [| | |b]; try discriminate;
    cbn [Math_min lt]; try reflexivity.
  - apply le_Fin, Qle_refl.
  - destruct (Qltb b c) eqn:E; [reflexivity|]. reflexivity.
  - destruct (Qltb a c) eqn:E; apply le_Fin;
      [apply Qltb_lt in E; lra|apply Qle_refl].
  - apply le_Fin in H.
    destruct (Qltb a c) eqn:Ea; destruct (Qltb b c) eqn:Eb; apply le_Fin;
      rewrite ?Qltb_lt, ?Qltb_ge in *; lra.
Qed.

Lemma percentage_mono (x y : number) (t : Q) :
  (0 < t)%Q -> le x y = true ->
  le (Math_min (Math_round (Binary64.mul (Binary64.div x (Fin t)) (Fin 100)))
        (Fin 100))
     (Math_min (Math_round (Binary64.mul (Binary64.div y (Fin t)) (Fin 100)))
        (Fin 100)) = true.
Proof.
  intros Ht H. unfold Binary64.mul, Binary64.div.
  apply Math_min_mono, Math_round_mono, rounded_mono, mul_100_mono,
    rounded_mono, div_mono; assumption.
Qed.

(** 1450 of 10000 is 14.499999999999998 per cent, which rounds to 14; a
    value and a target of 1e400 are both Infinity, whose quotient is NaN;
    -1e308 over 1e-308 is -Infinity. *)
Example progress_of_binary64_quotients :
  let g value target :=
    Examples.goal Status.active (Fin 0) (Examples.num 0) target
      Frequency.daily [Examples.checkIn 0 true value] in
  snd (calculateProgress (g (Examples.num 1450) (Examples.num 10000)))
  = Normal (Fin 14)
  /\ snd (calculateProgress (g (JStr "1e400") (JStr "1e400"))) = Normal NaN
  /\ snd (calculateProgress (g (JStr "-1e308") (JStr "1e-308")))
     = Normal NegInf.
Proof. vm_compute. repeat split. Qed.
End NumericProgress.

Section NumericProgressProperties.
Import JS HealthGoal.
Local Open Scope Z_scope.

(** X12.  For a goal that is not completed, with a current value that is not an
    object, a target that parses to a positive number t and a latest value
    that parses to a number v that is not negative, [calculateProgress]
    returns an integer k from 0 to 100; k is 100 whenever v is at least t,
    and below 100 it is within one half, and 2^-45 for the rounding of the
    quotient and of the product, of v/t*100. *)
Theorem numeric_progress_is_rounded_percentage (g : Goal) (l : CheckIn)
  (v t : Q) :
  truthy (target (metrics g)) = true ->
  status g <> Status.completed ->
  is_object (current (metrics g)) = false ->
  Spec.latest (checkIns g) = Some l ->
  parseFloat (value l) = Fin v ->
  parseFloat (target (metrics g)) = Fin t ->
  (0 <= v)%Q ->
  (0 < t)%Q ->
  exists k : Z,
    snd (calculateProgress g) = Normal (num_of_Z k)
    /\ 0 <= k <= 100
    /\ ((t <= v)%Q -> k = 100)
    /\ (k < 100 ->
        (v / t * 100 - ((1 # 2) + 2 ^ (-45)) <= inject_Z k
         <= v / t * 100 + ((1 # 2) + 2 ^ (-45)))%Q).
Proof.
  intros Ht Hs Hc Hl Hv Htv Hv0 Hpos.
  rewrite (plain_progress g l Ht Hs Hc Hl)
    by (rewrite ?Hv, ?Htv; reflexivity).
  rewrite Hv, Htv.
  assert (Hnz : ~ (t == 0)%Q) by (intro E; rewrite E in Hpos; discriminate).
  rewrite (div_binary64 _ _ Hnz).
  set (x := (v / t)%Q).
  assert (Hx0 : (0 <= x)%Q).
  { subst x. apply Qle_shift_div_l; [exact Hpos|]. rewrite Qmult_0_l.
    exact Hv0. }
  assert (Hx1 : (t <= v)%Q -> (1 <= x)%Q).
  { intro H. subst x. apply Qle_shift_div_l; [exact Hpos|].
    rewrite Qmult_1_l. exact H. }
  assert (Hcap : exists k : Z,
             Normal (Math_min (Math_round PosInf) (Fin 100))
             = Normal (num_of_Z k)
             /\ 0 <= k <= 100
             /\ ((t <= v)%Q -> k = 100)
             /\ (k < 100 ->
                 (x * 100 - ((1 # 2) + 2 ^ (-45)) <= inject_Z k
                  <= x * 100 + ((1 # 2) + 2 ^ (-45)))%Q)).
  { exists 100. split; [reflexivity|]. split; [lia|].
    split; [reflexivity|]. intro H. lia. }
  pose proof (round_mono 0 x Hx0) as Ly.
  change (Binary64.round 0) with (Fin 0) in Ly.
  pose proof (round_error x) as Ex.
  pose proof (fun H => round_mono 1 x (Hx1 H)) as Ly1.
  change (Binary64.round 1) with (Fin 1) in Ly1.
  destruct (Binary64.round x) as [| | |y]; try discriminate; [exact Hcap|].
  apply le_Fin in Ly. specialize (Ex y eq_refl).
  unfold Binary64.mul, mul. cbn [Binary64.rounded]. rewrite round_Qred.
  assert (Hy0 : (0 <= y * 100)%Q) by lra.
  pose proof (round_mono 0 (y * 100) Hy0) as Lq.
  change (Binary64.round 0) with (Fin 0) in Lq.
  pose proof (round_error (y * 100)) as Ed.
  assert (Lq1 : (t <= v)%Q -> le (Fin 100) (Binary64.round (y * 100)) = true).
  { intro H. specialize (Ly1 H). apply le_Fin in Ly1.
    change (Fin 100) with (Binary64.round 100).
    apply round_mono. lra. }
  destruct (Binary64.round (y * 100)) as [| | |q]; try discriminate;
    [exact Hcap|].
  apply le_Fin in Lq. specialize (Ed q eq_refl).
  unfold Math_round. rewrite Math_min_100.
  set (K := Qfloor (q + (1 # 2))).
  pose proof (Qfloor_le (q + (1 # 2))) as Hlo.
  pose proof (Qlt_floor (q + (1 # 2))) as Hhi.
  fold K in Hlo, Hhi. rewrite inject_Z_plus in Hhi.
  change (inject_Z 1) with 1%Q in Hhi.
  assert (HK0 : 0 <= K).
  { apply floor_ge. change (inject_Z 0) with 0%Q. lra. }
  exists (Z.min 100 K). split; [reflexivity|]. split; [lia|]. split.
  - intro H. specialize (Lq1 H). apply le_Fin in Lq1.
    assert (100 <= K) by (apply floor_ge; change (inject_Z 100) with 100%Q; lra).
    lia.
  - intro Hk. assert (EK : Z.min 100 K = K) by lia. rewrite EK.
    assert (HK : (inject_Z K <= 99)%Q).
    { change 99%Q with (inject_Z 99). rewrite <- Zle_Qle. lia. }
    rewrite (Qabs_pos x) in Ex by exact Hx0.
    rewrite (Qabs_pos (y * 100)) in Ed by exact Hy0.
    assert (Hu : (2 ^ (-53) == 1 # 9007199254740992)%Q) by reflexivity.
    assert (He : (0 < 2 ^ (-1075) <= 1 # 1152921504606846976)%Q)
      by (split; [reflexivity|apply Qlt_le_weak; reflexivity]).
    assert (H45 : (2 ^ (-45) == 1 # 35184372088832)%Q) by reflexivity.
    rewrite Hu in Ex, Ed. rewrite H45.
    set (eta := (2 ^ (-1075))%Q) in *.
    destruct Ex as [Ex1 Ex2]. destruct Ed as [Ed1 Ed2]. destruct He.
    split; lra.
Qed.

Lemma numeric_progress_is_rounded_percentage_witness :
  exists k : Z,
    snd (calculateProgress
           (set_checkIns Examples.walking
              [Examples.checkIn 0 true (Examples.num 1450)]))
    = Normal (num_of_Z k)
    /\ 0 <= k <= 100
    /\ ((inject_Z 10000 <= inject_Z 1450)%Q -> k = 100)
    /\ (k < 100 ->
        (inject_Z 1450 / inject_Z 10000 * 100 - ((1 # 2) + 2 ^ (-45))
         <= inject_Z k
         <= inject_Z 1450 / inject_Z 10000 * 100 + ((1 # 2) + 2 ^ (-45)))%Q).
Proof.
  apply (numeric_progress_is_rounded_percentage
           (set_checkIns Examples.walking
              [Examples.checkIn 0 true (Examples.num 1450)])
           (Examples.checkIn 0 true (Examples.num 1450))
           (inject_Z 1450) (inject_Z 10000));
    [reflexivity | discriminate | reflexivity | reflexivity | reflexivity
    | reflexivity | discriminate | reflexivity].
Defined.

(** X13.  For a fixed positive target, the progress computed from a greater latest
    value is not smaller. *)
Theorem numeric_progress_is_monotone (g : Goal) (l1 l2 : CheckIn) (t : Q) :
  truthy (target (metrics g)) = true ->
  status g <> Status.completed ->
  is_object (current (metrics g)) = false ->
  parseFloat (target (metrics g)) = Fin t ->
  (0 < t)%Q ->
  le (parseFloat (value l1)) (parseFloat (value l2)) = true ->
  exists r1 r2 : number,
    snd (calculateProgress (set_checkIns g [l1])) = Normal r1
    /\ snd (calculateProgress (set_checkIns g [l2])) = Normal r2
    /\ le r1 r2 = true.
Proof.
  intros Ht Hs Hc Htv Hpos Hle.
  destruct (le_not_NaN _ _ Hle) as [H1 H2].
  assert (Hn : isNaN (parseFloat (target (metrics g))) = false)
    by (rewrite Htv; reflexivity).
  rewrite (plain_progress (set_checkIns g [l1]) l1 Ht Hs Hc eq_refl H1 Hn).
  rewrite (plain_progress (set_checkIns g [l2]) l2 Ht Hs Hc eq_refl H2 Hn).
  cbn [metrics set_checkIns]. rewrite Htv.
  eexists. eexists. split; [reflexivity|]. split; [reflexivity|].
  apply percentage_mono; assumption.
Qed.

Lemma numeric_progress_is_monotone_witness :
  exists r1 r2 : number,
    snd (calculateProgress
           (set_checkIns Examples.walking
              [Examples.checkIn 0 true (Examples.num 1449)]))
    = Normal r1
    /\ snd (calculateProgress
              (set_checkIns Examples.walking
                 [Examples.checkIn 0 true (Examples.num 1450)]))
       = Normal r2
    /\ le r1 r2 = true.
Proof.
  apply (numeric_progress_is_monotone Examples.walking
           (Examples.checkIn 0 true (Examples.num 1449))
           (Examples.checkIn 0 true (Examples.num 1450))
           (inject_Z 10000));
    [reflexivity | discriminate | reflexivity | reflexivity | reflexivity
    | reflexivity].
Defined.

(** X14.  [calculateProgress] throws a TypeError exactly when the goal has a truthy
    target and is not completed, its current value is an object, its target
    has truthy [systolic] and [diastolic], and the latest check-in has no
    value ([undefined] or [null]). *)
Theorem calculateProgress_throws_exactly_on_valueless_pair_checkIn (g : Goal) :
  snd (calculateProgress g) = Throw TypeError
  <-> truthy (target (metrics g)) = true
      /\ status g <> Status.completed
      /\ is_object (current (metrics g)) = true
      /\ (exists ts td, target (metrics g) = JObj ts td
                        /\ truthy ts = true /\ truthy td = true)
      /\ (exists l, Spec.latest (checkIns g) = Some l
                    /\ (value l = JUndefined \/ value l = JNull)).
Proof.
  unfold calculateProgress, sort_checkIns. split.
  - destruct (truthy (target (metrics g))) eqn:Ht; cbn [negb]; [|discriminate].
    destruct (Status.eqb (status g) Status.completed) eqn:Es; [discriminate|].
    destruct (List.length (checkIns g) =? 0)%nat eqn:El; [discriminate|].
    cbn [snd metrics set_checkIns progress].
    rewrite nth_error_0, sort_hd_latest.
    assert (Hs : status g <> Status.completed).
    { intro E. apply status_eqb_eq in E. congruence. }
    destruct (Spec.latest (checkIns g)) as [l|] eqn:Hl.
    2:{ apply latest_none in Hl. rewrite Hl in El. discriminate. }
    cbn [of_element bind].
    destruct (is_object (current (metrics g))) eqn:Ec.
    + destruct (target (metrics g)) as [| | | | |ts td] eqn:Etg;
        try discriminate.
      cbn [get bind].
      destruct (truthy ts) eqn:Ets; cbn [bind]; [|discriminate].
      destruct (truthy td) eqn:Etd; [|discriminate].
      intro H. repeat split; try assumption.
      * exists ts, td. repeat split; assumption.
      * exists l. split; [reflexivity|].
        destruct (value l); try discriminate; [left|right]; reflexivity.
    + destruct (isNaN (parseFloat (value l))
                || isNaN (parseFloat (target (metrics g)))); discriminate.
  - intros (Ht & Hs & Hc & (ts & td & Etg & Hts & Htd) & (l & Hl & Hv)).
    rewrite Ht. cbn [negb].
    destruct (Status.eqb (status g) Status.completed) eqn:Es.
    { apply status_eqb_eq in Es. contradiction. }
    assert (Hlen : (List.length (checkIns g) =? 0)%nat = false)
      by (destruct (checkIns g); [discriminate|reflexivity]).
    rewrite Hlen. cbn [snd metrics set_checkIns progress].
    rewrite nth_error_0, sort_hd_latest, Hl, Hc, Etg.
    cbn [get bind of_element]. rewrite Hts. cbn [bind]. rewrite Htd.
    destruct Hv as [-> | ->]; reflexivity.
Qed.
End NumericProgressProperties.

Section StreakEvolution.
Import JS HealthGoal GoalController.
Local Open Scope string_scope.
Local Open Scope Z_scope.

Lemma sort_later (l : list CheckIn) (c : CheckIn) :
  (forall x, In x l -> date x < date c) ->
  sort by_date_desc (l ++ [c]) = c :: sort by_date_desc l.
Proof.
  intro H. unfold sort. rewrite fold_right_app. cbn [fold_right insert].
  induction l as [|x l IH]; [reflexivity|].
  cbn [fold_right]. rewrite IH by (intros y Hy; apply H; right; exact Hy).
  cbn [insert]. unfold by_date_desc at 1.
  assert (Hx : date x < date c) by (apply H; left; reflexivity).
  destruct (Z.compare_spec (date c) (date x)); try lia. reflexivity.
Qed.

Lemma streak_later (gap : Z) (l : list CheckIn) (c : CheckIn) :
  (forall x, In x l -> date x < date c) ->
  Spec.streak gap (l ++ [c])
  = if completed c then
      match Spec.latest l with
      | Some y =>
          if completed y && (Spec.day_gap c y =? gap)
          then 1 + Spec.streak gap l else 1
      | None => 1
      end
    else 0.
Proof.
  intro H. unfold Spec.streak, Spec.latest_first.
  rewrite <- !sort_hd_latest, (sort_later l c H). cbn [hd_error].
  destruct (completed c); [|reflexivity].
  destruct (sort by_date_desc l) as [|y s]; cbn [hd_error]; [reflexivity|].
  change (Spec.successive (c :: y :: s))
    with ((c, y) :: Spec.successive (y :: s)).
  cbn [Spec.take_while]. unfold Spec.on_schedule at 1.
  destruct (completed y); cbn [andb]; [|reflexivity].
  destruct (Spec.day_gap c y =? gap); cbn [List.length]; [|reflexivity].
  lia.
Qed.

(** X7.  When the new check-in is later than every stored one, the stored streak
    is 0 if the new check-in is not completed; otherwise it is the previous
    streak plus 1 if the previously latest check-in is completed and the
    expected number of days (to the nearest day) before the new one, and 1
    in every other case. *)
Theorem addCheckIn_streak_step (now d s : Z) (u : string) (g g' : Goal)
  (b : CheckInRequest.body) :
  addCheckIn now u (Some g) b = Success g' ->
  option_map CheckInRequest.time_value (CheckInRequest.date b) = Some d ->
  (forall x, In x (checkIns g) -> date x < d) ->
  snd (updateStreak g) = Normal s ->
  streak g'
  = if or_default (CheckInRequest.completed b) false then
      match Spec.latest (checkIns g) with
      | Some y =>
          if completed y
             && ((2 * (d - date y) + ms_per_day) / (2 * ms_per_day)
                 =? expectedDiff (frequency g))
          then 1 + s else 1
      | None => 1
      end
    else 0.
Proof.
  intros H Hd Hlater Hs.
  destruct (addCheckIn_stored now u g g' b H) as (d' & p & Hd' & _ & _ & _ & ->).
  rewrite Hd' in Hd. cbn [option_map] in Hd. injection Hd as <-.
  rewrite updateStreak_spec in Hs. injection Hs as <-.
  cbn [streak]. unfold push_checkIn. cbn [checkIns set_checkIns].
  rewrite streak_later by exact Hlater. reflexivity.
Qed.

Lemma addCheckIn_streak_step_witness :
  streak Scenarios.walking_after = 2.
Proof.
  refine (addCheckIn_streak_step 0 ms_per_day 1 "u1" Examples.walking
            Scenarios.walking_after Scenarios.next_day eq_refl eq_refl _
            eq_refl).
  intros x [<-|[]]. reflexivity.
Defined.
End StreakEvolution.

Section VirtualFacts.
Import JS Runtime HealthGoal HealthGoalVirtuals.
Local Open Scope Z_scope.

Lemma ceil_days (d : Z) :
  Math_ceil (div (num_of_Z d) (num_of_Z ms_per_day))
  = num_of_Z (- ((- d) / ms_per_day)).
Proof.
  unfold div, num_of_Z.
  replace (Qeqb (inject_Z ms_per_day) 0) with false by reflexivity.
  unfold Math_ceil, num_of_Z. do 2 f_equal.
  assert (E : (Qred (inject_Z d / inject_Z ms_per_day) == d # 86400000)%Q).
  { rewrite Qred_correct. unfold Qeq, Qdiv, Qmult, Qinv, inject_Z.
    change ms_per_day with 86400000. cbn [Qnum Qden]. lia. }
  rewrite (Qceiling_comp _ _ E). reflexivity.
Qed.

Lemma whole_days_or_none (c : Z) :
  (if gt (num_of_Z c) (Fin 0) then num_of_Z c else Fin 0)
  = num_of_Z (Z.max 0 c).
Proof.
  unfold gt. change (Fin 0) with (num_of_Z 0). rewrite lt_num_of_Z.
  destruct (Z.ltb_spec 0 c); [rewrite Z.max_r by lia|rewrite Z.max_l by lia];
    reflexivity.
Qed.

(** The number of days, started days included, that cover [d] milliseconds. *)
Lemma started_days (d : Z) :
  let c := - ((- d) / ms_per_day) in
  (c - 1) * ms_per_day < d <= c * ms_per_day.
Proof.
  intro c. subst c.
  pose proof (Z.div_mod (- d) ms_per_day ltac:(discriminate)) as E.
  pose proof (Z.mod_pos_bound (- d) ms_per_day ltac:(reflexivity)) as B.
  lia.
Qed.

Lemma started_days_mono (d1 d2 : Z) :
  d1 <= d2 -> - ((- d1) / ms_per_day) <= - ((- d2) / ms_per_day).
Proof.
  intro H. apply Z.opp_le_mono. rewrite !Z.opp_involutive.
  apply Z.div_le_mono; [reflexivity|lia].
Qed.

Lemma daysRemaining_value (today target : Z) (st : Status.t) :
  daysRemaining today (Some target) st
  = Some (num_of_Z (if Status.eqb st Status.completed then 0
                    else Z.max 0 (- ((- (target - today)) / ms_per_day)))).
Proof.
  unfold daysRemaining. destruct (Status.eqb st Status.completed);
    [reflexivity|].
  rewrite ceil_days, whole_days_or_none. reflexivity.
Qed.

Lemma daysSinceStart_value (today start : Z) :
  daysSinceStart today (Some start)
  = Some (num_of_Z (Z.max 0 (- ((- (today - start)) / ms_per_day)))).
Proof.
  unfold daysSinceStart. rewrite ceil_days, whole_days_or_none. reflexivity.
Qed.
End VirtualFacts.

Section VirtualProperties.
Import JS Runtime HealthGoal HealthGoalVirtuals.
Local Open Scope Z_scope.

(** X15.  [daysRemaining] is a whole number, never negative; it is 0 exactly when
    the goal is completed or the target date is not in the future, and
    otherwise the remaining time in days rounded up. *)
Theorem daysRemaining_counts_started_days (today target : Z) (st : Status.t) :
  exists k,
    daysRemaining today (Some target) st = Some (num_of_Z k)
    /\ 0 <= k
    /\ (k = 0 <-> st = Status.completed \/ target <= today)
    /\ (st <> Status.completed -> today < target ->
        (k - 1) * ms_per_day < target - today <= k * ms_per_day).
Proof.
  eexists. split; [apply daysRemaining_value|].
  pose proof (started_days (target - today)) as H. cbv zeta in H.
  destruct (Status.eqb st Status.completed) eqn:E.
  - apply status_eqb_eq in E. split; [lia|]. split; [tauto|].
    intro Hn. contradiction.
  - assert (Hs : st <> Status.completed).
    { intro Hc. apply status_eqb_eq in Hc. congruence. }
    unfold ms_per_day in *. split; [lia|]. split.
    + split; [intro Hk; right; lia|]. intros [Hc|Hc]; [contradiction|lia].
    + intros _ Hlt. lia.
Qed.

(** X16.  As time passes, [daysSinceStart] never decreases and [daysRemaining]
    never increases. *)
Theorem days_elapsed_and_remaining_move_with_time (today1 today2 start target : Z)
  (st : Status.t) :
  today1 <= today2 ->
  exists a1 a2 b1 b2,
    daysSinceStart today1 (Some start) = Some (num_of_Z a1)
    /\ daysSinceStart today2 (Some start) = Some (num_of_Z a2)
    /\ daysRemaining today1 (Some target) st = Some (num_of_Z b1)
    /\ daysRemaining today2 (Some target) st = Some (num_of_Z b2)
    /\ a1 <= a2 /\ b2 <= b1.
Proof.
  intro H. do 4 eexists.
  split; [apply daysSinceStart_value|]. split; [apply daysSinceStart_value|].
  split; [apply daysRemaining_value|]. split; [apply daysRemaining_value|].
  pose proof (started_days_mono (today1 - start) (today2 - start)
                ltac:(lia)).
  pose proof (started_days_mono (target - today2) (target - today1)
                ltac:(lia)).
  split; [lia|]. destruct (Status.eqb st Status.completed); lia.
Qed.

Lemma days_elapsed_and_remaining_move_with_time_witness :
  exists a1 a2 b1 b2,
    daysSinceStart 0 (Some 0) = Some (num_of_Z a1)
    /\ daysSinceStart ms_per_day (Some 0) = Some (num_of_Z a2)
    /\ daysRemaining 0 (Some (90 * ms_per_day)) Status.active
       = Some (num_of_Z b1)
    /\ daysRemaining ms_per_day (Some (90 * ms_per_day)) Status.active
       = Some (num_of_Z b2)
    /\ a1 <= a2 /\ b2 <= b1.
Proof.
  apply (days_elapsed_and_remaining_move_with_time 0 ms_per_day 0
           (90 * ms_per_day) Status.active).
  unfold ms_per_day. lia.
Defined.

(** X17.  Between the start and the target date of a goal that is not completed,
    the days since the start plus the days remaining cover the whole
    duration and exceed it by less than two days. *)
Theorem days_elapsed_and_remaining_cover_the_goal (today start target : Z)
  (st : Status.t) :
  st <> Status.completed ->
  start <= today <= target ->
  exists a b,
    daysSinceStart today (Some start) = Some (num_of_Z a)
    /\ daysRemaining today (Some target) st = Some (num_of_Z b)
    /\ target - start <= (a + b) * ms_per_day
       < target - start + 2 * ms_per_day.
Proof.
  intros Hs Hb. do 2 eexists.
  split; [apply daysSinceStart_value|]. split; [apply daysRemaining_value|].
  destruct (Status.eqb st Status.completed) eqn:E.
  { apply status_eqb_eq in E. contradiction. }
  pose proof (started_days (today - start)) as H1.
  pose proof (started_days (target - today)) as H2. cbv zeta in H1, H2.
  unfold ms_per_day in *. lia.
Qed.

Lemma days_elapsed_and_remaining_cover_the_goal_witness :
  exists a b,
    daysSinceStart (10 * ms_per_day + 1) (Some 0) = Some (num_of_Z a)
    /\ daysRemaining (10 * ms_per_day + 1) (Some (90 * ms_per_day))
         Status.active = Some (num_of_Z b)
    /\ 90 * ms_per_day - 0 <= (a + b) * ms_per_day
       < 90 * ms_per_day - 0 + 2 * ms_per_day.
Proof.
  apply (days_elapsed_and_remaining_cover_the_goal (10 * ms_per_day + 1) 0
           (90 * ms_per_day) Status.active);
    [discriminate | unfold ms_per_day; lia].
Defined.
End VirtualProperties.

Section SignalFacts.
Import JS AiService.
Local Open Scope string_scope.
Local Open Scope Z_scope.

Lemma high_readings_pure (metrics : list Metric) :
  forallb Spec.readable metrics = true ->
  filter_c (fun m =>
              JS.bind (get (value m) systolic) (fun s =>
              if gt (ToNumber s) (Fin 130) then Normal true
              else JS.bind (get (value m) diastolic) (fun d =>
                   Normal (gt (ToNumber d) (Fin 80)))))
    (of_type "blood_pressure" metrics)
  = Normal (filter Readings.high (of_type "blood_pressure" metrics)).
Proof.
  intro Hall. apply filter_c_pure. intros m Hin.
  destruct (readable_blood_pressure metrics m Hall Hin) as [Hu Hn].
  unfold Readings.high.
  destruct (value m) as [| | | | |s d]; try contradiction; try reflexivity.
  cbn [get bind]. destruct (gt (ToNumber s) (Fin 130)); reflexivity.
Qed.

Lemma filter_c_throws {A} (f : A -> completion bool) (l : list A) (x : A) :
  In x l -> f x = Throw TypeError -> filter_c f l = Throw TypeError.
Proof.
  induction l as [|y l IH]; intros Hin Hx; [contradiction|].
  cbn [filter_c]. destruct (f y) as [keep|[]] eqn:Ey; [|reflexivity].
  cbn [bind]. destruct Hin as [->|Hin]; [congruence|].
  rewrite (IH Hin Hx). reflexivity.
Qed.

Lemma unreadable_sample (metrics : list Metric) :
  forallb Spec.readable metrics = false ->
  exists m, In m (of_type "blood_pressure" metrics)
            /\ (value m = JUndefined \/ value m = JNull).
Proof.
  induction metrics as [|m l IH]; [discriminate|].
  cbn [forallb]. intro H. apply andb_false_iff in H.
  unfold of_type. cbn [filter].
  destruct H as [H|H].
  - unfold Spec.readable in H.
    destruct (String.eqb (type m) "blood_pressure"); [|discriminate].
    exists m. split; [left; reflexivity|].
    cbn [negb orb] in H.
    destruct (value m); try discriminate; [left|right]; reflexivity.
  - destruct (IH H) as [m' [Hin Hv]]. exists m'. split; [|exact Hv].
    destruct (String.eqb (type m) "blood_pressure"); [right|]; exact Hin.
Qed.

Lemma heart_rate_modifier_range (x : number) :
  -5 <= Spec.heart_rate_modifier x <= 5.
Proof.
  unfold Spec.heart_rate_modifier.
  destruct (lt x (Fin 60) || gt x (Fin 100)); [lia|].
  destruct (ge x (Fin 60) && le x (Fin 80)); lia.
Qed.

Lemma blood_pressure_modifier_range (result : number -> number)
  (x : number) :
  -10 <= Spec.blood_pressure_modifier result x <= 10.
Proof.
  unfold Spec.blood_pressure_modifier.
  destruct (gt x (result (Fin (8 # 10)))); [lia|].
  destruct (lt x (result (Fin (4 # 10)))); lia.
Qed.

Lemma sleep_modifier_range (x : number) :
  -8 <= Spec.sleep_modifier x <= 8.
Proof.
  unfold Spec.sleep_modifier.
  destruct (ge x (Fin 7) && le x (Fin 9)); [lia|].
  destruct (lt x (Fin 6)); [lia|].
  destruct (ge x (Fin 6) && lt x (Fin 7)); lia.
Qed.

Lemma steps_modifier_range (x : number) :
  -5 <= Spec.steps_modifier x <= 10.
Proof.
  unfold Spec.steps_modifier.
  destruct (ge x (Fin 10000)); [lia|].
  destruct (ge x (Fin 7500) && lt x (Fin 10000)); [lia|].
  destruct (lt x (Fin 5000)); lia.
Qed.

Lemma contribution_range (s : list Metric) (f : list Metric -> Z) (lo hi : Z) :
  lo <= 0 <= hi -> (forall l, lo <= f l <= hi) ->
  lo <= Spec.contribution s f <= hi.
Proof. intros H0 Hf. destruct s; simpl; [lia|apply Hf]. Qed.

Lemma modifiers_range (result : number -> number) (metrics : list Metric) :
  -28 <= Spec.modifiers result metrics <= 33.
Proof.
  unfold Spec.modifiers.
  pose proof (contribution_range (of_type "heart_rate" metrics)
                (fun s => Spec.heart_rate_modifier (Spec.average result s))
                (-5) 5 ltac:(lia) (fun l => heart_rate_modifier_range _)).
  pose proof (contribution_range (of_type "blood_pressure" metrics)
                (fun s => Spec.blood_pressure_modifier result
                            (Spec.optimal_fraction result s))
                (-10) 10 ltac:(lia)
                (fun l => blood_pressure_modifier_range result _)).
  pose proof (contribution_range (of_type "sleep" metrics)
                (fun s => Spec.sleep_modifier (Spec.average result s)) (-8) 8
                ltac:(lia) (fun l => sleep_modifier_range _)).
  pose proof (contribution_range (of_type "steps" metrics)
                (fun s => Spec.steps_modifier (Spec.average result s)) (-5) 10
                ltac:(lia) (fun l => steps_modifier_range _)).
  lia.
Qed.
End SignalFacts.

Section SignalProperties.
Import JS AiService.
Local Open Scope string_scope.
Local Open Scope Z_scope.

(** X18.  On metrics whose blood-pressure samples carry a value, [identifyConcerns]
    returns, in this order and each at most once: the blood-pressure concern
    when more than half of the blood-pressure samples read above 130 or 80,
    the sleep concern under its own test, and the activity concern when more
    than half of the step samples are below 5000 (exactly half does not
    flag).  (An array has fewer than 2^32 elements.) *)
Theorem identifyConcerns_flags_in_fixed_order (metrics : list Metric) :
  forallb Spec.readable metrics = true ->
  Z.of_nat (List.length metrics) < 2 ^ 32 ->
  let bp := of_type "blood_pressure" metrics in
  let sleep := of_type "sleep" metrics in
  let steps := of_type "steps" metrics in
  identifyConcerns metrics
  = Normal
      ((if (List.length bp <? 2 * List.length (filter Readings.high bp))%nat
        then [bp_concern] else [])
       ++ (if (3 <? List.length sleep)%nat
              && (List.length sleep
                  <? 3 * Spec.differing_pairs Binary64.rounded sleep)%nat
           then [sleep_concern] else [])
       ++ (if (List.length steps
               <? 2 * List.length (filter Readings.low_activity steps))%nat
           then [steps_concern] else []))%list.
Proof.
  intros Hall Hlen bp sleep steps. unfold identifyConcerns.
  rewrite (high_readings_pure metrics Hall). fold bp sleep steps.
  pose proof (of_type_shorter "blood_pressure" metrics) as Lbp.
  pose proof (of_type_shorter "sleep" metrics) as Lsl.
  pose proof (of_type_shorter "steps" metrics) as Lst.
  fold bp in Lbp. fold sleep in Lsl. fold steps in Lst.
  pose proof (differing_pairs_bound Binary64.rounded sleep) as Ld.
  assert (Hk : match sleep with
               | first :: rest => inconsistent_loop first rest 0
               | [] => 0
               end = Z.of_nat (Spec.differing_pairs Binary64.rounded sleep)).
  { destruct sleep; [reflexivity|]. rewrite inconsistent_loop_counts. lia. }
  rewrite Hk, gt_third by lia.
  rewrite (gt_half _ (List.length steps)) by lia.
  assert (H3 : (Z.of_nat (List.length sleep)
                <? 3 * Z.of_nat (Spec.differing_pairs Binary64.rounded sleep))
               = (List.length sleep
                  <? 3 * Spec.differing_pairs Binary64.rounded sleep)%nat).
  { destruct (Z.ltb_spec (Z.of_nat (List.length sleep))
                (3 * Z.of_nat (Spec.differing_pairs Binary64.rounded sleep)));
      destruct (Nat.ltb_spec (List.length sleep)
                  (3 * Spec.differing_pairs Binary64.rounded sleep));
      try reflexivity; lia. }
  rewrite H3.
  change (filter (fun m => lt (ToNumber (value m)) (Fin 5000)) steps)
    with (filter Readings.low_activity steps).
  assert (Hbp : forall k, (non_empty bp = false ->
                 (List.length bp <? 2 * List.length (filter k bp))%nat = false)).
  { intros k. destruct bp; [reflexivity|discriminate]. }
  assert (Hst : non_empty steps = false ->
                (List.length steps
                 <? 2 * List.length (filter Readings.low_activity steps))%nat
                = false).
  { destruct steps; [reflexivity|discriminate]. }
  destruct (non_empty bp) eqn:Ebp; cbn [bind];
    [rewrite (gt_half _ (List.length bp)) by lia|rewrite (Hbp _ eq_refl)];
    (destruct (non_empty steps) eqn:Est; [|rewrite (Hst eq_refl)]);
    destruct (3 <? List.length sleep)%nat;
    destruct (List.length sleep
              <? 3 * Spec.differing_pairs Binary64.rounded sleep)%nat;
    cbn [andb];
    repeat match goal with
           | |- context [if ?c then _ else _] => destruct c
           end; reflexivity.
Qed.

Lemma identifyConcerns_flags_in_fixed_order_witness :
  identifyConcerns Examples.restless = Normal [sleep_concern].
Proof.
  exact (identifyConcerns_flags_in_fixed_order Examples.restless eq_refl
           eq_refl).
Defined.

(** X19.  On metrics whose blood-pressure samples carry a value, the health score
    is an integer between 42 and 100: only the upper cap ever applies, and
    without heart-rate, blood-pressure, sleep and step samples the score is
    70. *)
Theorem calculateHealthScore_between_42_and_100 (metrics : list Metric) :
  forallb Spec.readable metrics = true ->
  exists k,
    calculateHealthScore metrics = Normal (num_of_Z k)
    /\ 42 <= k <= 100
    /\ k = Z.min 100 (70 + Spec.modifiers Binary64.rounded metrics)
    /\ (of_type "heart_rate" metrics = [] ->
        of_type "blood_pressure" metrics = [] ->
        of_type "sleep" metrics = [] ->
        of_type "steps" metrics = [] -> k = 70).
Proof.
  intro Hall. exists (Spec.health_score Binary64.rounded metrics).
  split; [apply calculateHealthScore_spec, Hall|].
  pose proof (modifiers_range Binary64.rounded metrics) as Hr.
  unfold Spec.health_score, Spec.clamp.
  split; [lia|]. split; [lia|].
  intros H1 H2 H3 H4. unfold Spec.modifiers in *.
  rewrite H1, H2, H3, H4. reflexivity.
Qed.

Lemma calculateHealthScore_between_42_and_100_witness :
  exists k,
    calculateHealthScore Examples.good_week = Normal (num_of_Z k)
    /\ 42 <= k <= 100
    /\ k = Z.min 100 (70 + Spec.modifiers Binary64.rounded Examples.good_week)
    /\ (of_type "heart_rate" Examples.good_week = [] ->
        of_type "blood_pressure" Examples.good_week = [] ->
        of_type "sleep" Examples.good_week = [] ->
        of_type "steps" Examples.good_week = [] -> k = 70).
Proof.
  apply (calculateHealthScore_between_42_and_100 Examples.good_week).
  reflexivity.
Defined.

(** X20.  [calculateHealthScore] and [identifyConcerns] throw a TypeError exactly
    when some blood-pressure sample has no value ([undefined] or [null]). *)
Theorem scoring_throws_exactly_on_valueless_blood_pressure
  (metrics : list Metric) :
  (forallb Spec.readable metrics = false
   <-> calculateHealthScore metrics = Throw TypeError)
  /\ (forallb Spec.readable metrics = false
      <-> identifyConcerns metrics = Throw TypeError).
Proof.
  split; split.
  - intro H. destruct (unreadable_sample metrics H) as [m [Hin Hv]].
    unfold calculateHealthScore.
    assert (Hne : non_empty (of_type "blood_pressure" metrics) = true)
      by (destruct (of_type "blood_pressure" metrics); [contradiction|reflexivity]).
    rewrite Hne.
    rewrite (filter_c_throws _ _ m Hin); [reflexivity|].
    destruct Hv as [-> | ->]; reflexivity.
  - intro H. destruct (forallb Spec.readable metrics) eqn:E; [|reflexivity].
    rewrite (calculateHealthScore_spec metrics E) in H. discriminate.
  - intro H. destruct (unreadable_sample metrics H) as [m [Hin Hv]].
    unfold identifyConcerns.
    assert (Hne : non_empty (of_type "blood_pressure" metrics) = true)
      by (destruct (of_type "blood_pressure" metrics); [contradiction|reflexivity]).
    rewrite Hne.
    rewrite (filter_c_throws _ _ m Hin); [reflexivity|].
    destruct Hv as [-> | ->]; reflexivity.
  - intro H. destruct (forallb Spec.readable metrics) eqn:E; [|reflexivity].
    destruct (identifyConcerns_returns metrics E) as [cs [Ecs _]].
    rewrite Ecs in H. discriminate.
Qed.
End SignalProperties.

Section AdviceFacts.
Import JS Runtime Advice.
Local Open Scope string_scope.
Local Open Scope Z_scope.

Lemma add_num_of_Z (a b : Z) :
  add (num_of_Z a) (num_of_Z b) = num_of_Z (a + b).
Proof.
  unfold add, num_of_Z. f_equal.
  rewrite <- (Qred_inject_Z (a + b)). apply Qred_complete.
  rewrite inject_Z_plus. reflexivity.
Qed.

Lemma Math_min_Z (k c : Z) :
  Math_min (num_of_Z k) (num_of_Z c) = num_of_Z (Z.min c k).
Proof.
  unfold Math_min. cbn [num_of_Z]. fold (num_of_Z c). fold (num_of_Z k).
  rewrite lt_num_of_Z.
  destruct (Z.ltb_spec k c); [rewrite Z.min_r by lia|rewrite Z.min_l by lia];
    reflexivity.
Qed.

Lemma element_num_of_Z {A} (l : list A) (z : Z) :
  element l (num_of_Z z)
  = if 0 <=? z then nth_error l (Z.to_nat z) else None.
Proof.
  unfold element, num_of_Z. rewrite Qfloor_Z.
  unfold Qeqb. rewrite (proj1 (Qeq_alt _ _) (Qeq_refl (inject_Z z))).
  reflexivity.
Qed.

Lemma floor_scaled (q : Q) (c : positive) (z : Z) :
  z <= Qfloor (Qred (q / inject_Z (Z.pos c)))
  <-> (inject_Z (z * Z.pos c) <= q)%Q.
Proof.
  rewrite (Qfloor_comp _ _ (Qred_correct _)), floor_ge.
  rewrite inject_Z_mult.
  assert (Hc : (0 < inject_Z (Z.pos c))%Q) by reflexivity.
  split; intro H.
  - apply (Qmult_le_compat_r _ _ (inject_Z (Z.pos c))) in H;
      [|apply Qlt_le_weak, Hc].
    rewrite Qmult_comm, (Qmult_comm (q / _)) in H.
    rewrite Qmult_div_r in H; [|intro E; rewrite E in Hc; discriminate].
    rewrite Qmult_comm. exact H.
  - apply Qle_shift_div_l; assumption.
Qed.
End AdviceFacts.

Section AdviceFacts2.
Import JS Runtime Advice.
Local Open Scope string_scope.
Local Open Scope Z_scope.

Lemma severity_band (symptom : Symptom) (q : Q) :
  severity symptom = Fin q ->
  severityAssessment symptom
  = let k := Z.min 2 (Qfloor (Qred (q / inject_Z 4))) in
    if 0 <=? k then nth_error severityLevels (Z.to_nat k) else None.
Proof.
  intro H. unfold severityAssessment. rewrite H. unfold div.
  change (Qeqb 4 0) with false. cbn iota. unfold Math_floor.
  change (Fin 2) with (num_of_Z 2).
  rewrite Math_min_Z, element_num_of_Z. reflexivity.
Qed.

Lemma severity_high (symptom : Symptom) (q : Q) :
  severity symptom = Fin q -> (8 <= q)%Q ->
  severityAssessment symptom = Some "high".
Proof.
  intros H Hq. rewrite (severity_band symptom q H). cbv zeta.
  assert (2 <= Qfloor (Qred (q / inject_Z 4))) by (apply floor_scaled; exact Hq).
  rewrite Z.min_l by lia. reflexivity.
Qed.

Lemma inherited_not_own (key : string) :
  existsb (String.eqb key) inherited_keys = true ->
  assoc specificRecommendations key = None.
Proof.
  intro H. apply existsb_exists in H. destruct H as [k [Hin Hk]].
  apply String.eqb_eq in Hk. subst k.
  unfold inherited_keys in Hin. cbn [In] in Hin.
  repeat (destruct Hin as [<-|Hin]; [reflexivity|]). contradiction.
Qed.
End AdviceFacts2.

Section AdviceProperties.
Import JS Runtime Advice.
Local Open Scope string_scope.
Local Open Scope Z_scope.



(** X22.  [generateRecommendations] throws when the symptom's name is a member
    every object inherits (such as [constructor]); otherwise, with high
    severity it returns the advice to consult a professional followed by the
    four generic recommendations and nothing specific to the symptom, and
    with any other severity the four generic ones followed by at most the
    first specific one.  A rating of 8 or more is assessed high. *)
Theorem generateRecommendations_cuts_to_five (symptom : Symptom)
  (severity : option string) (userProfile : UserProfile) :
  (existsb (String.eqb (name symptom)) inherited_keys = true ->
   generateRecommendations symptom severity userProfile = Throw TypeError)
  /\ (existsb (String.eqb (name symptom)) inherited_keys = false ->
      (severity = Some "high" ->
       generateRecommendations symptom severity userProfile
       = Normal (consult :: genericRecommendations))
      /\ (severity <> Some "high" ->
          generateRecommendations symptom severity userProfile
          = Normal (genericRecommendations
                    ++ firstn 1
                         (match assoc specificRecommendations (name symptom)
                          with
                          | Some specific => specific
                          | None => []
                          end))%list))
  /\ (forall q,
         existsb (String.eqb (name symptom)) inherited_keys = false ->
         Advice.severity symptom = Fin q -> (8 <= q)%Q ->
         generateRecommendations symptom (severityAssessment symptom)
           userProfile
         = Normal (consult :: genericRecommendations)).
Proof.
  assert (Hhigh : forall sev,
             existsb (String.eqb (name symptom)) inherited_keys = false ->
             sev = Some "high" ->
             generateRecommendations symptom sev userProfile
             = Normal (consult :: genericRecommendations)).
  { intros sev Hk ->. unfold generateRecommendations, lookup. rewrite Hk.
    destruct (assoc specificRecommendations (name symptom)); reflexivity. }
  split; [|split].
  - intro Hk. unfold generateRecommendations, lookup.
    rewrite (inherited_not_own _ Hk), Hk. reflexivity.
  - intro Hk. split; [apply Hhigh, Hk|].
    intro Hs. unfold generateRecommendations, lookup. rewrite Hk.
    assert (Hsev : match severity with
                   | Some s => String.eqb s "high"
                   | None => false
                   end = false).
    { destruct severity as [s|]; [|reflexivity].
      destruct (String.eqb_spec s "high"); [subst; contradiction|reflexivity]. }
    destruct (assoc specificRecommendations (name symptom)); cbn [bind];
      destruct severity as [s|]; try rewrite Hsev; reflexivity.
  - intros q Hk Hq H8. apply Hhigh; [exact Hk|].
    apply (severity_high symptom q Hq H8).
Qed.

(** X23.  [generateDailyHabits] returns the same five base habits whatever the
    profile and the context: the habits added for hypertension, diabetes or
    stress are cut off. *)
Theorem generateDailyHabits_is_constant (userProfile : UserProfile)
  (context : Context) :
  generateDailyHabits userProfile context = baseHabits.
Proof.
  unfold generateDailyHabits.
  destruct (optional_includes (conditions userProfile) "Hypertension");
    destruct (optional_includes (conditions userProfile) "Diabetes");
    destruct (optional_includes (goals context) "Reduce stress");
    reflexivity.
Qed.


(** X25.  With [Math.random] returning numbers from 0 up to 1, [findCorrelations]
    reports the first three metrics at most, by type and in order, each
    with an integer confidence between 40 and 69. *)
Theorem findCorrelations_confidence_between_40_and_69
  (random : nat -> number) (symptom : Symptom)
  (metrics : list AiService.Metric) :
  (forall i, exists r, random i = Fin r /\ (0 <= r < 1)%Q) ->
  map metricType (findCorrelations random symptom metrics)
  = map AiService.type (firstn 3 metrics)
  /\ (List.length (findCorrelations random symptom metrics) <= 3)%nat
  /\ forall c, In c (findCorrelations random symptom metrics) ->
       exists k, confidence c = num_of_Z k /\ 40 <= k <= 69.
Proof.
  intro Hr. unfold findCorrelations.
  assert (Hlen : (List.length (firstn 3 metrics) <= 3)%nat)
    by apply firstn_le_length.
  revert Hlen. generalize (firstn 3 metrics) as l. intros l Hlen.
  assert (H : forall i,
             map metricType (correlate random i l) = map AiService.type l
             /\ List.length (correlate random i l) = List.length l
             /\ forall c, In c (correlate random i l) ->
                  exists k, confidence c = num_of_Z k /\ 40 <= k <= 69).
  { clear Hlen. induction l as [|m l IH]; intro i.
    - cbn. repeat split. intros c [].
    - cbn [correlate map List.length].
      destruct (IH (S i)) as (Hm & Hl & Hc).
      split; [rewrite Hm; reflexivity|]. split; [rewrite Hl; reflexivity|].
      intros c [<-|Hin]; [|apply Hc, Hin].
      cbn [confidence]. destruct (Hr i) as [r [-> [Hlo Hhi]]].
      unfold mul, Math_floor. change (Fin 40) with (num_of_Z 40).
      rewrite add_num_of_Z. eexists. split; [reflexivity|].
      rewrite (Qfloor_comp _ _ (Qred_correct _)).
      assert (0 <= Qfloor (r * 30)).
      { apply floor_ge. change (inject_Z 0) with 0%Q. lra. }
      assert (~ 30 <= Qfloor (r * 30)).
      { intro H30. apply floor_ge in H30.
        change (inject_Z 30) with 30%Q in H30. lra. }
      lia. }
  destruct (H 0%nat) as (Hm & Hl & Hc).
  split; [exact Hm|]. split; [rewrite Hl; exact Hlen|exact Hc].
Qed.

Lemma findCorrelations_confidence_between_40_and_69_witness :
  map metricType
    (findCorrelations Scenarios.one_half Scenarios.severe_headache
       Examples.good_week)
  = map AiService.type (firstn 3 Examples.good_week)
  /\ (List.length
        (findCorrelations Scenarios.one_half Scenarios.severe_headache
           Examples.good_week) <= 3)%nat
  /\ forall c,
       In c (findCorrelations Scenarios.one_half Scenarios.severe_headache
               Examples.good_week) ->
       exists k, confidence c = num_of_Z k /\ 40 <= k <= 69.
Proof.
  apply (findCorrelations_confidence_between_40_and_69 Scenarios.one_half
           Scenarios.severe_headache Examples.good_week).
  intro i. exists (1 # 2). split; [reflexivity|].
  split; [unfold Qle; simpl; lia|reflexivity].
Defined.
End AdviceProperties.

Section FormatFacts.
Import JS NumberFormat.
Local Open Scope string_scope.
Local Open Scope Z_scope.

Lemma digit_cases (d : Z) :
  0 <= d < 10 ->
  d = 0 \/ d = 1 \/ d = 2 \/ d = 3 \/ d = 4 \/ d = 5 \/ d = 6 \/ d = 7
  \/ d = 8 \/ d = 9.
Proof. lia. Qed.

Lemma digit_of_char (d : Z) :
  0 <= d < 10 -> digit_of 10 (digit_char d) = Some d.
Proof.
  intro H. destruct (digit_cases d H) as [E|[E|[E|[E|[E|[E|[E|[E|[E|E]]]]]]]]];
    subst; reflexivity.
Qed.

(** A digit is no white space, no sign and not the start of [Infinity]. *)
Lemma digit_char_plain (d : Z) :
  0 <= d < 10 ->
  is_ws (digit_char d) = false
  /\ Ascii.eqb "I" (digit_char d) = false
  /\ digit_char d <> "+"%char /\ digit_char d <> "-"%char.
Proof.
  intro H. destruct (digit_cases d H) as [E|[E|[E|[E|[E|[E|[E|[E|[E|E]]]]]]]]];
    subst; repeat split; discriminate.
Qed.

Lemma scan_no_digit (s : string) (acc : Z) (n : nat) :
  no_leading_digit s -> scan_digits 10 s acc n = (acc, n, s).
Proof. destruct s; simpl; [reflexivity|]. intros ->. reflexivity. Qed.

Lemma scan_fixed (w : nat) (z : Z) (rest : string) :
  no_leading_digit rest ->
  forall acc n,
    scan_digits 10 (fixed_digits w z ++ rest) acc n
    = (acc * 10 ^ Z.of_nat w + z mod 10 ^ Z.of_nat w, (n + w)%nat, rest).
Proof.
  intro Hr. induction w as [|w IH]; intros acc n.
  - cbn [fixed_digits append]. rewrite (scan_no_digit _ _ _ Hr).
    rewrite Nat.add_0_r. change (10 ^ Z.of_nat 0) with 1.
    rewrite Z.mod_1_r. f_equal. f_equal. lia.
  - cbn [fixed_digits append scan_digits].
    rewrite digit_of_char by (apply Z.mod_pos_bound; lia).
    rewrite IH. replace (S n + w)%nat with (n + S w)%nat by lia.
    do 2 f_equal.
    rewrite Nat2Z.inj_succ, Z.pow_succ_r by lia.
    rewrite (Z.mul_comm 10 (10 ^ Z.of_nat w)).
    rewrite (Z.rem_mul_r z (10 ^ Z.of_nat w) 10) by lia.
    lia.
Qed.

Lemma count_digits_bound (fuel : nat) :
  forall z, 0 <= z < 2 ^ (Z.of_nat fuel + 1) ->
            z < 10 ^ Z.of_nat (count_digits fuel z).
Proof.
  induction fuel as [|fuel IH]; intros z Hz.
  - cbn in *. lia.
  - cbn [count_digits]. destruct (Z.ltb_spec z 10) as [L|L]; [cbn; lia|].
    rewrite Nat2Z.inj_succ, Z.pow_succ_r by lia.
    assert (Hq : z / 10 < 10 ^ Z.of_nat (count_digits fuel (z / 10))).
    { apply IH. split; [apply Z.div_pos; lia|].
      rewrite Nat2Z.inj_succ in Hz.
      replace (Z.succ (Z.of_nat fuel) + 1) with (Z.succ (Z.of_nat fuel + 1))
        in Hz by lia.
      rewrite Z.pow_succ_r in Hz by lia.
      apply Z.div_lt_upper_bound; lia. }
    pose proof (Z.div_mod z 10 ltac:(lia)).
    pose proof (Z.mod_pos_bound z 10 ltac:(lia)). lia.
Qed.

Lemma digits_bound (z : Z) :
  0 <= z -> z < 10 ^ Z.of_nat (count_digits (Z.to_nat (Z.log2 z)) z).
Proof.
  intro Hz. apply count_digits_bound. split; [exact Hz|].
  rewrite Z2Nat.id by apply Z.log2_nonneg.
  destruct (Z.eq_dec z 0) as [->|Hn]; [reflexivity|].
  replace (Z.log2 z + 1) with (Z.succ (Z.log2 z)) by lia.
  apply Z.log2_spec. lia.
Qed.

Lemma count_digits_succ (fuel : nat) (z : Z) :
  exists k, count_digits fuel z = S k.
Proof.
  destruct fuel; cbn; [exists 0%nat; reflexivity|].
  destruct (z <? 10); eexists; reflexivity.
Qed.

Lemma append_empty (s : string) : s ++ "" = s.
Proof. induction s as [|c s IH]; cbn; [reflexivity|]. rewrite IH. reflexivity. Qed.

(** Reading back [whole.fraction] printed with a fixed number of fraction
    digits. *)
Lemma parse_printed (ip n : Z) (f : nat) :
  0 <= ip -> 0 <= n ->
  prefix_value (digits ip ++ "." ++ fixed_digits (S f) n)
  = Fin (scale10 (ip * 10 ^ Z.of_nat (S f) + n mod 10 ^ Z.of_nat (S f))
                 (0 - Z.of_nat (S f))).
Proof.
  intros Hip Hn. unfold digits.
  pose proof (digits_bound ip Hip) as Hb.
  destruct (count_digits_succ (Z.to_nat (Z.log2 ip)) ip) as [k Ek].
  rewrite Ek in *.
  assert (Hscan : scan_digits 10
                    (fixed_digits (S k) ip ++ "." ++ fixed_digits (S f) n) 0 0
                  = (ip, S k, String "." (fixed_digits (S f) n))).
  { rewrite scan_fixed by reflexivity.
    rewrite Z.mod_small by lia. reflexivity. }
  assert (Hfrac : scan_digits 10 (fixed_digits (S f) n) ip 0
                  = (ip * 10 ^ Z.of_nat (S f) + n mod 10 ^ Z.of_nat (S f),
                     S f, "")).
  { rewrite <- (append_empty (fixed_digits (S f) n)) at 1.
    rewrite scan_fixed by exact I. reflexivity. }
  assert (Hd : 0 <= (ip / 10 ^ Z.of_nat k) mod 10 < 10)
    by (apply Z.mod_pos_bound; lia).
  destruct (digit_char_plain _ Hd) as (Hws & HI & Hplus & Hminus).
  revert Hscan.
  cbn [fixed_digits append].
  set (c := digit_char ((ip / 10 ^ Z.of_nat k) mod 10)) in *.
  set (tail := (fixed_digits k ip
                ++ String "." (String (digit_char ((n / 10 ^ Z.of_nat f) mod 10))
                                 (fixed_digits f n)))).
  intro Hscan.
  unfold prefix_value. cbn [skip_ws]. rewrite Hws.
  assert (Hdec : scan_decimal (String c tail) = scan_unsigned (String c tail)).
  { unfold scan_decimal.
    destruct c as [b0 b1 b2 b3 b4 b5 b6 b7].
    destruct b0, b1, b2, b3, b4, b5, b6, b7; try reflexivity;
      exfalso; (apply Hplus; reflexivity) || (apply Hminus; reflexivity). }
  rewrite Hdec. unfold scan_unsigned.
  cbn [strip_prefix]. rewrite HI.
  rewrite Hscan.
  change (String (digit_char ((n / 10 ^ Z.of_nat f) mod 10)) (fixed_digits f n))
    with (fixed_digits (S f) n).
  rewrite Hfrac. reflexivity.
Qed.

(** The digits are those of the binary64 value: 23 / 160 * 100 is
    14.374999999999998, and the number 70.35 is below 70.35. *)
Example toFixed_of_binary64 (exponential : Q -> string) :
  toFixed exponential 2
    (Binary64.mul (Binary64.div (Fin 23) (Fin 160)) (Fin 100)) = "14.37"
  /\ toFixed exponential 1 (Binary64.literal (7035 # 100)) = "70.3".
Proof. vm_compute. split; reflexivity. Qed.
End FormatFacts.

Section StatsFacts.
Import JS NumberFormat HealthGoal GoalStats.
Local Open Scope string_scope.
Local Open Scope Z_scope.

Lemma Qltb_true (a b : Q) : (a < b)%Q -> Qltb a b = true.
Proof. intro H. unfold Qltb. rewrite (proj1 (Qlt_alt a b) H). reflexivity. Qed.

Lemma Qltb_false (a b : Q) : (b <= a)%Q -> Qltb a b = false.
Proof.
  intro H. unfold Qltb. destruct (a ?= b)%Q eqn:E; try reflexivity.
  apply Qlt_alt in E. lra.
Qed.

(** What [parseFloat] reads back from [toFixed] with at least one fraction
    digit, for a value from 0 up to 10^21. *)
Lemma toFixed_read_back (exponential : Q -> string) (f : nat) (q : Q) :
  (0 <= q)%Q -> (q < inject_Z (10 ^ 21))%Q ->
  parseFloat_string (toFixed exponential (S f) (Fin q))
  = Binary64.round (Qfloor (q * inject_Z (10 ^ Z.of_nat (S f)) + (1 # 2))
                    # Z.to_pos (10 ^ Z.of_nat (S f))).
Proof.
  intros H0 Hbig. unfold toFixed.
  rewrite (Qltb_false q 0 H0).
  assert (Ea : (Qabs q == q)%Q) by (apply Qabs_pos, H0).
  rewrite (Qltb_true (Qabs q) _) by (rewrite Ea; exact Hbig).
  cbn [append].
  rewrite (Qfloor_comp (Qabs q * inject_Z (10 ^ Z.of_nat (S f)) + (1 # 2))
             (q * inject_Z (10 ^ Z.of_nat (S f)) + (1 # 2)))
    by (rewrite Ea; reflexivity).
  set (p := 10 ^ Z.of_nat (S f)).
  assert (Hp : 0 < p) by (apply Z.pow_pos_nonneg; lia).
  set (n := Qfloor (q * inject_Z p + (1 # 2))).
  assert (Hn : 0 <= n).
  { apply floor_ge. change (inject_Z 0) with 0%Q.
    assert ((0 <= inject_Z p)%Q)
      by (change 0%Q with (inject_Z 0); rewrite <- Zle_Qle; lia).
    assert ((0 <= q * inject_Z p)%Q) by (apply Qmult_le_0_compat; assumption).
    lra. }
  change (digits (n / p) ++ String "." (fixed_digits (S f) n))
    with (digits (n / p) ++ "." ++ fixed_digits (S f) n).
  unfold parseFloat_string.
  rewrite (parse_printed (n / p) n f (Z.div_pos n p Hn Hp) Hn).
  fold p. rewrite (Z.mul_comm (n / p) p), <- Z.div_mod by lia.
  unfold scale10.
  destruct (Z.leb_spec 0 (0 - Z.of_nat (S f))) as [L|L]; [lia|].
  replace (- (0 - Z.of_nat (S f))) with (Z.of_nat (S f)) by lia.
  fold p. cbn [Binary64.rounded]. apply round_Qred.
Qed.

Lemma status_partition (u : string) (collection : list Document) :
  (count_status u Status.active collection
   + count_status u Status.completed collection
   + count_status u Status.abandoned collection)%nat
  = List.length (filter (fun d => String.eqb (user (goal d)) u) collection).
Proof.
  unfold count_status, find_status.
  induction collection as [|d l IH]; [reflexivity|].
  cbn [filter]. destruct (String.eqb (user (goal d)) u); cbn [andb];
    [|exact IH].
  destruct (status (goal d)); cbn [Status.eqb List.length]; lia.
Qed.

Lemma category_partition (u : string) (collection : list Document) :
  fold_right (fun entry sum => (snd entry + sum)%nat) 0%nat
    (map (fun c => (c, count_category u c collection)) categories)
  = List.length (filter (fun d => String.eqb (user (goal d)) u) collection).
Proof.
  unfold categories, count_category. cbn [map fold_right snd].
  induction collection as [|d l IH]; [reflexivity|].
  cbn [filter]. destruct (String.eqb (user (goal d)) u); cbn [andb];
    [|exact IH].
  destruct (category d); cbn [Category.eqb List.length]; lia.
Qed.

Lemma filter_twice {A} (p q : A -> bool) (l : list A) :
  filter (fun x => p x && q x) (filter p l) = filter (fun x => p x && q x) l.
Proof.
  induction l as [|x l IH]; [reflexivity|].
  cbn [filter]. destruct (p x) eqn:E; cbn [filter andb]; [|exact IH].
  rewrite E. cbn [andb]. destruct (q x); [f_equal|]; exact IH.
Qed.

Lemma maximum_upper (rest : list Z) :
  forall first,
    first <= maximum first rest
    /\ (forall x, In x rest -> x <= maximum first rest)
    /\ In (maximum first rest) (first :: rest).
Proof.
  unfold maximum. induction rest as [|y r IH]; intro first.
  - cbn. split; [lia|]. split; [intros x []|left; reflexivity].
  - cbn [fold_left]. destruct (IH (Z.max first y)) as (H1 & H2 & H3).
    split; [lia|]. split.
    + intros x [<-|Hx]; [lia|apply H2, Hx].
    + destruct H3 as [H3|H3]; [|right; right; exact H3].
      rewrite <- H3. destruct (Z.max_spec first y) as [[_ ->]|[_ ->]];
        [right; left|left]; reflexivity.
Qed.

(** 23 completed goals of 160 are reported as 14.37 per cent. *)
Example completionRate_of_23_in_160 (exponential : Q -> string) :
  let goals st :=
    {| goal := Examples.goal st (Fin 0) (Examples.num 0) (Examples.num 10)
                 Frequency.daily [];
       category := Category.custom |} in
  completionRate
    (getGoalStats exponential "u1"
       (repeat (goals Status.completed) 23 ++ repeat (goals Status.active) 137))
  = Binary64.literal (1437 # 100).
Proof. vm_compute. reflexivity. Qed.
End StatsFacts.

Section StatsProperties.
Import JS NumberFormat HealthGoal GoalStats.
Local Open Scope string_scope.
Local Open Scope Z_scope.

(** X26.  In [getGoalStats], the total and the sum of the category counts both
    equal the number of the requesting user's goals, and the statistics do
    not depend on the goals of other users. *)
Theorem getGoalStats_counts_each_own_goal_once (exponential : Q -> string)
  (u : string) (collection : list Document) :
  let own := filter (fun d => String.eqb (user (goal d)) u) collection in
  let stats := getGoalStats exponential u collection in
  totalGoals stats = List.length own
  /\ fold_right (fun entry sum => (snd entry + sum)%nat) 0%nat
       (categoryCounts stats) = List.length own
  /\ getGoalStats exponential u own = stats.
Proof.
  intros own stats. subst stats. split; [apply status_partition|].
  split; [apply category_partition|].
  assert (Hf : forall st, find_status u st own = find_status u st collection).
  { intro st. unfold find_status. subst own.
    apply (filter_twice (fun d => String.eqb (user (goal d)) u)
             (fun d => Status.eqb (status (goal d)) st)). }
  assert (Hc : forall c, count_category u c own = count_category u c collection).
  { intro c. unfold count_category. subst own. f_equal.
    apply (filter_twice (fun d => String.eqb (user (goal d)) u)
             (fun d => Category.eqb (category d) c)). }
  unfold getGoalStats, count_status. rewrite !Hf.
  f_equal. apply map_ext. intro c. rewrite Hc. reflexivity.
Qed.

(** X27.  The completion rate [getGoalStats] reports is the binary64 value of a
    whole number of hundredths, between 0 and 100: 0 without goals, and
    otherwise that number of hundredths is within half a hundredth, and
    2^-45 for the rounding of the quotient and of the product, of the
    percentage of completed goals. *)
Theorem getGoalStats_completionRate_is_rounded_percentage
  (exponential : Q -> string) (u : string) (collection : list Document) :
  let stats := getGoalStats exponential u collection in
  exists (n : Z) (r : Q),
    completionRate stats = Fin r
    /\ Binary64.round (n # 100) = Fin r
    /\ 0 <= n <= 10000
    /\ (0 <= r <= 100)%Q
    /\ (totalGoals stats = 0%nat -> n = 0)
    /\ ((0 < totalGoals stats)%nat ->
        (inject_Z (100 * Z.of_nat (completedGoals stats))
         / inject_Z (Z.of_nat (totalGoals stats))
         - ((1 # 200) + 2 ^ (-45))
         <= n # 100
         <= inject_Z (100 * Z.of_nat (completedGoals stats))
            / inject_Z (Z.of_nat (totalGoals stats))
            + ((1 # 200) + 2 ^ (-45)))%Q).
Proof.
  intro stats. subst stats. unfold getGoalStats.
  cbn [completionRate totalGoals completedGoals].
  set (c := count_status u Status.completed collection).
  set (t := (count_status u Status.active collection + c
             + count_status u Status.abandoned collection)%nat).
  assert (Hct : (c <= t)%nat) by lia.
  assert (Hread : forall q : Q,
             (0 <= q <= 100)%Q ->
             exists (n : Z) (r : Q),
               parseFloat_string (toFixed exponential 2 (Fin q)) = Fin r
               /\ Binary64.round (n # 100) = Fin r
               /\ 0 <= n <= 10000
               /\ (0 <= r <= 100)%Q
               /\ ((q == 0)%Q -> n = 0)
               /\ (q - (1 # 200) <= n # 100 <= q + (1 # 200))%Q).
  { intros q [Hq0 Hq1].
    rewrite (toFixed_read_back exponential 1 q Hq0)
      by (apply Qle_lt_trans with 100%Q; [exact Hq1|reflexivity]).
    change (10 ^ Z.of_nat 2) with 100. change (Z.to_pos 100) with 100%positive.
    set (n := Qfloor (q * inject_Z 100 + (1 # 2))).
    pose proof (Qfloor_le (q * inject_Z 100 + (1 # 2))) as Hlo.
    pose proof (Qlt_floor (q * inject_Z 100 + (1 # 2))) as Hhi.
    fold n in Hlo, Hhi. rewrite inject_Z_plus in Hhi.
    change (inject_Z 1) with 1%Q in Hhi. change (inject_Z 100) with 100%Q in *.
    assert (Hn : 0 <= n <= 10000).
    { split.
      - apply floor_ge. change (inject_Z 0) with 0%Q. lra.
      - destruct (Z.le_gt_cases 10001 n) as [L|L]; [|lia].
        apply floor_ge in L. change (inject_Z 10001) with 10001%Q in L. lra. }
    assert (Hn0 : (0 <= inject_Z n)%Q)
      by (change 0%Q with (inject_Z 0); rewrite <- Zle_Qle; lia).
    assert (Hn1 : (inject_Z n <= 10000)%Q)
      by (change 10000%Q with (inject_Z 10000); rewrite <- Zle_Qle; lia).
    assert (En : (n # 100 == inject_Z n * (1 # 100))%Q)
      by (rewrite Qmake_Qdiv; reflexivity).
    destruct (round_between (n # 100) 100 100 0) as [r [Er Hr]];
      [split; [lia|reflexivity]|lia|reflexivity|rewrite En; split; lra|].
    exists n, r. split; [exact Er|]. split; [exact Er|].
    split; [exact Hn|]. split; [exact Hr|]. split.
    - intro E0. subst n. rewrite (Qfloor_comp _ (1 # 2)) by (rewrite E0; reflexivity).
      reflexivity.
    - rewrite En. split; lra. }
  destruct (Nat.ltb_spec 0 t) as [Ht|Ht].
  - unfold num_of_nat, num_of_Z.
    assert (Htq : (0 < inject_Z (Z.of_nat t))%Q)
      by (change 0%Q with (inject_Z 0); rewrite <- Zlt_Qlt; lia).
    assert (Hnz : ~ (inject_Z (Z.of_nat t) == 0)%Q)
      by (intro E; rewrite E in Htq; discriminate).
    rewrite (div_binary64 _ _ Hnz).
    set (x := (inject_Z (Z.of_nat c) / inject_Z (Z.of_nat t))%Q).
    assert (Hx : (0 <= x <= 1)%Q).
    { subst x. split.
      - apply Qle_shift_div_l; [exact Htq|]. rewrite Qmult_0_l.
        change 0%Q with (inject_Z 0). rewrite <- Zle_Qle. lia.
      - apply Qle_shift_div_r; [exact Htq|]. rewrite Qmult_1_l.
        rewrite <- Zle_Qle. lia. }
    destruct (round_between x 1 1 0) as [y [Ey Hy]];
      [split; [lia|reflexivity]|lia|reflexivity|exact Hx|].
    rewrite Ey. unfold Binary64.mul, mul. cbn [Binary64.rounded].
    rewrite round_Qred.
    destruct (round_between (y * 100) 100 100 0) as [q [Eq Hq]];
      [split; [lia|reflexivity]|lia|reflexivity|split; lra|].
    rewrite Eq.
    destruct (Hread q Hq) as (n & r & E1 & E2 & Hn & Hr & _ & Hclose).
    exists n, r. split; [exact E1|]. split; [exact E2|].
    split; [exact Hn|]. split; [exact Hr|]. split; [intro E; lia|].
    intros _.
    assert (Eexact : (inject_Z (100 * Z.of_nat c) / inject_Z (Z.of_nat t)
                      == x * 100)%Q).
    { subst x. rewrite inject_Z_mult. unfold Qdiv.
      change (inject_Z 100) with 100%Q. ring. }
    rewrite Eexact.
    pose proof (round_error x y Ey) as Ex.
    pose proof (round_error (y * 100) q Eq) as Ed.
    rewrite (Qabs_pos x) in Ex by apply Hx.
    rewrite (Qabs_pos (y * 100)) in Ed by lra.
    assert (Hu : (2 ^ (-53) == 1 # 9007199254740992)%Q) by reflexivity.
    assert (He : (0 < 2 ^ (-1075) <= 1 # 1152921504606846976)%Q)
      by (split; [reflexivity|apply Qlt_le_weak; reflexivity]).
    assert (H45 : (2 ^ (-45) == 1 # 35184372088832)%Q) by reflexivity.
    rewrite Hu in Ex, Ed. rewrite H45.
    set (eta := (2 ^ (-1075))%Q) in *.
    destruct Ex as [Ex1 Ex2]. destruct Ed as [Ed1 Ed2].
    destruct Hclose as [Hc1 Hc2]. destruct Hx, Hy, Hq, He.
    split; lra.
  - assert (t = 0%nat) by lia.
    destruct (Hread 0%Q ltac:(split; discriminate))
      as (n & r & E1 & E2 & Hn & Hr & Hz & _).
    exists n, r. split; [exact E1|]. split; [exact E2|].
    split; [exact Hn|]. split; [exact Hr|].
    split; [intros _; apply Hz; reflexivity|]. intro Hc. lia.
Qed.

(** X28.  The longest streak [getGoalStats] reports is the streak of one of the
    user's active goals and no active goal has a greater one; without active
    goals the longest and the average streak are 0. *)
Theorem getGoalStats_longestStreak_is_the_greatest
  (exponential : Q -> string) (u : string) (collection : list Document) :
  let active := find_status u Status.active collection in
  let stats := getGoalStats exponential u collection in
  (forall d, In d active -> streak (goal d) <= longestStreak stats)
  /\ (active <> [] ->
      exists d, In d active /\ streak (goal d) = longestStreak stats)
  /\ (active = [] -> longestStreak stats = 0 /\ averageStreak stats = Fin 0).
Proof.
  intros active stats. subst stats. unfold getGoalStats.
  cbn [longestStreak averageStreak]. fold active.
  destruct active as [|d0 l]; cbn [map].
  - split; [intros d []|]. split; [intro H; contradiction|].
    intros _. split; reflexivity.
  - destruct (maximum_upper (map (fun d => streak (goal d)) l)
                (streak (goal d0))) as (H1 & H2 & H3).
    split; [|split].
    + intros d [<-|Hd]; [exact H1|]. apply H2, in_map_iff.
      exists d. split; [reflexivity|exact Hd].
    + intros _. destruct H3 as [H3|H3].
      * exists d0. split; [left; reflexivity|exact H3].
      * apply in_map_iff in H3. destruct H3 as [d [Hs Hd]].
        exists d. split; [right; exact Hd|exact Hs].
    + discriminate.
Qed.
End StatsProperties.

Section ObservationFacts.
Import JS NumberFormat AiService Observations.
Local Open Scope string_scope.

Lemma of_type_same (a : string) (metrics : list Metric) :
  of_type a (of_type a metrics) = of_type a metrics.
Proof.
  unfold of_type. induction metrics as [|m l IH]; [reflexivity|].
  cbn [filter]. destruct (String.eqb (type m) a) eqn:E; [|exact IH].
  cbn [filter]. rewrite E, IH. reflexivity.
Qed.

Lemma of_type_other (a b : string) (metrics : list Metric) :
  String.eqb a b = false -> of_type a (of_type b metrics) = [].
Proof.
  intro H. unfold of_type. induction metrics as [|m l IH]; [reflexivity|].
  cbn [filter]. destruct (String.eqb (type m) b) eqn:E; [|exact IH].
  cbn [filter]. apply String.eqb_eq in E. rewrite E.
  rewrite String.eqb_sym, H. exact IH.
Qed.
End ObservationFacts.

Section ObservationProperties.
Import JS NumberFormat AiService Observations.
Local Open Scope string_scope.

(** X29.  [generateObservations] is its result on the heart-rate samples, followed
    by its result on the sleep samples, followed by its result on the step
    samples, each one sentence when there is such a sample and none
    otherwise; samples of other types add nothing. *)
Theorem generateObservations_one_sentence_per_type
  (exponential : Q -> string) (metrics : list Metric) :
  let only t := generateObservations exponential (of_type t metrics) in
  generateObservations exponential metrics
  = (only "heart_rate" ++ only "sleep" ++ only "steps")%list
  /\ List.length (only "heart_rate")
     = Nat.b2n (non_empty (of_type "heart_rate" metrics))
  /\ List.length (only "sleep") = Nat.b2n (non_empty (of_type "sleep" metrics))
  /\ List.length (only "steps") = Nat.b2n (non_empty (of_type "steps" metrics)).
Proof.
  intro only. subst only. unfold generateObservations.
  rewrite !of_type_same.
  rewrite !(of_type_other "heart_rate" "sleep"), !(of_type_other "heart_rate" "steps"),
    !(of_type_other "sleep" "heart_rate"), !(of_type_other "sleep" "steps"),
    !(of_type_other "steps" "heart_rate"), !(of_type_other "steps" "sleep")
    by reflexivity.
  change (non_empty (@nil Metric)) with false. cbv iota.
  assert (Hz : forall l : list Metric,
             (List.length l =? 0)%nat = negb (non_empty l))
    by (intros [|? ?]; reflexivity).
  rewrite !Hz.
  assert (Hm : non_empty metrics = false ->
               non_empty (of_type "heart_rate" metrics) = false
               /\ non_empty (of_type "sleep" metrics) = false
               /\ non_empty (of_type "steps" metrics) = false)
    by (destruct metrics; [repeat split|discriminate]).
  destruct (non_empty metrics) eqn:Em; cbn [negb].
  - destruct (non_empty (of_type "heart_rate" metrics));
      destruct (non_empty (of_type "sleep" metrics));
      destruct (non_empty (of_type "steps" metrics)); cbn [negb];
      repeat match goal with
             | |- context [if ?c then _ else _] => destruct c
             end;
      repeat split.
  - destruct (Hm eq_refl) as (-> & -> & ->). repeat split.
Qed.
End ObservationProperties.
